(** * AutoSTAAD: node table validation and STAAD.Pro joint file generation

    A shallow embedding of [node_to_staad.py]: [read_node_data],
    [validate_node_data] and [generate_staad_file], together with the
    part of Python and pandas these three functions rely on.

    Layout:
    - [Py]      Python scalars: [int()], [float()], [str.endswith],
                the [:.6f] format, comparison of scalars. How Python and
                pandas read text as a number is a parameter, [Text];
    - [Pandas]  the table: [to_numeric(errors='coerce')], [dropna],
                [duplicated(keep=False)], [sort_values], [unique], on
                cells that are missing, [int], [float] or [str];
    - the three functions of the script, written with explicit state
      (the table that is mutated in place, the destination file, the
      printed transcript);
    - the properties. *)

From Stdlib Require Import ZArith String Ascii List Lia Bool.
From Stdlib Require Import Sorting.Sorted Sorting.Permutation.
From Stdlib Require Import Orders OrdersEx.
From Stdlib Require Import Floats.SpecFloat DecimalString.
From stdpp Require Import gmap strings list fin_maps.

Open Scope string_scope.
Open Scope list_scope.
Open Scope Z_scope.

(* ===================================================================== *)
(** * Python scalars *)
(* ===================================================================== *)

Module Py.

(** A Python [float] is an IEEE 754 binary64 number: [spec_float] with
    53 bits of precision and maximal exponent 1024. *)
Definition prec : Z := 53.
Definition emax : Z := 1024.

(** The nearest binary64 number to [m * 2^e] (ties to even). *)
Definition round64 (m e : Z) : spec_float := binary_normalize prec emax m e false.

(** The values a table cell holds: [None]/missing, a Python [int], a
    Python [float] (NaN included) or a Python [str]. *)
Inductive cell : Type :=
| CNull
| CInt (n : Z)
| CFloat (f : spec_float)
| CStr (s : string).

(** The exceptions the script can meet, and the outcome of a call that
    may raise. *)
Inductive exception : Type :=
| KeyError (key : string)
| TypeError
| ValueError
| OverflowError
| OSError
| ParserError (reason : string).

Inductive result (A : Type) : Type :=
| Ok (a : A)
| Raise (e : exception).
Arguments Ok {A} a.
Arguments Raise {A} e.

(** ** Characters *)

Definition is_digit (c : ascii) : bool :=
  let n := nat_of_ascii c in (48 <=? n)%nat && (n <=? 57)%nat.

Definition digit_val (c : ascii) : Z := Z.of_nat (nat_of_ascii c) - 48.

Definition digit_char (d : Z) : ascii := ascii_of_nat (48 + Z.to_nat d).

(** White space for C's [isspace], which pandas' number parser skips:
    space, \t, \n, \v, \f, \r. *)
Definition is_space_c (c : ascii) : bool :=
  let n := nat_of_ascii c in (n =? 32)%nat || ((9 <=? n)%nat && (n <=? 13)%nat).

(** White space for [str.strip()] and [int()], among the ASCII
    characters: the six above and the separators \x1c to \x1f. *)
Definition is_space (c : ascii) : bool :=
  let n := nat_of_ascii c in
  is_space_c c || ((28 <=? n)%nat && (n <=? 31)%nat).

Definition lower (c : ascii) : ascii :=
  let n := nat_of_ascii c in
  if (65 <=? n)%nat && (n <=? 90)%nat then ascii_of_nat (n + 32) else c.

Fixpoint lstrip (space : ascii -> bool) (l : list ascii) : list ascii :=
  match l with
  | c :: l' => if space c then lstrip space l' else l
  | [] => []
  end.

(** [s.strip()] on the characters of an ASCII [s]. *)
Definition strip (l : list ascii) : list ascii :=
  rev (lstrip is_space (rev (lstrip is_space l))).

(** The same for the white space of C. *)
Definition strip_c (l : list ascii) : list ascii :=
  rev (lstrip is_space_c (rev (lstrip is_space_c l))).

Definition is_finite (f : spec_float) : bool :=
  match f with
  | S754_zero _ | S754_finite _ _ _ => true
  | _ => false
  end.

(** Splits off an optional sign; [true] is the minus sign. *)
Definition take_sign (l : list ascii) : bool * list ascii :=
  match l with
  | "-"%char :: l' => (true, l')
  | "+"%char :: l' => (false, l')
  | _ => (false, l)
  end.

(** Reads the longest prefix of digits: its value (continuing [acc]),
    how many digits were read, and the rest. *)
Fixpoint take_digits (acc : Z) (n : Z) (l : list ascii) : Z * Z * list ascii :=
  match l with
  | c :: l' =>
      if is_digit c then take_digits (10 * acc + digit_val c) (n + 1) l'
      else (acc, n, l)
  | [] => (acc, n, [])
  end.

(** ** [str.endswith] *)

Fixpoint is_prefix (p l : list ascii) : bool :=
  match p, l with
  | [], _ => true
  | a :: p', b :: l' => if Ascii.eqb a b then is_prefix p' l' else false
  | _ :: _, [] => false
  end.

Definition endswith (s suffix : string) : bool :=
  is_prefix (rev (list_ascii_of_string suffix)) (rev (list_ascii_of_string s)).

(** ** [int(...)] *)

(** Digits of an [int] literal after its sign: groups of digits
    separated by single underscores. [started] tells whether the
    previous character was a digit. *)
Fixpoint int_digits (acc : Z) (started : bool) (l : list ascii) : option Z :=
  match l with
  | [] => if started then Some acc else None
  | c :: l' =>
      if is_digit c then int_digits (10 * acc + digit_val c) true l'
      else if Ascii.eqb c "_" && started then
             match l' with
             | d :: _ => if is_digit d then int_digits acc false l' else None
             | [] => None
             end
           else None
  end.

(** [int(s)] for an ASCII string. *)
Definition int_of_str (s : string) : result Z :=
  let '(neg, l) := take_sign (strip (list_ascii_of_string s)) in
  match int_digits 0 false l with
  | Some n => Ok (if neg then - n else n)
  | None => Raise ValueError
  end.

(** [int(x)] for a float: truncation toward zero. *)
Definition int_of_float (f : spec_float) : result Z :=
  match f with
  | S754_zero _ => Ok 0
  | S754_finite s m e =>
      let a := Z.shiftl (Z.pos m) e in Ok (if s then - a else a)
  | S754_infinity _ => Raise OverflowError
  | S754_nan => Raise ValueError
  end.

(** [str(n)] for an [int]: also what [f"{n}"] writes. *)
Definition str_of_int (n : Z) : string := NilZero.string_of_int (Z.to_int n).

(** ** Decimal text to float *)

(** The binary64 number nearest to [m * 10^k], [m > 0]. For [k < 0] the
    quotient is computed with at least 55 significant bits and a sticky
    bit, so that the final rounding is the rounding of the exact value. *)
Definition float_of_decimal (neg : bool) (m k : Z) : spec_float :=
  if m =? 0 then S754_zero neg
  else
    let r :=
      if 0 <=? k then round64 (m * 10 ^ k) 0
      else
        let d := 10 ^ (- k) in
        let s := Z.max 0 (56 + Z.log2 d - Z.log2 m) in
        let q := (m * 2 ^ s) / d in
        let sticky := if (m * 2 ^ s) mod d =? 0 then 0 else 1 in
        round64 (2 * q + sticky) (- s - 1)
    in if neg then SFopp r else r.

(** [s.lower() == name] on the characters of [s]. *)
Definition string_eqb_ci (l : list ascii) (name : string) : bool :=
  String.eqb (string_of_list_ascii (map lower l)) name.

(** Optional exponent part [e[+-]ddd] closing a decimal literal. *)
Definition take_exponent (l : list ascii) : option Z :=
  match l with
  | [] => Some 0
  | c :: l' =>
      if Ascii.eqb (lower c) "e" then
        let '(neg, l'') := take_sign l' in
        match take_digits 0 0 l'' with
        | (v, n, []) => if 0 <? n then Some (if neg then - v else v) else None
        | _ => None
        end
      else None
  end.

(** A decimal literal [[+-]ddd[.ddd][e[+-]ddd]] as a finite float;
    [None] when the characters are no such literal or the number is out
    of the range of a float. *)
Definition decimal_literal (l : list ascii) : option spec_float :=
  let '(neg, l1) := take_sign l in
  let '(ip, ni, l2) := take_digits 0 0 l1 in
  let '(m, nf, l3) :=
    match l2 with
    | "."%char :: l2' => take_digits ip 0 l2'
    | _ => (ip, 0, l2)
    end in
  if (ni + nf =? 0) then None
  else
    match take_exponent l3 with
    | Some e =>
        let f := float_of_decimal neg m (e - nf) in
        if is_finite f then Some f else None
    | None => None
    end.

(** One of [inf], [infinity], in any case and with an optional sign. *)
Definition infinity_literal (l : list ascii) : option spec_float :=
  let '(neg, l1) := take_sign l in
  if string_eqb_ci l1 "inf" || string_eqb_ci l1 "infinity"
  then Some (S754_infinity neg)
  else None.

(** A reading of ASCII text as pandas' parser reads it under
    [to_numeric]: an infinity with nothing around it, or a decimal
    literal between white space of C. [None] stands for text that is
    not a number. *)
Definition numeric_of_str (s : string) : option spec_float :=
  match infinity_literal (list_ascii_of_string s) with
  | Some f => Some f
  | None => decimal_literal (strip_c (list_ascii_of_string s))
  end.

(** A reading of ASCII text as [float(s)] reads it: [nan], an infinity
    or a decimal literal, between white space. *)
Definition float_of_str (s : string) : result spec_float :=
  let l := strip (list_ascii_of_string s) in
  if string_eqb_ci (snd (take_sign l)) "nan" then Ok S754_nan
  else
    match infinity_literal l with
    | Some f => Ok f
    | None =>
        match decimal_literal l with
        | Some f => Ok f
        | None => Raise ValueError
        end
    end.

(** ** Text as numbers *)

(** How text is read as a number is left to Python and pandas: [int(s)],
    [float(s)], what [pd.to_numeric(..., errors='coerce')] makes of one
    string ([None] where it gives NaN), and [s.strip()]. Every property
    below holds whatever these four functions are; the examples are
    computed with [ascii_text], built from the readings above. *)
Class Text : Type := {
  text_int : string -> result Z;
  text_float : string -> result spec_float;
  text_numeric : string -> option spec_float;
  text_strip : string -> string
}.

Definition ascii_text : Text :=
  {| text_int := int_of_str;
     text_float := float_of_str;
     text_numeric := numeric_of_str;
     text_strip := fun s => string_of_list_ascii (strip (list_ascii_of_string s)) |}.

Section Conversions.

Context {T : Text}.

(** [int(v)] for a cell value. [None] raises [TypeError]; a missing
    value that pandas holds as NaN is the float NaN and raises
    [ValueError]. *)
Definition int (v : cell) : result Z :=
  match v with
  | CNull => Raise TypeError
  | CInt n => Ok n
  | CFloat f => int_of_float f
  | CStr s => text_int s
  end.

(** [float(v)] for a cell value. An [int] is rounded to the nearest
    float (exactly itself up to 2^53 in magnitude), and one that rounds
    beyond the largest float raises [OverflowError]. *)
Definition float (v : cell) : result spec_float :=
  match v with
  | CNull => Raise TypeError
  | CInt n =>
      if is_finite (round64 n 0) then Ok (round64 n 0) else Raise OverflowError
  | CFloat f => Ok f
  | CStr s => text_float s
  end.

End Conversions.

(** ** The [:.6f] format *)

(** The [k] lowest decimal digits of [n], most significant first. *)
Fixpoint fixed_digits (k : nat) (n : Z) : list ascii :=
  match k with
  | O => []
  | S k' => fixed_digits k' (n / 10) ++ [digit_char (n mod 10)]
  end.

(** [m * 2^e * 10^6] rounded to the nearest integer, ties to even. *)
Definition scaled6 (m : positive) (e : Z) : Z :=
  let n := Z.pos m * 10 ^ 6 in
  if 0 <=? e then n * 2 ^ e
  else
    let d := 2 ^ (- e) in
    let q := n / d in
    let r := n mod d in
    match 2 * r ?= d with
    | Lt => q
    | Gt => q + 1
    | Eq => if Z.even q then q else q + 1
    end.

Definition fixed6 (neg : bool) (n : Z) : string :=
  (if neg then "-" else "") +:+ str_of_int (n / 10 ^ 6) +:+ "." +:+
  string_of_list_ascii (fixed_digits 6 (n mod 10 ^ 6)).

(** [f"{x:.6f}"]. *)
Definition format_6f (x : spec_float) : string :=
  match x with
  | S754_zero s => fixed6 s 0
  | S754_finite s m e => fixed6 s (scaled6 m e)
  | S754_infinity s => if s then "-inf" else "inf"
  | S754_nan => "nan"
  end.

(** ** Comparison of scalars *)

(** A number on the extended line; a finite one is [m * 2^e] exactly. *)
Inductive ext : Type :=
| MInf
| Fin (m e : Z)
| PInf.

Definition ext_of_float (f : spec_float) : option ext :=
  match f with
  | S754_zero _ => Some (Fin 0 0)
  | S754_finite s m e => Some (Fin (if s then Z.neg m else Z.pos m) e)
  | S754_infinity s => Some (if s then MInf else PInf)
  | S754_nan => None
  end.

Definition ext_of (v : cell) : option ext :=
  match v with
  | CInt n => Some (Fin n 0)
  | CFloat f => ext_of_float f
  | CNull | CStr _ => None
  end.

Definition ext_compare (a b : ext) : comparison :=
  match a, b with
  | MInf, MInf => Eq
  | MInf, _ => Lt
  | _, MInf => Gt
  | PInf, PInf => Eq
  | PInf, _ => Gt
  | _, PInf => Lt
  | Fin m1 e1, Fin m2 e2 =>
      let e := Z.min e1 e2 in
      (m1 * 2 ^ (e1 - e)) ?= (m2 * 2 ^ (e2 - e))
  end.

(** Three-way comparison as [<] and [==] decide it: numbers are compared
    by value whatever their type, strings character by character;
    [None] when Python has no order between the two values (a string
    against a number raises [TypeError] under [<]) or one is missing. *)
Definition compare (a b : cell) : option comparison :=
  match a, b with
  | CStr s, CStr t => Some (String.compare s t)
  | _, _ =>
      match ext_of a, ext_of b with
      | Some x, Some y => Some (ext_compare x y)
      | _, _ => None
      end
  end.

(** [a == b]. *)
Definition eqb (a b : cell) : bool :=
  match compare a b with Some Eq => true | _ => false end.

(** [not (b < a)], where [<] is defined. *)
Definition leb (a b : cell) : bool :=
  match compare a b with Some Gt => false | _ => true end.

End Py.


(* ===================================================================== *)
(** * The pandas table *)
(* ===================================================================== *)

Module Pandas.
Import Py.

(** A [DataFrame] as a list of records: the column labels in order and
    one dictionary per row, as [iterrows()] hands the rows out. A label
    without an entry in a row is a missing value, as when pandas builds
    a table from records. *)
Record DataFrame : Type := {
  columns : list string;
  rows : list (gmap string cell)
}.

(** [row[c]] *)
Definition get (row : gmap string cell) (c : string) : cell :=
  default CNull (row !! c).

(** [c in df.columns] *)
Definition has_column (df : DataFrame) (c : string) : bool :=
  bool_decide (c ∈ columns df).

(** [len(df)] *)
Definition len (df : DataFrame) : nat := length (rows df).

(** [pd.isna(v)]: [None] and NaN. *)
Definition isna (v : cell) : bool :=
  match v with
  | CNull | CFloat S754_nan => true
  | _ => false
  end.

Section Coercion.

Context {T : Text}.

(** [pd.to_numeric(..., errors='coerce')] on one value: numbers stay,
    text is parsed, and what is not a number becomes NaN. The value is
    kept as the number it stands for: pandas gives the whole column one
    dtype (an [int] beside a float becomes that float), which changes
    neither what [float(...)] reads from the cell nor whether the cell
    is missing. An [int] too large for a float is outside this
    function: pandas raises on it; the properties that depend on it
    carry [fits_float] as a hypothesis. *)
Definition to_numeric (v : cell) : cell :=
  match v with
  | CNull => CFloat S754_nan
  | CInt n => CInt n
  | CFloat f => CFloat f
  | CStr s =>
      match text_numeric s with
      | Some f => CFloat f
      | None => CFloat S754_nan
      end
  end.

End Coercion.

(** [df[c] = f(df[c])], the assignment that changes [df] in place. *)
Definition map_column (c : string) (f : cell -> cell) (df : DataFrame) : DataFrame :=
  {| columns := columns df;
     rows := map (fun row => <[c := f (get row c)]> row) (rows df) |}.

(** A row with no missing value under the labels of [subset]. *)
Definition complete (subset : list string) (row : gmap string cell) : bool :=
  forallb (fun c => negb (isna (get row c))) subset.

(** [df.dropna(subset=subset)] *)
Definition dropna (subset : list string) (df : DataFrame) : DataFrame :=
  {| columns := columns df; rows := List.filter (complete subset) (rows df) |}.

(** Two values that [duplicated] and [unique] put in one group: equal
    under [==], or both missing. *)
Definition same_value (a b : cell) : bool :=
  (isna a && isna b) || eqb a b.

Definition same_key (subset : list string) (r1 r2 : gmap string cell) : bool :=
  forallb (fun c => same_value (get r1 c) (get r2 c)) subset.

(** The mask of [df.duplicated(subset=subset, keep=False)]: a row is
    marked when another row, before or after it, has the same key. *)
Fixpoint duplicated_mask (subset : list string)
    (before l : list (gmap string cell)) : list bool :=
  match l with
  | [] => []
  | r :: after =>
      (existsb (same_key subset r) before || existsb (same_key subset r) after)
        :: duplicated_mask subset (r :: before) after
  end.

Definition duplicated (subset : list string) (df : DataFrame) : list bool :=
  duplicated_mask subset [] (rows df).

(** [l[mask]] *)
Fixpoint select {A : Type} (mask : list bool) (l : list A) : list A :=
  match mask, l with
  | b :: mask', a :: l' => if b then a :: select mask' l' else select mask' l'
  | _, _ => []
  end.

(** [df[mask]] *)
Definition loc (df : DataFrame) (mask : list bool) : DataFrame :=
  {| columns := columns df; rows := select mask (rows df) |}.

(** [series.unique()]: the values in order of first appearance. *)
Fixpoint unique_from (seen l : list cell) : list cell :=
  match l with
  | [] => []
  | v :: l' =>
      if existsb (same_value v) seen then unique_from seen l'
      else v :: unique_from (v :: seen) l'
  end.

Definition unique (l : list cell) : list cell := unique_from [] l.

(** The values of one column: [df[c].tolist()]. *)
Definition column (df : DataFrame) (c : string) : list cell :=
  map (fun row => get row c) (rows df).

(** ** [sort_values] *)

Definition is_number (v : cell) : bool :=
  match ext_of v with Some _ => true | None => false end.

Definition is_text (v : cell) : bool :=
  match v with CStr _ => true | _ => false end.

(** Keys that [<] can order: all numbers or all strings. With two or
    more keys of both kinds, sorting has to compare a string with a
    number, and Python raises [TypeError]. *)
Definition orderable (keys : list cell) : bool :=
  forallb is_number keys || forallb is_text keys.

Fixpoint insert_sorted (by_ : string) (r : gmap string cell)
    (l : list (gmap string cell)) : list (gmap string cell) :=
  match l with
  | [] => [r]
  | h :: t =>
      if leb (get r by_) (get h by_) then r :: l
      else h :: insert_sorted by_ r t
  end.

Definition sort_rows (by_ : string) (l : list (gmap string cell)) :
    list (gmap string cell) :=
  fold_right (insert_sorted by_) [] l.

(** [df.sort_values(by)], ascending, missing keys last. The rows with a
    key are sorted by insertion, which keeps rows of equal key in their
    order (pandas' default algorithm promises no order among them, and
    nothing below depends on it). *)
Definition sort_values (by_ : string) (df : DataFrame) : result DataFrame :=
  if has_column df by_ then
    let keyed := List.filter (fun r => negb (isna (get r by_))) (rows df) in
    let unkeyed := List.filter (fun r => isna (get r by_)) (rows df) in
    if orderable (map (fun r => get r by_) keyed) then
      Ok {| columns := columns df; rows := sort_rows by_ keyed ++ unkeyed |}
    else Raise TypeError
  else Raise (KeyError by_).

End Pandas.

(* ===================================================================== *)
(** * The script *)
(* ===================================================================== *)

Import Py Pandas.

(** What the script prints, one constructor per thing reported (some take
    two [print] calls); the wording is left out, the values shown are
    kept. *)
Inductive message : Type :=
(* read_node_data *)
| FileNotFound (file_path : string)
| ReadingExcel (file_path : string)
| ReadingCsv (file_path : string)
| UnsupportedFormat
| NodesRead (count : nat)
| ReadFailed (e : exception)
(* validate_node_data *)
| ReportHeader
| MissingColumns (missing_columns available : list string)
| ColumnsFound
| MissingValues (missing_count : nat)
| NoMissingValues
| DuplicateIds (count : nat) (appearances : list (cell * nat))
| NoDuplicateIds
| DuplicateCoords (count : nat) (nodes : list (cell * (cell * cell * cell)))
| NoDuplicateCoords
| NonNumeric (non_numeric_errors : list (string * nat * list cell))
| AllNumeric
| ValidationPassed (valid : nat)
| ValidationFailed
(* generate_staad_file *)
| Generated (output_filename : string) (written : nat)
| GenerateFailed (e : exception).

(** ** [read_node_data] *)

Section Loader.

(** [pd.read_excel] and [pd.read_csv], from the bytes of the file to a
    table or an exception. *)
Variable read_excel : string -> result DataFrame.
Variable read_csv : string -> result DataFrame.

(** The files that exist, by path. *)
Variable fs : gmap string string.

Definition read_node_data (file_path : string) : list message * option DataFrame :=
  match fs !! file_path with
  | None => ([FileNotFound file_path], None)
  | Some content =>
      if endswith file_path ".xlsx" || endswith file_path ".xls" then
        match read_excel content with
        | Ok df => ([ReadingExcel file_path; NodesRead (len df)], Some df)
        | Raise e => ([ReadingExcel file_path; ReadFailed e], None)
        end
      else if endswith file_path ".csv" then
        match read_csv content with
        | Ok df => ([ReadingCsv file_path; NodesRead (len df)], Some df)
        | Raise e => ([ReadingCsv file_path; ReadFailed e], None)
        end
      else ([UnsupportedFormat], None)
  end.

End Loader.

(** ** [validate_node_data] *)

Definition required_columns : list string := ["node_id"; "x"; "y"; "z"].

(** Check 3: the rows of [df_clean] whose [node_id] appears more than
    once, and per such id how many times it appears. *)
Definition check_duplicate_ids (df_clean : DataFrame) : message * bool :=
  let duplicate_ids := loc df_clean (duplicated ["node_id"] df_clean) in
  if (0 <? len duplicate_ids)%nat then
    let duplicate_id_list := unique (column duplicate_ids "node_id") in
    (DuplicateIds (len duplicate_ids)
       (map (fun dup_id =>
               (dup_id,
                length (List.filter (fun v => eqb v dup_id)
                                    (column duplicate_ids "node_id"))))
            duplicate_id_list),
     false)
  else (NoDuplicateIds, true).

(** Check 4: the rows of [df_clean] whose (x, y, z) appears more than
    once, each shown with the values the table holds ([iterrows] may
    hand an [int] of the row out as the float equal to it). *)
Definition check_duplicate_coords (df_clean : DataFrame) : message * bool :=
  let duplicate_coords := loc df_clean (duplicated ["x"; "y"; "z"] df_clean) in
  if (0 <? len duplicate_coords)%nat then
    (DuplicateCoords (len duplicate_coords)
       (map (fun row => (get row "node_id", (get row "x", get row "y", get row "z")))
            (rows duplicate_coords)),
     false)
  else (NoDuplicateCoords, true).

Section Validator.

Context {T : Text}.

(** Check 5: per coordinate column, the rows of [df_clean] whose value
    is NaN once coerced. *)
Definition non_numeric_in (df_clean : DataFrame) (col : string) :
    list (string * nat * list cell) :=
  let non_numeric :=
    loc df_clean (map (fun v => isna (to_numeric v)) (column df_clean col)) in
  if (0 <? len non_numeric)%nat
  then [(col, len non_numeric, column non_numeric "node_id")]
  else [].

Definition check_numeric (df_clean : DataFrame) : message * bool :=
  let non_numeric_errors := flat_map (non_numeric_in df_clean) ["x"; "y"; "z"] in
  match non_numeric_errors with
  | [] => (AllNumeric, true)
  | _ :: _ => (NonNumeric non_numeric_errors, false)
  end.

Definition validate_node_data (df : DataFrame) : list message * bool :=
  let missing_columns :=
    List.filter (fun col => negb (has_column df col)) required_columns in
  match missing_columns with
  | _ :: _ => ([ReportHeader; MissingColumns missing_columns (columns df)], false)
  | [] =>
      let initial_count := len df in
      let df_clean := dropna required_columns df in
      let missing_count := (initial_count - len df_clean)%nat in
      let check2 :=
        if (0 <? missing_count)%nat then (MissingValues missing_count, false)
        else (NoMissingValues, true) in
      let check3 := check_duplicate_ids df_clean in
      let check4 := check_duplicate_coords df_clean in
      let check5 := check_numeric df_clean in
      let validation_passed :=
        snd check2 && snd check3 && snd check4 && snd check5 in
      ([ReportHeader; ColumnsFound; fst check2; fst check3; fst check4; fst check5;
        if validation_passed then ValidationPassed (len df_clean)
        else ValidationFailed],
       validation_passed)
  end.

End Validator.

(** ** [generate_staad_file] *)

(** What a call can change: the table it was handed (the caller's own
    object), the files on disk, and the paths that cannot be opened for
    writing. *)
Record state : Type := {
  frame : DataFrame;
  fs : gmap string string;
  locked : gset string
}.

(** A computation that may raise and that keeps its effects when it
    does. *)
Definition M (A : Type) : Type := state -> result A * state.

Definition ret {A : Type} (a : A) : M A := fun st => (Ok a, st).

Definition bind {A B : Type} (m : M A) (k : A -> M B) : M B :=
  fun st =>
    match m st with
    | (Ok a, st') => k a st'
    | (Raise e, st') => (Raise e, st')
    end.

Notation "x <- m ;; k" := (bind m (fun x => k))
  (at level 100, m at next level, right associativity).
Notation "m ;;; k" := (bind m (fun _ => k))
  (at level 100, right associativity).

Definition lift {A : Type} (r : result A) : M A := fun st => (r, st).

Section Generator.

Context {T : Text}.

(** [df[c] = pd.to_numeric(df[c], errors='coerce')] *)
Definition coerce_column (c : string) : M unit :=
  fun st =>
    if has_column (frame st) c then
      (Ok tt, {| frame := map_column c to_numeric (frame st);
                 fs := fs st; locked := locked st |})
    else (Raise (KeyError c), st).

(** [open(path, 'w')]: the file is created or emptied. *)
Definition open_w (path : string) : M unit :=
  fun st =>
    if bool_decide (path ∈ locked st) then (Raise OSError, st)
    else (Ok tt, {| frame := frame st; fs := <[path := ""]> (fs st);
                    locked := locked st |}).

(** [f.write(text)] on the file opened at [path]: the text is appended
    as Python hands it over, and it is on disk when the [with] block is
    left, whether by its end or by an exception. *)
Definition write (path text : string) : M unit :=
  fun st =>
    (Ok tt, {| frame := frame st;
               fs := <[path := default "" (fs st !! path) +:+ text]> (fs st);
               locked := locked st |}).

Definition newline : string := String (ascii_of_nat 10) "".

Definition header : list string :=
  ["STAAD SPACE"; "START JOB INFORMATION"; "ENGINEER DATE 01-Jan-2025";
   "END JOB INFORMATION"; "UNIT METER KN"; ""; "JOINT COORDINATES"].

Definition footer : string := "END JOINT COORDINATES".

(** [f"{node_id} {x:.6f} {y:.6f} {z:.6f}"] *)
Definition joint_line (node_id : Z) (x y z : spec_float) : string :=
  str_of_int node_id +:+ " " +:+ format_6f x +:+ " " +:+ format_6f y +:+ " "
  +:+ format_6f z.

(** One [f.write(line + "\n")] per line. *)
Fixpoint write_lines (path : string) (lines : list string) : M unit :=
  match lines with
  | [] => ret tt
  | l :: lines' => write path (l +:+ newline) ;;; write_lines path lines'
  end.

(** The loop over [df_sorted.iterrows()]. When every column is numeric
    and one of them holds floats, [iterrows] hands an integer [node_id]
    over as a float; [int] gives the integer back, the same one for
    every id within 2^53 in magnitude, which is the range this
    definition stands for ([exact_id] below). *)
Fixpoint write_rows (path : string) (l : list (gmap string cell)) : M unit :=
  match l with
  | [] => ret tt
  | row :: l' =>
      node_id <- lift (int (get row "node_id")) ;;
      x <- lift (float (get row "x")) ;;
      y <- lift (float (get row "y")) ;;
      z <- lift (float (get row "z")) ;;
      write path (joint_line node_id x y z +:+ newline) ;;;
      write_rows path l'
  end.

(** The body of the [try]: its value is the number of rows written. *)
Definition generate_body (output_filename : string) : M nat :=
  coerce_column "x" ;;;
  coerce_column "y" ;;;
  coerce_column "z" ;;;
  df <- (fun st => (Ok (frame st), st)) ;;
  let df_clean := dropna ["x"; "y"; "z"] df in
  df_sorted <- lift (sort_values "node_id" df_clean) ;;
  open_w output_filename ;;;
  write_lines output_filename header ;;;
  write_rows output_filename (rows df_sorted) ;;;
  write output_filename (footer +:+ newline) ;;;
  ret (len df_sorted).

(** [generate_staad_file(df, output_filename)]: what it prints, what it
    returns, and the state it leaves. *)
Definition generate_staad_file (output_filename : string) (st : state) :
    list message * bool * state :=
  match generate_body output_filename st with
  | (Ok written, st') => ([Generated output_filename written], true, st')
  | (Raise e, st') => ([GenerateFailed e], false, st')
  end.

End Generator.

(** A table with the four columns, from (node_id, x, y, z) tuples. *)
Definition node_row (r : cell * cell * cell * cell) : gmap string cell :=
  let '(i, x, y, z) := r in
  <["node_id" := i]> (<["x" := x]> (<["y" := y]> (<["z" := z]> ∅))).

Definition node_table (l : list (cell * cell * cell * cell)) : DataFrame :=
  {| columns := required_columns; rows := map node_row l |}.

Definition start (df : DataFrame) : state :=
  {| frame := df; fs := ∅; locked := ∅ |}.

(** ** Tables used as examples *)

(** The nodes {1: (0,0,0), 2: (5,0,0)}, second node first. *)
Definition two_nodes : DataFrame :=
  node_table [(CInt 2, CInt 5, CInt 0, CInt 0); (CInt 1, CInt 0, CInt 0, CInt 0)].

(** A node whose x is the text "abc". *)
Definition nodes_with_abc : DataFrame :=
  node_table [(CInt 1, CStr "abc", CInt 0, CInt 0); (CInt 2, CInt 5, CInt 0, CInt 0)].

(** A node at infinity. *)
Definition node_at_infinity : DataFrame :=
  node_table [(CInt 1, CFloat (S754_infinity false), CInt 0, CInt 0)].

(** Node ids held as text: "10" and "9". *)
Definition text_ids : DataFrame :=
  node_table [(CStr "9", CInt 0, CInt 0, CInt 0); (CStr "10", CInt 5, CInt 0, CInt 0)].

(** Node ids held as text, one of them not a number. *)
Definition text_ids_with_abc : DataFrame :=
  node_table [(CStr "2", CInt 5, CInt 0, CInt 0); (CStr "abc", CInt 1, CInt 1, CInt 1);
              (CStr "1", CInt 0, CInt 0, CInt 0)].

(** Node ids of both kinds, as a spreadsheet with a text cell gives. *)
Definition mixed_ids : DataFrame :=
  node_table [(CInt 1, CInt 0, CInt 0, CInt 0); (CStr "abc", CInt 5, CInt 0, CInt 0)].


(** A parser that rejects what it is given, as [pd.read_csv] rejects an
    empty file. *)
Definition rejecting (content : string) : result DataFrame :=
  Raise (ParserError "No columns to parse from file").


(** ** The script's effects, read back as values *)

(** The text of a sequence of lines, each one closed by a newline. *)
Definition unlines (ls : list string) : string :=
  fold_right (fun l acc => l +:+ newline +:+ acc) "" ls.

Section Readback.

Context {T : Text}.

(** The table once [x], [y] and [z] went through [to_numeric]. *)
Definition coerced (df : DataFrame) : DataFrame :=
  map_column "z" to_numeric (map_column "y" to_numeric (map_column "x" to_numeric df)).

(** What one turn of the loop writes for a row, or the exception it stops
    with. *)
Definition row_line (row : gmap string cell) : result string :=
  match int (get row "node_id") with
  | Raise e => Raise e
  | Ok node_id =>
      match float (get row "x") with
      | Raise e => Raise e
      | Ok x =>
          match float (get row "y") with
          | Raise e => Raise e
          | Ok y =>
              match float (get row "z") with
              | Raise e => Raise e
              | Ok z => Ok (joint_line node_id x y z)
              end
          end
      end
  end.

(** The lines the loop writes before it ends or stops, and the exception
    it stops with. *)
Fixpoint render (l : list (gmap string cell)) : list string * option exception :=
  match l with
  | [] => ([], None)
  | row :: l' =>
      match row_line row with
      | Raise e => ([], Some e)
      | Ok s => let '(ls, stop) := render l' in (s :: ls, stop)
      end
  end.

(** One row after [df[c] = pd.to_numeric(df[c], errors='coerce')]. *)
Definition set_numeric (c : string) (row : gmap string cell) : gmap string cell :=
  <[c := to_numeric (get row c)]> row.

Definition coerce_row (row : gmap string cell) : gmap string cell :=
  set_numeric "z" (set_numeric "y" (set_numeric "x" row)).

(** The rows that survive the coercion and the [dropna] of the
    generator, in the order of the table. *)
Definition kept (df : DataFrame) : list (gmap string cell) :=
  List.filter (complete ["x"; "y"; "z"]) (map coerce_row (rows df)).

(** The number a row is written under, and its coordinates as floats
    (0 and NaN stand in where the conversion raises). *)
Definition node_id_of (row : gmap string cell) : Z :=
  match int (get row "node_id") with Ok n => n | Raise _ => 0 end.

Definition coord (row : gmap string cell) (c : string) : spec_float :=
  match float (get row c) with Ok f => f | Raise _ => S754_nan end.

Definition line_of (row : gmap string cell) : string :=
  joint_line (node_id_of row) (coord row "x") (coord row "y") (coord row "z").

(** The rows whose [node_id] the loop can convert. *)
Definition convertible_id (row : gmap string cell) : bool :=
  match int (get row "node_id") with Ok _ => true | Raise _ => false end.

(** A coordinate that [to_numeric] turns into a number, and one that it
    turns into a finite number. *)
Definition numeric (v : cell) : bool := negb (isna (to_numeric v)).

Definition finite (v : cell) : bool :=
  match float (to_numeric v) with
  | Ok (S754_zero _) | Ok (S754_finite _ _ _) => true
  | _ => false
  end.

(** Rows that went through the coercion. *)
Definition coerced_rows (l : list (gmap string cell)) : Prop :=
  Forall (fun row => exists r, row = coerce_row r) l.

(** The rows whose [node_id] is a Python [int]. *)
Definition int_id (row : gmap string cell) : Prop :=
  exists n, get row "node_id" = CInt n.

(** The rows whose [node_id] is a Python [str], and that text. *)
Definition text_id (row : gmap string cell) : Prop :=
  exists s, get row "node_id" = CStr s.

Definition id_text (row : gmap string cell) : string :=
  match get row "node_id" with CStr s => s | _ => "" end.

(** [not (t < s)] on strings: the order of their characters. *)
Definition text_le (s t : string) : Prop := (s ?= t)%string <> Gt.

(** A row with a missing value in one of the four fields. *)
Definition has_null (row : gmap string cell) : bool :=
  existsb (fun c => isna (get row c)) required_columns.

(** How the duplicate-coordinate check shows a row. *)
Definition entry (row : gmap string cell) : cell * (cell * cell * cell) :=
  (get row "node_id", (get row "x", get row "y", get row "z")).

(** A row whose three coordinates are numbers once coerced, and one
    whose three coordinates are finite numbers. *)
Definition numeric_row (row : gmap string cell) : bool :=
  numeric (get row "x") && numeric (get row "y") && numeric (get row "z").

Definition finite_row (row : gmap string cell) : bool :=
  finite (get row "x") && finite (get row "y") && finite (get row "z").

(** An [int] that [float()] accepts, and a row whose coordinates are
    such or no [int]. *)
Definition fits_float (v : cell) : bool :=
  match v with
  | CInt n => is_finite (round64 n 0)
  | _ => true
  end.

Definition fits_float_row (row : gmap string cell) : bool :=
  fits_float (get row "x") && fits_float (get row "y") && fits_float (get row "z").

(** A node id that a float holds exactly. ([iterrows()] hands a row of
    numeric columns out as floats when one of them holds floats, so an
    [int] id beyond 2^53 in magnitude may reach [int(...)] rounded; the
    properties on the ids written carry this bound.) *)
Definition exact_id (row : gmap string cell) : bool :=
  match get row "node_id" with
  | CInt n => Z.abs n <=? 2 ^ 53
  | _ => true
  end.

(** A cell and what a coercion may have left in its place: the same
    cell, or one that [float(...)] reads as it reads the coerced cell. *)
Definition same_or_coerced_cell (old new : cell) : Prop :=
  new = old \/ float new = float (to_numeric old).

(** A row and what the generator may have made of it: the node id and
    every cell outside x, y, z as they were, and each of x, y, z as it
    was or coerced. *)
Definition same_or_coerced (row row' : gmap string cell) : Prop :=
  get row' "node_id" = get row "node_id" /\
  (forall c, c <> "x" -> c <> "y" -> c <> "z" -> get row' c = get row c) /\
  (forall c, same_or_coerced_cell (get row c) (get row' c)).

End Readback.

(** ** Reading a joint line back *)

Abbreviation chars := list_ascii_of_string (only parsing).

Definition nonempty_digits (l : list ascii) : bool :=
  match l with [] => false | _ :: _ => forallb is_digit l end.

(** A plain integer: digits, with an optional minus sign. *)
Definition plain_integer (l : list ascii) : bool :=
  match l with
  | [] => false
  | c :: d => if Ascii.eqb c "-" then nonempty_digits d else nonempty_digits l
  end.

Fixpoint drop_digits (l : list ascii) : list ascii :=
  match l with
  | c :: l' => if is_digit c then drop_digits l' else l
  | [] => []
  end.

(** Fixed-point notation with 6 decimals: an optional minus sign, at
    least one digit, a point, exactly six digits, and nothing else (no
    exponent). *)
Definition unsigned_fixed_point_6 (body : list ascii) : bool :=
  match body with
  | [] => false
  | d :: _ =>
      is_digit d &&
      match drop_digits body with
      | p :: fp => Ascii.eqb p "." && (length fp =? 6)%nat && forallb is_digit fp
      | [] => false
      end
  end.

Definition fixed_point_6 (l : list ascii) : bool :=
  match l with
  | c :: b =>
      if Ascii.eqb c "-" then unsigned_fixed_point_6 b
      else unsigned_fixed_point_6 l
  | [] => false
  end.

Definition no_space (l : list ascii) : bool :=
  forallb (fun c => negb (Ascii.eqb c " ")) l.

(** [l.split(sep)] *)
Fixpoint split_at (sep : ascii) (l : list ascii) : list (list ascii) :=
  match l with
  | [] => [[]]
  | c :: l' =>
      if Ascii.eqb c sep then [] :: split_at sep l'
      else
        match split_at sep l' with
        | h :: t => (c :: h) :: t
        | [] => [[c]]
        end
  end.

(** A line of the form [<node_id> <x> <y> <z>]: four fields separated by
    single spaces, a plain integer and three fixed-point numbers. *)
Definition is_joint_line (line : string) : bool :=
  match split_at " " (list_ascii_of_string line) with
  | [i; x; y; z] =>
      plain_integer i && fixed_point_6 x && fixed_point_6 y && fixed_point_6 z
  | _ => false
  end.

(** ** What the checks look for, said on the rows *)

(** No two rows at different positions with the same key. *)
Definition distinct_keys (subset : list string) (l : list (gmap string cell)) : Prop :=
  forall i j r1 r2,
    l !! i = Some r1 -> l !! j = Some r2 -> i <> j ->
    same_key subset r1 r2 = false.


(** The first of the columns the generator reads that the table lacks,
    in the order the generator reads them. *)
Definition first_missing (df : DataFrame) : option string :=
  List.find (fun c => negb (has_column df c)) ["x"; "y"; "z"; "node_id"].

(** Two rows that agree on the four fields. *)
Definition same_fields (r1 r2 : gmap string cell) : Prop :=
  forall c, In c required_columns -> get r1 c = get r2 c.

(** The number of newline characters of a text: its number of lines when
    every line is closed. *)
Definition newlines (text : string) : nat :=
  length (List.filter (Ascii.eqb (ascii_of_nat 10)) (list_ascii_of_string text)).

(* ===================================================================== *)
(** * The callers *)
(* ===================================================================== *)

(** ** The command line: [main] of [node_to_staad.py] *)

Module Cli.

(** What a run prints: the banner, what the three functions print, and
    the closing line of [main]. *)
Inductive output : Type :=
| Banner
| Said (m : message)
| ReadTerminated
| ValidationTerminated
| Succeeded (output_file : string)
| GenerationError.

Section Main.

Context {T : Text}.
Variable read_excel : string -> result DataFrame.
Variable read_csv : string -> result DataFrame.

(** [sys.argv[1]] when there is one, else the line typed at the prompt,
    stripped. *)
Definition input_file (argv : list string) (typed : string) : string :=
  match argv with
  | _ :: path :: _ => path
  | _ => text_strip typed
  end.

(** [main()]: the table it loads is its own; the disk and the paths that
    cannot be opened are the caller's. *)
Definition main (argv : list string) (typed : string)
    (disk : gmap string string) (unopenable : gset string) :
    list output * gmap string string :=
  let '(said1, loaded) :=
    read_node_data read_excel read_csv disk (input_file argv typed) in
  match loaded with
  | None => (Banner :: map Said said1 ++ [ReadTerminated], disk)
  | Some df =>
      let '(said2, validation_passed) := validate_node_data df in
      if negb validation_passed then
        (Banner :: map Said (said1 ++ said2) ++ [ValidationTerminated], disk)
      else
        let output_file := "model.std" in
        let '(said3, success, st') :=
          generate_staad_file output_file
            {| frame := df; fs := disk; locked := unopenable |} in
        (Banner :: map Said (said1 ++ said2 ++ said3)
           ++ [if success then Succeeded output_file else GenerationError],
         fs st')
  end.

End Main.

End Cli.

(** ** The web page: [app.py] *)

Module App.

Section Capture.

Context {T : Text}.

(** [capture_validation_output(df)]: the verdict and the captured text. *)
Definition capture_validation_output (df : DataFrame) : bool * list message :=
  let '(output_text, validation_passed) := validate_node_data df in
  (validation_passed, output_text).

End Capture.

(** An uploaded file: its name and its bytes. *)
Record upload : Type := {
  name : string;
  getbuffer : string
}.

(** [save_uploaded_file(uploaded_file)]; an exception of [open] is not
    caught. *)
Definition save_uploaded_file (uploaded_file : upload) : M string :=
  let temp_file_path := "temp_" +:+ name uploaded_file in
  open_w temp_file_path ;;;
  write temp_file_path (getbuffer uploaded_file) ;;;
  ret temp_file_path.

(** [os.remove(path)], behind [os.path.exists(path)]. *)
Definition remove_if_exists (path : string) : M unit :=
  fun st =>
    (Ok tt, {| frame := frame st; fs := delete path (fs st); locked := locked st |}).

(** [st.session_state] *)
Record session : Type := {
  validation_passed : bool;
  df_loaded : option DataFrame;
  staad_generated : bool
}.

(** The state a browser session starts with. *)
Definition new_session : session :=
  {| validation_passed := false; df_loaded := None; staad_generated := false |}.

(** What a run of the page shows, styling left out. *)
Inductive shown : Type :=
| FileInfo (file_name : string)
| ReadError
| Preview (head : list (gmap string cell)) (total : nat)
| MissingColumnsError (missing_columns available : list string)
| ValidationReport (validation_output : list message) (passed : bool)
| ValidationCompleted
| GeneratedInfo (nodes : nat)
| GenerateError
| ValidateFirst
| Download (data : string)
| GeneratedFileNotFound
| GenerateFirst
| Instructions.

Section Page.

Context {T : Text}.
Variable read_excel : string -> result DataFrame.
Variable read_csv : string -> result DataFrame.

(** The first part of a run with a file: save it, read it, remove it. *)
Definition read_upload (uploaded_file : upload) : M (option DataFrame) :=
  temp_file_path <- save_uploaded_file uploaded_file ;;
  df <- (fun st =>
           (Ok (snd (read_node_data read_excel read_csv (fs st) temp_file_path)), st)) ;;
  remove_if_exists temp_file_path ;;;
  ret df.

(** Step 2 of a run: the validate button, then the note shown while the
    session's flag is set. The table is the object the session keeps. *)
Definition validation_step (df : DataFrame) (validate_clicked : bool)
    (s : session) : list shown * session :=
  let '(shown, s') :=
    if validate_clicked then
      let '(passed, validation_output) := capture_validation_output df in
      ([ValidationReport validation_output passed],
       {| validation_passed := passed; df_loaded := df_loaded s;
          staad_generated := false |})
    else ([], s) in
  (shown ++ (if validation_passed s' then [ValidationCompleted] else []), s').

(** Step 3: the generate button, offered only while the flag is set. What
    the generator does to the table shows in [df_loaded], which is the
    same object. *)
Definition generation_step (df : DataFrame) (generate_clicked : bool)
    (s : session) (disk : gmap string string) (unopenable : gset string) :
    list shown * session * gmap string string :=
  if validation_passed s then
    if generate_clicked then
      let '(_, success, st') :=
        generate_staad_file "model.std"
          {| frame := df; fs := disk; locked := unopenable |} in
      ([if success then GeneratedInfo (len (frame st')) else GenerateError],
       {| validation_passed := validation_passed s;
          df_loaded := Some (frame st');
          staad_generated := success |},
       fs st')
    else ([], s, disk)
  else ([ValidateFirst], s, disk).

(** Step 4: the download, offered only while the session says the file
    was generated. *)
Definition download_step (s : session) (disk : gmap string string) :
    list shown * session :=
  if staad_generated s then
    match disk !! "model.std" with
    | Some staad_file => ([Download staad_file], s)
    | None =>
        ([GeneratedFileNotFound],
         {| validation_passed := validation_passed s;
            df_loaded := df_loaded s;
            staad_generated := false |})
    end
  else ([GenerateFirst], s).

(** The rest of a run, once the table is read and has its columns. *)
Definition steps (df : DataFrame) (validate_clicked generate_clicked : bool)
    (s : session) (disk : gmap string string) (unopenable : gset string) :
    list shown * session * gmap string string :=
  let '(shown2, s2) := validation_step df validate_clicked s in
  let '(shown3, s3, disk3) :=
    generation_step df generate_clicked s2 disk unopenable in
  let '(shown4, s4) := download_step s3 disk3 in
  (shown2 ++ shown3 ++ shown4, s4, disk3).

(** One run of the page, [main()] of [app.py]: the file in the uploader
    if any, and whether a button was just pressed. [Raise] is an
    exception the script does not catch. *)
Definition main (uploaded_file : option upload)
    (validate_clicked generate_clicked : bool)
    (s : session) (disk : gmap string string) (unopenable : gset string) :
    result (list shown) * session * gmap string string :=
  match uploaded_file with
  | None => (Ok [Instructions], s, disk)
  | Some file =>
      match read_upload file
              {| frame := {| columns := []; rows := [] |};
                 fs := disk; locked := unopenable |} with
      | (Raise e, st') => (Raise e, s, fs st')
      | (Ok None, st') => (Ok [FileInfo (name file); ReadError], s, fs st')
      | (Ok (Some df), st') =>
          let s1 := {| validation_passed := validation_passed s;
                       df_loaded := Some df;
                       staad_generated := staad_generated s |} in
          let required_columns := ["node_id"; "x"; "y"; "z"] in
          let missing_columns :=
            List.filter (fun col => negb (has_column df col)) required_columns in
          match missing_columns with
          | _ :: _ =>
              (Ok [FileInfo (name file); Preview (firstn 10 (rows df)) (len df);
                   MissingColumnsError missing_columns (columns df)],
               s1, fs st')
          | [] =>
              let '(shown, s', disk') :=
                steps df validate_clicked generate_clicked s1 (fs st') unopenable in
              (Ok ([FileInfo (name file);
                    Preview (firstn 10 (rows df)) (len df)] ++ shown),
               s', disk')
          end
      end
  end.

End Page.

End App.

(** ** More inputs used as examples *)


(** A table without the z column, its x held as text. *)
Definition no_z_column : DataFrame :=
  {| columns := ["node_id"; "x"; "y"];
     rows := [ <["node_id" := CInt 1]> (<["x" := CStr "5"]> (<["y" := CInt 0]> ∅)) ] |}.


(** [two_nodes] with one more column. *)
Definition two_nodes_labelled : DataFrame :=
  {| columns := required_columns ++ ["label"];
     rows := map (fun row => <["label" := CStr "pier"]> row) (rows two_nodes) |}.

(** A node whose x is an [int] too large for a float. *)
Definition huge_coordinate : DataFrame :=
  node_table [(CInt 1, CInt (10 ^ 400), CInt 0, CInt 0);
              (CInt 2, CInt 5, CInt 0, CInt 0)].

(** The text of [two_nodes] as a CSV file, and a parser that reads it. *)
Definition two_nodes_csv : string :=
  "node_id,x,y,z" +:+ newline +:+ "2,5,0,0" +:+ newline +:+ "1,0,0,0" +:+ newline.

Definition reading_two_nodes (content : string) : result DataFrame := Ok two_nodes.

(** The same text in the uploader of the page. *)
Definition nodes_csv : App.upload :=
  {| App.name := "nodes.csv"; App.getbuffer := two_nodes_csv |}.

(* ===================================================================== *)
(** * Properties *)
(* ===================================================================== *)

Section Properties.

Context {T : Text}.

(** ** Strings *)

Lemma append_cons (c : ascii) (a b : string) :
  String c a +:+ b = String c (a +:+ b).
Proof. reflexivity. Qed.

Lemma append_nil_r (s : string) : s +:+ "" = s.
Proof.
  induction s as [|c s IH]; [reflexivity | now rewrite append_cons, IH].
Qed.

Lemma append_assoc (a b c : string) : (a +:+ b) +:+ c = a +:+ (b +:+ c).
Proof.
  induction a as [|x a IH]; [reflexivity | now rewrite !append_cons, IH].
Qed.

Lemma list_ascii_of_string_app (a b : string) :
  list_ascii_of_string (a +:+ b) =
  (list_ascii_of_string a ++ list_ascii_of_string b)%list.
Proof.
  induction a as [|x a IH]; [reflexivity|].
  rewrite append_cons. simpl. now rewrite IH.
Qed.

Lemma unlines_app (a b : list string) : unlines (a ++ b) = unlines a +:+ unlines b.
Proof.
  induction a as [|l a IH]; simpl; [reflexivity|].
  now rewrite IH, !append_assoc.
Qed.

(** ** Running the writes *)

Lemma write_lines_run (path : string) (ls : list string) :
  forall (st : state) (c : string),
    fs st !! path = Some c ->
    write_lines path ls st =
      (Ok tt, {| frame := frame st;
                 fs := <[path := c +:+ unlines ls]> (fs st);
                 locked := locked st |}).
Proof.
  induction ls as [|l ls IH]; intros st c Hc; simpl.
  - unfold ret. rewrite append_nil_r, (insert_id _ _ _ Hc). now destruct st.
  - unfold bind, write at 1. rewrite Hc. simpl.
    erewrite IH by (simpl; apply lookup_insert_eq).
    simpl. now rewrite insert_insert_eq, !append_assoc.
Qed.

Lemma write_rows_run (path : string) (l : list (gmap string cell)) :
  forall (st : state) (c : string),
    fs st !! path = Some c ->
    write_rows path l st =
      (match snd (render l) with None => Ok tt | Some e => Raise e end,
       {| frame := frame st;
          fs := <[path := c +:+ unlines (fst (render l))]> (fs st);
          locked := locked st |}).
Proof.
  induction l as [|row l IH]; intros st c Hc; simpl.
  - unfold ret. rewrite append_nil_r, (insert_id _ _ _ Hc). now destruct st.
  - unfold row_line, bind, lift.
    destruct (int (get row "node_id")) as [n|e]; simpl;
      [|rewrite append_nil_r, (insert_id _ _ _ Hc); now destruct st].
    destruct (float (get row "x")) as [x|e]; simpl;
      [|rewrite append_nil_r, (insert_id _ _ _ Hc); now destruct st].
    destruct (float (get row "y")) as [y|e]; simpl;
      [|rewrite append_nil_r, (insert_id _ _ _ Hc); now destruct st].
    destruct (float (get row "z")) as [z|e]; simpl;
      [|rewrite append_nil_r, (insert_id _ _ _ Hc); now destruct st].
    rewrite Hc. cbn [default from_option].
    erewrite IH by (cbn [fs]; apply lookup_insert_eq).
    cbn [frame fs locked].
    destruct (render l) as [ls stop]; cbn [fst snd unlines fold_right].
    now rewrite insert_insert_eq, !append_assoc.
Qed.

Lemma has_column_map_column (c c' : string) (f : cell -> cell) (df : DataFrame) :
  has_column (map_column c f df) c' = has_column df c'.
Proof. reflexivity. Qed.

(** What a call does, stage by stage, once the three coordinate columns
    are there. *)
Lemma generate_run (path : string) (st : state) :
  has_column (frame st) "x" = true ->
  has_column (frame st) "y" = true ->
  has_column (frame st) "z" = true ->
  generate_staad_file path st =
    let df' := coerced (frame st) in
    match sort_values "node_id" (dropna ["x"; "y"; "z"] df') with
    | Raise e =>
        ([GenerateFailed e], false,
         {| frame := df'; fs := fs st; locked := locked st |})
    | Ok df_sorted =>
        if bool_decide (path ∈ locked st) then
          ([GenerateFailed OSError], false,
           {| frame := df'; fs := fs st; locked := locked st |})
        else
          match render (rows df_sorted) with
          | (ls, None) =>
              ([Generated path (len df_sorted)], true,
               {| frame := df';
                  fs := <[path := unlines (header ++ ls ++ [footer])]> (fs st);
                  locked := locked st |})
          | (ls, Some e) =>
              ([GenerateFailed e], false,
               {| frame := df';
                  fs := <[path := unlines (header ++ ls)]> (fs st);
                  locked := locked st |})
          end
    end.
Proof.
  intros Hx Hy Hz.
  unfold generate_staad_file, generate_body, bind.
  unfold coerce_column at 1. rewrite Hx. cbn [frame fs locked].
  unfold coerce_column at 1. cbn [frame fs locked].
  rewrite has_column_map_column, Hy.
  unfold coerce_column at 1. cbn [frame fs locked].
  rewrite !has_column_map_column, Hz.
  cbn [frame fs locked]. fold (coerced (frame st)).
  unfold lift.
  destruct (sort_values "node_id" (dropna ["x"; "y"; "z"] (coerced (frame st))))
    as [df_sorted|e]; [|reflexivity].
  unfold open_w. cbn [frame fs locked].
  destruct (bool_decide (path ∈ locked st)); [reflexivity|].
  erewrite write_lines_run by (cbn [fs]; apply lookup_insert_eq).
  cbn [frame fs locked].
  erewrite write_rows_run by (cbn [fs]; apply lookup_insert_eq).
  cbn [frame fs locked].
  destruct (render (rows df_sorted)) as [ls [e|]]; cbn [fst snd].
  - now rewrite !insert_insert_eq.
  - unfold write, ret. cbn [frame fs locked].
    rewrite lookup_insert_eq. cbn [default from_option].
    rewrite !insert_insert_eq.
    rewrite !unlines_app. simpl unlines at 3.
    now rewrite !append_assoc, ?append_nil_r.
Qed.

(** ** Rows after the coercion *)

Lemma rows_coerced (df : DataFrame) : rows (coerced df) = map coerce_row (rows df).
Proof. unfold coerced, map_column; cbn [rows]. now rewrite !map_map. Qed.

Lemma rows_dropna_coerced (df : DataFrame) :
  rows (dropna ["x"; "y"; "z"] (coerced df)) = kept df.
Proof. unfold dropna, kept; cbn [rows]. now rewrite rows_coerced. Qed.

Lemma get_set_numeric_eq (c : string) (row : gmap string cell) :
  get (set_numeric c row) c = to_numeric (get row c).
Proof. unfold set_numeric, get at 1. now rewrite lookup_insert_eq. Qed.

Lemma get_set_numeric_ne (c c' : string) (row : gmap string cell) :
  c <> c' -> get (set_numeric c row) c' = get row c'.
Proof. intros H. unfold set_numeric, get at 1. now rewrite lookup_insert_ne. Qed.

Lemma get_coerce_row_x (row : gmap string cell) :
  get (coerce_row row) "x" = to_numeric (get row "x").
Proof.
  unfold coerce_row.
  now rewrite !get_set_numeric_ne, get_set_numeric_eq by discriminate.
Qed.

Lemma get_coerce_row_y (row : gmap string cell) :
  get (coerce_row row) "y" = to_numeric (get row "y").
Proof.
  unfold coerce_row.
  now rewrite get_set_numeric_ne, get_set_numeric_eq, get_set_numeric_ne
    by discriminate.
Qed.

Lemma get_coerce_row_z (row : gmap string cell) :
  get (coerce_row row) "z" = to_numeric (get row "z").
Proof.
  unfold coerce_row.
  now rewrite get_set_numeric_eq, !get_set_numeric_ne by discriminate.
Qed.

Lemma get_coerce_row_other (row : gmap string cell) (c : string) :
  c <> "x" -> c <> "y" -> c <> "z" -> get (coerce_row row) c = get row c.
Proof.
  intros Hx Hy Hz. unfold coerce_row.
  now rewrite !get_set_numeric_ne by congruence.
Qed.

Lemma to_numeric_idem (v : cell) : to_numeric (to_numeric v) = to_numeric v.
Proof.
  destruct v as [|n|f|s]; try reflexivity.
  simpl. now destruct (text_numeric s).
Qed.

Lemma set_numeric_idem (c : string) (row : gmap string cell) :
  set_numeric c (set_numeric c row) = set_numeric c row.
Proof.
  unfold set_numeric at 1. rewrite get_set_numeric_eq, to_numeric_idem.
  unfold set_numeric. now rewrite insert_insert_eq.
Qed.

Lemma set_numeric_comm (c c' : string) (row : gmap string cell) :
  c <> c' ->
  set_numeric c (set_numeric c' row) = set_numeric c' (set_numeric c row).
Proof.
  intros H. unfold set_numeric at 1 3.
  rewrite !get_set_numeric_ne by congruence.
  unfold set_numeric. now apply insert_insert_ne.
Qed.

(** Coercing twice is coercing once: the second call finds numbers. *)
Lemma coerce_row_idem (row : gmap string cell) :
  coerce_row (coerce_row row) = coerce_row row.
Proof.
  unfold coerce_row.
  rewrite (set_numeric_comm "x" "z"), (set_numeric_comm "x" "y") by discriminate.
  rewrite set_numeric_idem.
  rewrite (set_numeric_comm "y" "z") by discriminate.
  now rewrite !set_numeric_idem.
Qed.

Lemma coerced_idem (df : DataFrame) : coerced (coerced df) = coerced df.
Proof.
  destruct df as [cols rs].
  unfold coerced, map_column; cbn [rows columns]. f_equal.
  rewrite !map_map. apply map_ext. intros row. apply coerce_row_idem.
Qed.

(** ** The loop over the surviving rows *)

Lemma fits_float_to_numeric (v : cell) : fits_float (to_numeric v) = fits_float v.
Proof.
  destruct v as [|n|f|s]; try reflexivity.
  simpl. now destruct (text_numeric s).
Qed.

Lemma fits_float_coerce_row (row : gmap string cell) :
  fits_float_row (coerce_row row) = fits_float_row row.
Proof.
  unfold fits_float_row.
  now rewrite get_coerce_row_x, get_coerce_row_y, get_coerce_row_z,
    !fits_float_to_numeric.
Qed.

(** [float] raises on a coerced value only when it is an [int] too
    large. *)
Lemma float_to_numeric (v : cell) :
  fits_float v = true -> exists f, float (to_numeric v) = Ok f.
Proof.
  destruct v as [|n|f|s]; simpl; eauto.
  - intros ->. eauto.
  - destruct (text_numeric s); simpl; eauto.
Qed.

Lemma float_too_large (v : cell) :
  fits_float v = false -> float (to_numeric v) = Raise OverflowError.
Proof.
  destruct v as [|n|f|s]; simpl; try discriminate. now intros ->.
Qed.

Lemma coord_coerce_row (row : gmap string cell) (c : string) :
  c = "x" \/ c = "y" \/ c = "z" ->
  fits_float (get row c) = true ->
  float (get (coerce_row row) c) = Ok (coord (coerce_row row) c).
Proof.
  intros H Hf. unfold coord.
  assert (E : get (coerce_row row) c = to_numeric (get row c)).
  { destruct H as [->|[->| ->]];
      [apply get_coerce_row_x | apply get_coerce_row_y | apply get_coerce_row_z]. }
  rewrite E. destruct (float_to_numeric (get row c) Hf) as [f ->]. reflexivity.
Qed.

Lemma fits_float_row_xyz (row : gmap string cell) :
  fits_float_row row = true ->
  fits_float (get row "x") = true /\ fits_float (get row "y") = true /\
  fits_float (get row "z") = true.
Proof.
  unfold fits_float_row. intros H.
  apply andb_prop in H as [H Hz]. apply andb_prop in H as [Hx Hy]. auto.
Qed.

Lemma node_id_coerce_row (row : gmap string cell) :
  get (coerce_row row) "node_id" = get row "node_id".
Proof. now apply get_coerce_row_other. Qed.

(** On a coerced row whose coordinates fit a float the loop can only
    stop at [int(row['node_id'])]. *)
Lemma row_line_coerce_row (row : gmap string cell) :
  fits_float_row row = true ->
  row_line (coerce_row row) =
    match int (get row "node_id") with
    | Ok _ => Ok (line_of (coerce_row row))
    | Raise e => Raise e
    end.
Proof.
  intros Hf. apply fits_float_row_xyz in Hf as (Hx & Hy & Hz).
  unfold row_line, line_of, node_id_of.
  rewrite node_id_coerce_row.
  destruct (int (get row "node_id")) as [n|e]; [|reflexivity].
  now rewrite !coord_coerce_row by auto.
Qed.

(** Whatever the row, a line that is written is the line of the row. *)
Lemma row_line_ok (row : gmap string cell) (s : string) :
  row_line row = Ok s -> s = line_of row /\ convertible_id row = true.
Proof.
  unfold row_line, line_of, node_id_of, coord, convertible_id.
  destruct (int (get row "node_id")); [|discriminate].
  destruct (float (get row "x")); [|discriminate].
  destruct (float (get row "y")); [|discriminate].
  destruct (float (get row "z")); [|discriminate].
  intros [= <-]. auto.
Qed.

Lemma kept_coerced (df : DataFrame) : coerced_rows (kept df).
Proof.
  unfold coerced_rows, kept. apply List.Forall_forall. intros row H.
  apply List.filter_In in H as [H _]. apply List.in_map_iff in H as (r & <- & _). eauto.
Qed.

Lemma convertible_coerce_row (row : gmap string cell) :
  convertible_id (coerce_row row) = convertible_id row.
Proof. unfold convertible_id. now rewrite node_id_coerce_row. Qed.

(** When every id converts, the loop writes one line per row. *)
Lemma render_convertible (l : list (gmap string cell)) :
  coerced_rows l ->
  forallb convertible_id l = true ->
  forallb fits_float_row l = true ->
  render l = (map line_of l, None).
Proof.
  induction 1 as [|row l [r ->] _ IH]; intros Hc Hf; [reflexivity|].
  cbn [forallb] in Hc, Hf. apply andb_prop in Hc as [Hr Hl].
  apply andb_prop in Hf as [Hfr Hfl]. rewrite fits_float_coerce_row in Hfr.
  cbn [render map]. rewrite (row_line_coerce_row _ Hfr).
  rewrite convertible_coerce_row in Hr. unfold convertible_id in Hr.
  destruct (int (get r "node_id")); [|discriminate].
  now rewrite (IH Hl Hfl).
Qed.

(** Otherwise it stops at the first row whose id does not convert, with
    the lines of the rows before it written. *)
Lemma render_stops (pre post : list (gmap string cell)) (row : gmap string cell) :
  coerced_rows pre ->
  forallb convertible_id pre = true ->
  forallb fits_float_row pre = true ->
  convertible_id row = false ->
  exists e, int (get row "node_id") = Raise e /\
            render (pre ++ row :: post) = (map line_of pre, Some e).
Proof.
  intros Hpre Hc Hf Hrow.
  unfold convertible_id in Hrow.
  destruct (int (get row "node_id")) as [n|e] eqn:E; [discriminate|].
  exists e. split; [reflexivity|].
  induction Hpre as [|r0 pre [r ->] _ IH].
  - cbn [app render map]. unfold row_line. now rewrite E.
  - cbn [forallb] in Hc, Hf. apply andb_prop in Hc as [Hr Hl].
    apply andb_prop in Hf as [Hfr Hfl]. rewrite fits_float_coerce_row in Hfr.
    cbn [app render map]. rewrite (row_line_coerce_row _ Hfr).
    rewrite convertible_coerce_row in Hr. unfold convertible_id in Hr.
    destruct (int (get r "node_id")); [|discriminate].
    now rewrite (IH Hl Hfl).
Qed.

(** ** Sorting *)

Lemma insert_sorted_perm (by_ : string) (r : gmap string cell)
    (l : list (gmap string cell)) :
  Permutation (insert_sorted by_ r l) (r :: l).
Proof.
  induction l as [|h t IH]; cbn [insert_sorted]; [reflexivity|].
  destruct (leb (get r by_) (get h by_)); [reflexivity|].
  rewrite IH. apply perm_swap.
Qed.

Lemma sort_rows_perm (by_ : string) (l : list (gmap string cell)) :
  Permutation (sort_rows by_ l) l.
Proof.
  induction l as [|r l IH]; cbn [sort_rows fold_right]; [reflexivity|].
  fold (sort_rows by_ l). now rewrite insert_sorted_perm, IH.
Qed.

Lemma leb_int (a b : Z) : leb (CInt a) (CInt b) = (a <=? b).
Proof.
  unfold leb, compare, ext_of, ext_compare.
  rewrite Z.min_id, Z.sub_diag, Z.pow_0_r, !Z.mul_1_r.
  unfold Z.leb. now destruct (a ?= b).
Qed.

Lemma int_id_node_id_of (row : gmap string cell) :
  int_id row -> get row "node_id" = CInt (node_id_of row).
Proof. intros [n H]. unfold node_id_of. now rewrite H. Qed.

Lemma insert_sorted_int (r : gmap string cell) (l : list (gmap string cell)) :
  int_id r -> Forall int_id l ->
  StronglySorted Z.le (map node_id_of l) ->
  StronglySorted Z.le (map node_id_of (insert_sorted "node_id" r l)).
Proof.
  intros Hr Hl Hs. induction l as [|h t IH]; cbn [insert_sorted map].
  - repeat constructor.
  - apply List.Forall_cons_iff in Hl as [Hh Ht]. 
    cbn [map] in Hs. apply StronglySorted_inv in Hs as [Hs Hle].
    rewrite (int_id_node_id_of _ Hr), (int_id_node_id_of _ Hh), leb_int.
    destruct (Z.leb_spec (node_id_of r) (node_id_of h)) as [Hrh|Hrh]; cbn [map].
    + constructor; [constructor; assumption|].
      constructor; [assumption|].
      eapply List.Forall_impl; [|exact Hle]. intros a Ha. cbn in Ha. lia.
    + constructor; [now apply IH|].
      apply List.Forall_forall. intros a Ha.
      apply List.in_map_iff in Ha as (x & <- & Hx).
      apply (Permutation_in _ (insert_sorted_perm _ _ _)) in Hx as [<-|Hx]; [lia|].
      rewrite List.Forall_forall in Hle. apply Hle. now apply List.in_map.
Qed.

Lemma sort_rows_int (l : list (gmap string cell)) :
  Forall int_id l ->
  StronglySorted Z.le (map node_id_of (sort_rows "node_id" l)).
Proof.
  induction 1 as [|r l Hr Hl IH]; cbn [sort_rows fold_right]; [constructor|].
  fold (sort_rows "node_id" l). apply insert_sorted_int; [assumption| |assumption].
  apply List.Forall_forall. intros x Hx. rewrite List.Forall_forall in Hl. apply Hl.
  eapply Permutation_in; [apply sort_rows_perm | exact Hx].
Qed.

Lemma sorted_le_nodup (l : list Z) :
  StronglySorted Z.le l -> NoDup l -> StronglySorted Z.lt l.
Proof.
  induction 1 as [|a l Hs IH Hle]; intros Hn; [constructor|].
  apply NoDup_cons in Hn as [Ha Hn].
  constructor; [now apply IH|].
  apply List.Forall_forall. intros b Hb.
  rewrite List.Forall_forall in Hle. specialize (Hle b Hb).
  assert (a <> b) by (intros ->; apply Ha, list_elem_of_In, Hb). lia.
Qed.

(** ** A call that succeeds *)

Lemma forallb_on_map {A B : Type} (p : B -> bool) (g : A -> B) (l : list A) :
  forallb p (map g l) = forallb (fun a => p (g a)) l.
Proof. induction l as [|a l IH]; cbn; [reflexivity | now rewrite IH]. Qed.

Lemma forallb_kept (q : gmap string cell -> bool) (rs : list (gmap string cell)) :
  (forall r, q (coerce_row r) = q r) ->
  forallb q rs = true ->
  forallb q (List.filter (complete ["x"; "y"; "z"]) (map coerce_row rs)) = true.
Proof.
  intros Hq. induction rs as [|r rs IH]; intros H; [reflexivity|].
  cbn [forallb] in H. apply andb_prop in H as [Hr Hrs].
  cbn [map List.filter].
  destruct (complete ["x"; "y"; "z"] (coerce_row r)); [|now apply IH].
  cbn [forallb]. now rewrite Hq, Hr, IH.
Qed.

Lemma filter_all {A : Type} (p : A -> bool) (l : list A) :
  forallb p l = true -> List.filter p l = l.
Proof.
  induction l as [|a l IH]; intros H; [reflexivity|].
  cbn [forallb] in H. apply andb_prop in H as [Ha Hl].
  cbn [List.filter]. now rewrite Ha, IH.
Qed.

Lemma filter_none {A : Type} (p : A -> bool) (l : list A) :
  forallb (fun a => negb (p a)) l = true -> List.filter p l = [].
Proof.
  induction l as [|a l IH]; intros H; [reflexivity|].
  cbn [forallb] in H. apply andb_prop in H as [Ha Hl].
  cbn [List.filter]. apply negb_true_iff in Ha. now rewrite Ha, IH.
Qed.

Lemma forallb_weaken {A : Type} (p q : A -> bool) (l : list A) :
  (forall a, p a = true -> q a = true) ->
  forallb p l = true -> forallb q l = true.
Proof.
  intros Hpq H. apply forallb_forall. intros a Ha.
  apply Hpq. rewrite forallb_forall in H. now apply H.
Qed.

Lemma convertible_has_key (row : gmap string cell) :
  convertible_id row = true -> negb (isna (get row "node_id")) = true.
Proof.
  unfold convertible_id.
  destruct (get row "node_id") as [|n|[s|s| |s m e]|s]; cbn; congruence.
Qed.

Lemma orderable_kept (df : DataFrame) :
  orderable (column df "node_id") = true ->
  orderable (map (fun r => get r "node_id") (kept df)) = true.
Proof.
  unfold orderable, column, kept. rewrite !forallb_on_map.
  intros H. apply orb_true_iff in H as [H|H]; apply orb_true_iff; [left|right];
    (apply forallb_kept; [intros r; now rewrite node_id_coerce_row | exact H]).
Qed.

(** With ids that sort and convert, the rows written are the surviving
    rows, sorted. *)
Lemma sort_values_kept (df : DataFrame) :
  has_column df "node_id" = true ->
  orderable (column df "node_id") = true ->
  forallb convertible_id (rows df) = true ->
  sort_values "node_id" (dropna ["x"; "y"; "z"] (coerced df)) =
    Ok {| columns := columns df; rows := sort_rows "node_id" (kept df) |}.
Proof.
  intros Hc Ho Hi. unfold sort_values.
  change (has_column (dropna ["x"; "y"; "z"] (coerced df)) "node_id")
    with (has_column df "node_id").
  rewrite Hc, rows_dropna_coerced.
  assert (Hk : forallb convertible_id (kept df) = true).
  { apply forallb_kept; [apply convertible_coerce_row | exact Hi]. }
  assert (Hn : forallb (fun r => negb (isna (get r "node_id"))) (kept df) = true).
  { revert Hk. apply forallb_weaken, convertible_has_key. }
  rewrite (filter_all _ _ Hn).
  rewrite (filter_none (fun r => isna (get r "node_id"))) by exact Hn.
  rewrite (orderable_kept _ Ho), app_nil_r. reflexivity.
Qed.

Lemma columns_of_required (df : DataFrame) :
  forallb (has_column df) required_columns = true ->
  has_column df "node_id" = true /\ has_column df "x" = true /\
  has_column df "y" = true /\ has_column df "z" = true.
Proof.
  cbn [forallb required_columns]. intros H.
  apply andb_prop in H as [Hn H]. apply andb_prop in H as [Hx H].
  apply andb_prop in H as [Hy H]. apply andb_prop in H as [Hz _]. auto.
Qed.

Lemma fits_float_kept (df : DataFrame) :
  forallb fits_float_row (rows df) = true ->
  forallb fits_float_row (kept df) = true.
Proof. apply forallb_kept. apply fits_float_coerce_row. Qed.

Lemma generate_ok (path : string) (st : state) :
  forallb (has_column (frame st)) required_columns = true ->
  path ∉ locked st ->
  orderable (column (frame st) "node_id") = true ->
  forallb convertible_id (rows (frame st)) = true ->
  forallb fits_float_row (kept (frame st)) = true ->
  generate_staad_file path st =
    let sorted := sort_rows "node_id" (kept (frame st)) in
    ([Generated path (length sorted)], true,
     {| frame := coerced (frame st);
        fs := <[path := unlines (header ++ map line_of sorted ++ [footer])]> (fs st);
        locked := locked st |}).
Proof.
  intros Hcols Hpath Ho Hi Hf.
  cbn [forallb required_columns] in Hcols.
  apply andb_prop in Hcols as [Hn Hcols].
  apply andb_prop in Hcols as [Hx Hcols].
  apply andb_prop in Hcols as [Hy Hcols].
  apply andb_prop in Hcols as [Hz _].
  rewrite (generate_run path st Hx Hy Hz). cbv zeta.
  rewrite (sort_values_kept _ Hn Ho Hi).
  rewrite bool_decide_eq_false_2 by exact Hpath.
  cbn [rows len].
  rewrite render_convertible.
  - reflexivity.
  - apply List.Forall_forall. intros row Hrow.
    eapply Permutation_in in Hrow; [|apply sort_rows_perm].
    pose proof (kept_coerced (frame st)) as Hk. unfold coerced_rows in Hk.
    rewrite List.Forall_forall in Hk. now apply Hk.
  - apply forallb_forall. intros row Hrow.
    eapply Permutation_in in Hrow; [|apply sort_rows_perm].
    assert (Hk : forallb convertible_id (kept (frame st)) = true).
    { apply forallb_kept; [apply convertible_coerce_row | exact Hi]. }
    rewrite forallb_forall in Hk. now apply Hk.
  - apply forallb_forall. intros row Hrow.
    eapply Permutation_in in Hrow; [|apply sort_rows_perm].
    rewrite forallb_forall in Hf. now apply Hf.
Qed.

(** ** The text of a joint line *)

Lemma digit_not_minus (c : ascii) : is_digit c = true -> Ascii.eqb c "-" = false.
Proof. destruct c as [[] [] [] [] [] [] [] []]; vm_compute; congruence. Qed.

Lemma digit_not_space (c : ascii) : is_digit c = true -> Ascii.eqb c " " = false.
Proof. destruct c as [[] [] [] [] [] [] [] []]; vm_compute; congruence. Qed.

Lemma digit_char_is_digit (d : Z) : 0 <= d < 10 -> is_digit (digit_char d) = true.
Proof.
  intros H.
  assert (E : d = 0 \/ d = 1 \/ d = 2 \/ d = 3 \/ d = 4 \/ d = 5 \/ d = 6 \/
              d = 7 \/ d = 8 \/ d = 9) by lia.
  repeat (destruct E as [->|E]; [reflexivity|]). now subst.
Qed.

Lemma fixed_digits_length (k : nat) (n : Z) : length (fixed_digits k n) = k.
Proof.
  revert n. induction k as [|k IH]; intros n; cbn [fixed_digits]; [reflexivity|].
  rewrite length_app, IH. cbn. lia.
Qed.

Lemma fixed_digits_digits (k : nat) (n : Z) :
  forallb is_digit (fixed_digits k n) = true.
Proof.
  revert n. induction k as [|k IH]; intros n; cbn [fixed_digits]; [reflexivity|].
  rewrite forallb_app, IH. cbn [forallb].
  rewrite digit_char_is_digit; [reflexivity|].
  apply Z.mod_pos_bound. lia.
Qed.

Lemma uint_digits (d : Decimal.uint) :
  forallb is_digit (chars (NilEmpty.string_of_uint d)) = true.
Proof. induction d; cbn; auto. Qed.

Lemma uint_nonempty_digits (d : Decimal.uint) :
  nonempty_digits (chars (NilZero.string_of_uint d)) = true.
Proof.
  destruct d; try reflexivity;
    cbn [NilZero.string_of_uint NilEmpty.string_of_uint list_ascii_of_string
         nonempty_digits forallb]; apply uint_digits.
Qed.

(** [str(n)] is a plain integer. *)
Lemma str_of_int_plain (n : Z) : plain_integer (chars (str_of_int n)) = true.
Proof.
  unfold str_of_int. destruct n as [|p|p]; [reflexivity| |].
  - cbn [Z.to_int NilZero.string_of_int].
    pose proof (uint_nonempty_digits (Pos.to_uint p)) as H.
    destruct (chars (NilZero.string_of_uint (Pos.to_uint p))) as [|c l];
      [discriminate|].
    cbn [plain_integer]. rewrite digit_not_minus; [exact H|].
    cbn [nonempty_digits forallb] in H. now apply andb_prop in H as [H _].
  - cbn [Z.to_int NilZero.string_of_int list_ascii_of_string plain_integer].
    apply uint_nonempty_digits.
Qed.

(** ... without a sign when [n] is not negative. *)
Lemma str_of_int_digits (n : Z) :
  0 <= n -> nonempty_digits (chars (str_of_int n)) = true.
Proof.
  unfold str_of_int. destruct n as [|p|p]; intros H; [reflexivity| |lia].
  apply uint_nonempty_digits.
Qed.

Lemma scaled6_nonneg (m : positive) (e : Z) : 0 <= scaled6 m e.
Proof.
  unfold scaled6. destruct (0 <=? e) eqn:E.
  - apply Z.leb_le in E. apply Z.mul_nonneg_nonneg; [lia|].
    apply Z.pow_nonneg. lia.
  - apply Z.leb_gt in E.
    assert (Hd : 0 < 2 ^ (- e)) by (apply Z.pow_pos_nonneg; lia).
    assert (Hq : 0 <= Z.pos m * 10 ^ 6 / 2 ^ (- e)) by (apply Z.div_pos; lia).
    destruct (2 * ((Z.pos m * 10 ^ 6) mod 2 ^ (- e)) ?= 2 ^ (- e)); [|lia|lia].
    destruct (Z.even (Z.pos m * 10 ^ 6 / 2 ^ (- e))); lia.
Qed.

Lemma drop_digits_app (a b : list ascii) (c : ascii) :
  forallb is_digit a = true -> is_digit c = false ->
  drop_digits (a ++ c :: b) = c :: b.
Proof.
  intros Ha Hc. induction a as [|d a IH]; cbn [app drop_digits].
  - now rewrite Hc.
  - cbn [forallb] in Ha. apply andb_prop in Ha as [Hd Ha]. now rewrite Hd, IH.
Qed.

Lemma chars_fixed6 (neg : bool) (n : Z) :
  chars (fixed6 neg n) =
    ((if neg then ["-"%char] else []) ++ chars (str_of_int (n / 10 ^ 6)) ++
     "."%char :: fixed_digits 6 (n mod 10 ^ 6))%list.
Proof.
  unfold fixed6.
  rewrite !list_ascii_of_string_app, list_ascii_of_string_of_list_ascii.
  now destruct neg.
Qed.

(** The [:.6f] text of [n / 10^6], [n >= 0], is in fixed-point notation. *)
Lemma fixed6_fixed_point (neg : bool) (n : Z) :
  0 <= n -> fixed_point_6 (chars (fixed6 neg n)) = true.
Proof.
  intros Hn. rewrite chars_fixed6.
  assert (Hq : 0 <= n / 10 ^ 6) by (apply Z.div_pos; lia).
  pose proof (str_of_int_digits _ Hq) as Hd.
  destruct (chars (str_of_int (n / 10 ^ 6))) as [|d ip] eqn:E; [discriminate|].
  cbn [nonempty_digits] in Hd.
  assert (Hd0 : is_digit d = true).
  { cbn [forallb] in Hd. now apply andb_prop in Hd as [Hd _]. }
  assert (Hbody : unsigned_fixed_point_6
            ((d :: ip) ++ "."%char :: fixed_digits 6 (n mod 10 ^ 6))%list = true).
  { unfold unsigned_fixed_point_6.
    rewrite drop_digits_app by (exact Hd || reflexivity).
    cbn [app]. rewrite Hd0, fixed_digits_length, fixed_digits_digits. reflexivity. }
  unfold fixed_point_6. destruct neg.
  - cbn [app]. change (Ascii.eqb "-" "-") with true. cbv iota. exact Hbody.
  - cbn [app]. rewrite (digit_not_minus _ Hd0). exact Hbody.
Qed.

(** [f"{x:.6f}"] is in fixed-point notation for every finite [x]. *)
Lemma format_6f_fixed_point (x : spec_float) :
  is_finite x = true -> fixed_point_6 (chars (format_6f x)) = true.
Proof.
  destruct x as [s|s| |s m e]; cbn [is_finite format_6f]; try discriminate; intros _.
  - apply fixed6_fixed_point. lia.
  - apply fixed6_fixed_point, scaled6_nonneg.
Qed.

Lemma digits_no_space (l : list ascii) :
  forallb is_digit l = true -> no_space l = true.
Proof.
  apply forallb_weaken. intros c Hc. now rewrite digit_not_space.
Qed.

Lemma nonempty_digits_no_space (l : list ascii) :
  nonempty_digits l = true -> no_space l = true.
Proof. destruct l; [discriminate|]. apply digits_no_space. Qed.

Lemma plain_integer_no_space (l : list ascii) :
  plain_integer l = true -> no_space l = true.
Proof.
  destruct l as [|c d]; [discriminate|]. cbn [plain_integer].
  destruct (Ascii.eqb_spec c "-") as [->|Hc]; intros H.
  - cbn [no_space forallb]. change (negb (Ascii.eqb "-" " ")) with true.
    now apply nonempty_digits_no_space.
  - now apply nonempty_digits_no_space.
Qed.

Lemma drop_digits_no_space (l : list ascii) :
  no_space (drop_digits l) = true -> no_space l = true.
Proof.
  induction l as [|c l IH]; [reflexivity|]. cbn [drop_digits].
  destruct (is_digit c) eqn:Hc; [|trivial].
  intros H. cbn [no_space forallb]. rewrite (digit_not_space _ Hc).
  now apply IH.
Qed.

Lemma unsigned_fixed_point_6_no_space (l : list ascii) :
  unsigned_fixed_point_6 l = true -> no_space l = true.
Proof.
  unfold unsigned_fixed_point_6. destruct l as [|d l0] eqn:E; [discriminate|].
  rewrite <- E. intros H. apply andb_prop in H as [_ H].
  apply drop_digits_no_space.
  destruct (drop_digits l) as [|p fp]; [discriminate|].
  apply andb_prop in H as [H Hfp]. apply andb_prop in H as [Hp _].
  apply Ascii.eqb_eq in Hp as ->.
  cbn [no_space forallb]. change (negb (Ascii.eqb "." " ")) with true.
  now apply digits_no_space.
Qed.

Lemma fixed_point_6_no_space (l : list ascii) :
  fixed_point_6 l = true -> no_space l = true.
Proof.
  destruct l as [|c b]; [discriminate|]. cbn [fixed_point_6].
  destruct (Ascii.eqb_spec c "-") as [->|Hc]; intros H.
  - cbn [no_space forallb]. change (negb (Ascii.eqb "-" " ")) with true.
    now apply unsigned_fixed_point_6_no_space.
  - now apply unsigned_fixed_point_6_no_space.
Qed.

Lemma split_at_no_space (a : list ascii) :
  no_space a = true -> split_at " " a = [a].
Proof.
  induction a as [|c a IH]; [reflexivity|]. cbn [no_space forallb split_at].
  intros H. apply andb_prop in H as [Hc Ha]. apply negb_true_iff in Hc.
  now rewrite Hc, IH.
Qed.

Lemma split_at_app (a b : list ascii) :
  no_space a = true ->
  split_at " " (a ++ " "%char :: b) = a :: split_at " " b.
Proof.
  induction a as [|c a IH]; [reflexivity|]. cbn [no_space forallb app split_at].
  intros H. apply andb_prop in H as [Hc Ha]. apply negb_true_iff in Hc.
  now rewrite Hc, IH.
Qed.

Lemma is_joint_line_fields (i x y z : string) :
  plain_integer (chars i) = true ->
  fixed_point_6 (chars x) = true ->
  fixed_point_6 (chars y) = true ->
  fixed_point_6 (chars z) = true ->
  is_joint_line (i +:+ " " +:+ x +:+ " " +:+ y +:+ " " +:+ z) = true.
Proof.
  intros Hi Hx Hy Hz. unfold is_joint_line.
  rewrite !list_ascii_of_string_app. cbn [list_ascii_of_string app].
  rewrite !split_at_app, split_at_no_space
    by auto using plain_integer_no_space, fixed_point_6_no_space.
  now rewrite Hi, Hx, Hy, Hz.
Qed.

(** A joint line with finite coordinates has the form the format asks. *)
Lemma joint_line_form (node_id : Z) (x y z : spec_float) :
  is_finite x = true -> is_finite y = true -> is_finite z = true ->
  is_joint_line (joint_line node_id x y z) = true.
Proof.
  intros Hx Hy Hz. unfold joint_line.
  apply is_joint_line_fields;
    auto using str_of_int_plain, format_6f_fixed_point.
Qed.

(** ** The validator *)

Lemma complete_has_null (row : gmap string cell) :
  complete required_columns row = negb (has_null row).
Proof.
  unfold complete, has_null.
  induction required_columns as [|c l IH]; cbn; [reflexivity|].
  rewrite IH. now destruct (isna (get row c)).
Qed.

Lemma length_filter_negb {A : Type} (p : A -> bool) (l : list A) :
  (length l - length (List.filter p l))%nat =
  length (List.filter (fun a => negb (p a)) l).
Proof.
  induction l as [|a l IH]; [reflexivity|]. cbn [List.filter].
  pose proof (List.filter_length_le p l) as Hle.
  destruct (p a); cbn [negb length]; lia.
Qed.



(** With the four columns there, the report has its seven parts, and
    checks 3 to 5 are those of the clean rows. *)
Lemma validate_with_columns (df : DataFrame) :
  forallb (has_column df) required_columns = true ->
  validate_node_data df =
    let df_clean := dropna required_columns df in
    let missing_count := length (List.filter has_null (rows df)) in
    let check2 :=
      if (0 <? missing_count)%nat then (MissingValues missing_count, false)
      else (NoMissingValues, true) in
    let validation_passed :=
      snd check2 && snd (check_duplicate_ids df_clean)
      && snd (check_duplicate_coords df_clean) && snd (check_numeric df_clean) in
    ([ReportHeader; ColumnsFound; fst check2; fst (check_duplicate_ids df_clean);
      fst (check_duplicate_coords df_clean); fst (check_numeric df_clean);
      if validation_passed then ValidationPassed (len df_clean)
      else ValidationFailed],
     validation_passed).
Proof.
  intros H. unfold validate_node_data.
  assert (E : List.filter (fun col => negb (has_column df col)) required_columns = []).
  { apply filter_none. revert H. apply forallb_weaken. intros c Hc.
    now rewrite Hc. }
  rewrite E. cbv zeta.
  assert (Hm : (len df - len (dropna required_columns df))%nat =
               length (List.filter has_null (rows df))).
  { unfold len, dropna; cbn [rows]. rewrite length_filter_negb.
    f_equal. apply List.filter_ext. intros row. now rewrite complete_has_null, negb_involutive. }
  now rewrite Hm.
Qed.

Lemma validate_missing_columns (df : DataFrame) (c : string) :
  In c required_columns -> has_column df c = false ->
  exists c0 rest,
    List.filter (fun col => negb (has_column df col)) required_columns = c0 :: rest /\
    validate_node_data df =
      ([ReportHeader; MissingColumns (c0 :: rest) (columns df)], false).
Proof.
  intros Hin Hc. unfold validate_node_data.
  destruct (List.filter (fun col => negb (has_column df col)) required_columns)
    as [|c0 rest] eqn:E.
  - assert (Hf : In c (List.filter (fun col => negb (has_column df col))
                                   required_columns)).
    { apply List.filter_In. split; [exact Hin | now rewrite Hc]. }
    rewrite E in Hf. destruct Hf.
  - eauto.
Qed.

(** C7. When one of the columns node_id, x, y, z is absent, validation
    fails at once: the report is its heading followed by the single
    message that lists the missing names (exactly the required names that
    are not columns of the table) and the names present, the verdict is
    False, and no message of checks 2 to 5 is produced. *)
Theorem missing_column_short_circuits (df : DataFrame) :
  (exists c, In c required_columns /\ c ∉ columns df) ->
  exists missing_columns,
    validate_node_data df =
      ([ReportHeader; MissingColumns missing_columns (columns df)], false) /\
    missing_columns <> [] /\
    (forall c, In c missing_columns <-> In c required_columns /\ c ∉ columns df).
Proof.
  intros (c & Hin & Hc).
  assert (Hb : has_column df c = false) by (now apply bool_decide_eq_false_2).
  destruct (validate_missing_columns df c Hin Hb) as (c0 & rest & E & Hv).
  exists (c0 :: rest). split; [exact Hv|]. split; [discriminate|].
  intros c'. rewrite <- E, List.filter_In. unfold has_column.
  rewrite negb_true_iff, bool_decide_eq_false. reflexivity.
Qed.


(** ** Duplicates *)





Lemma In_select_cons {A : Type} (b : bool) (mask : list bool) (a x : A) (l : list A) :
  In x (select mask l) -> In x (select (b :: mask) (a :: l)).
Proof. cbn [select]. destruct b; cbn; auto. Qed.

(** A row is in [df[df.duplicated(subset, keep=False)]] as soon as a row
    at another position has the same key. *)
Lemma duplicated_mask_selects (subset : list string) (l : list (gmap string cell)) :
  forall (before : list (gmap string cell)) (i : nat) (r : gmap string cell),
    l !! i = Some r ->
    (existsb (same_key subset r) before = true \/
     exists j r', j <> i /\ l !! j = Some r' /\ same_key subset r r' = true) ->
    In r (select (duplicated_mask subset before l) l).
Proof.
  induction l as [|h t IH]; intros before i r Hi Hdup; [discriminate|].
  cbn [duplicated_mask]. destruct i as [|i].
  - cbn in Hi. injection Hi as ->.
    assert (E : existsb (same_key subset r) before
                || existsb (same_key subset r) t = true).
    { destruct Hdup as [Hb|(j & r' & Hj & Hl & Hk)]; [now rewrite Hb|].
      destruct j as [|j]; [congruence|]. cbn in Hl.
      apply orb_true_iff. right. apply existsb_exists. exists r'.
      split; [|exact Hk]. eapply list_elem_of_In, list_elem_of_lookup_2, Hl. }
    cbn [select]. rewrite E. now left.
  - cbn in Hi. apply In_select_cons. apply (IH (h :: before) i r Hi).
    destruct Hdup as [Hb|(j & r' & Hj & Hl & Hk)].
    + left. cbn [existsb]. rewrite Hb. apply orb_true_r.
    + destruct j as [|j].
      * cbn in Hl. injection Hl as ->. left. cbn [existsb]. now rewrite Hk.
      * right. exists j, r'. cbn in Hl. repeat split; [congruence|exact Hl|exact Hk].
Qed.



(** ** Which rows are written *)

Lemma filter_map_comm {A B : Type} (p : B -> bool) (g : A -> B) (l : list A) :
  List.filter p (map g l) = map g (List.filter (fun a => p (g a)) l).
Proof.
  induction l as [|a l IH]; [reflexivity|]. cbn [map List.filter].
  destruct (p (g a)); cbn [map]; now rewrite IH.
Qed.

Lemma complete_coerce_row (row : gmap string cell) :
  complete ["x"; "y"; "z"] (coerce_row row) = numeric_row row.
Proof.
  unfold complete, numeric_row, numeric. cbn [forallb].
  rewrite get_coerce_row_x, get_coerce_row_y, get_coerce_row_z.
  now rewrite andb_true_r, andb_assoc.
Qed.

(** The rows written are the rows whose coordinates are all numbers. *)
Lemma kept_numeric (df : DataFrame) :
  kept df = map coerce_row (List.filter numeric_row (rows df)).
Proof.
  unfold kept. rewrite filter_map_comm. f_equal.
  apply List.filter_ext. intros row. apply complete_coerce_row.
Qed.

Lemma finite_numeric (v : cell) : finite v = true -> numeric v = true.
Proof.
  unfold finite, numeric.
  destruct (to_numeric v) as [|n|[s|s| |s m e]|s]; cbn; congruence.
Qed.

Lemma finite_row_numeric (row : gmap string cell) :
  finite_row row = true -> numeric_row row = true.
Proof.
  unfold finite_row, numeric_row. intros H.
  apply andb_prop in H as [H Hz]. apply andb_prop in H as [Hx Hy].
  now rewrite !finite_numeric.
Qed.

Lemma coord_finite (row : gmap string cell) (c : string) :
  c = "x" \/ c = "y" \/ c = "z" ->
  finite (get row c) = true -> is_finite (coord (coerce_row row) c) = true.
Proof.
  intros Hc H. unfold coord, finite in *.
  assert (E : get (coerce_row row) c = to_numeric (get row c)).
  { destruct Hc as [->|[->| ->]];
      [apply get_coerce_row_x | apply get_coerce_row_y | apply get_coerce_row_z]. }
  rewrite E. destruct (float (to_numeric (get row c))) as [[]|]; cbn; congruence.
Qed.

Lemma line_of_finite_row (row : gmap string cell) :
  finite_row row = true -> is_joint_line (line_of (coerce_row row)) = true.
Proof.
  unfold finite_row. intros H.
  apply andb_prop in H as [H Hz]. apply andb_prop in H as [Hx Hy].
  unfold line_of. apply joint_line_form; apply coord_finite; auto.
Qed.

(** The call on ids that sort and convert and coordinates that fit a
    float: the surviving rows, sorted. *)
Lemma generate_writes_survivors (path : string) (st : state) :
  forallb (has_column (frame st)) required_columns = true ->
  path ∉ locked st ->
  orderable (column (frame st) "node_id") = true ->
  forallb convertible_id (rows (frame st)) = true ->
  forallb fits_float_row (rows (frame st)) = true ->
  let survivors := List.filter numeric_row (rows (frame st)) in
  exists written,
    Permutation written (map coerce_row survivors) /\
    generate_staad_file path st =
      ([Generated path (length survivors)], true,
       {| frame := coerced (frame st);
          fs := <[path := unlines (header ++ map line_of written ++ [footer])]> (fs st);
          locked := locked st |}).
Proof.
  intros Hc Hp Ho Hi Hf survivors.
  exists (sort_rows "node_id" (kept (frame st))).
  assert (Hperm : Permutation (sort_rows "node_id" (kept (frame st)))
                              (map coerce_row survivors)).
  { rewrite sort_rows_perm, kept_numeric. reflexivity. }
  split; [exact Hperm|].
  rewrite (generate_ok path st Hc Hp Ho Hi (fits_float_kept _ Hf)). cbv zeta.
  now rewrite (Permutation_length Hperm), length_map.
Qed.

(** A loop that ends has written every row. *)
Lemma render_none_all (l : list (gmap string cell)) (ls : list string) :
  render l = (ls, None) ->
  ls = map line_of l /\
  Forall (fun row => row_line row = Ok (line_of row)) l.
Proof.
  revert ls. induction l as [|row l IH]; intros ls; cbn [render map].
  - intros [= <-]. auto.
  - destruct (row_line row) as [s|e] eqn:E; [|discriminate].
    destruct (render l) as [ls' stop]. intros [= <- ->].
    destruct (IH ls' eq_refl) as [-> Hall].
    apply row_line_ok in E as E'. destruct E' as [-> _]. auto.
Qed.

(** The loop does not get past a coerced row with an [int] coordinate
    too large for a float. *)
Lemma row_line_too_large (row : gmap string cell) (s : string) :
  row_line (coerce_row row) = Ok s -> fits_float_row row = true.
Proof.
  unfold row_line, fits_float_row.
  rewrite get_coerce_row_x, get_coerce_row_y, get_coerce_row_z.
  destruct (int _); [|discriminate].
  destruct (fits_float (get row "x")) eqn:Hx;
    [|now rewrite (float_too_large _ Hx)].
  destruct (float (to_numeric (get row "x"))); [|discriminate].
  destruct (fits_float (get row "y")) eqn:Hy;
    [|now rewrite (float_too_large _ Hy)].
  destruct (float (to_numeric (get row "y"))); [|discriminate].
  destruct (fits_float (get row "z")) eqn:Hz;
    [|now rewrite (float_too_large _ Hz)].
  reflexivity.
Qed.

(** Without one of the coordinate columns the call returns False. *)
Lemma generate_without_xyz (path : string) (st : state) :
  forallb (has_column (frame st)) ["x"; "y"; "z"] = false ->
  snd (fst (generate_staad_file path st)) = false.
Proof.
  cbn [forallb]. rewrite andb_true_r.
  unfold generate_staad_file, generate_body, bind.
  unfold coerce_column at 1.
  destruct (has_column (frame st) "x") eqn:Hx; [|reflexivity].
  cbn [frame fs locked]. unfold coerce_column at 1. cbn [frame fs locked].
  rewrite has_column_map_column.
  destruct (has_column (frame st) "y") eqn:Hy; [|reflexivity].
  unfold coerce_column at 1. cbn [frame fs locked].
  rewrite !has_column_map_column.
  destruct (has_column (frame st) "z") eqn:Hz; [discriminate|reflexivity].
Qed.

(** A call that returns True went through every stage. *)
Lemma generate_true (path : string) (st : state) :
  snd (fst (generate_staad_file path st)) = true ->
  forallb (has_column (frame st)) ["x"; "y"; "z"] = true /\
  (path ∉ locked st) /\
  exists df_sorted,
    sort_values "node_id" (dropna ["x"; "y"; "z"] (coerced (frame st))) = Ok df_sorted /\
    render (rows df_sorted) = (map line_of (rows df_sorted), None) /\
    generate_staad_file path st =
      ([Generated path (len df_sorted)], true,
       {| frame := coerced (frame st);
          fs := <[path := unlines (header ++ map line_of (rows df_sorted) ++ [footer])]>
                  (fs st);
          locked := locked st |}).
Proof.
  destruct (forallb (has_column (frame st)) ["x"; "y"; "z"]) eqn:Hxyz.
  2:{ rewrite (generate_without_xyz path st Hxyz). discriminate. }
  cbn [forallb] in Hxyz.
  apply andb_prop in Hxyz as [Hx Hxyz]. apply andb_prop in Hxyz as [Hy Hxyz].
  apply andb_prop in Hxyz as [Hz _].
  rewrite (generate_run path st Hx Hy Hz). cbv zeta.
  destruct (sort_values "node_id" _) as [df_sorted|e]; [|discriminate].
  destruct (bool_decide (path ∈ locked st)) eqn:Hl; [discriminate|].
  apply bool_decide_eq_false in Hl.
  destruct (render (rows df_sorted)) as [ls [e|]] eqn:Hr; [discriminate|].
  destruct (render_none_all _ _ Hr) as [-> _].
  intros _. split; [reflexivity|]. split; [exact Hl|]. eauto.
Qed.

(** C8 (amended). With the four columns present, node ids that sort and
    convert (an [int] id within 2^53 in magnitude) and a destination that
    opens: when every [int] coordinate fits a float, the call returns
    True whatever else the x, y, z values are; the rows whose coerced x,
    y or z is not a number are left out, the file holds one joint line
    per surviving row and nothing else between header and footer, and
    the count reported is the number of surviving rows. A row whose
    coordinates are all numbers, one of them an [int] too large for a
    float, is not left out: the call returns False. *)
Theorem bad_coordinates_dropped (path : string) (st : state) :
  forallb (has_column (frame st)) required_columns = true ->
  path ∉ locked st ->
  orderable (column (frame st) "node_id") = true ->
  forallb convertible_id (rows (frame st)) = true ->
  forallb exact_id (rows (frame st)) = true ->
  let survivors := List.filter numeric_row (rows (frame st)) in
  (forallb fits_float_row (rows (frame st)) = true ->
   exists written,
     Permutation written (map coerce_row survivors) /\
     Forall (fun row => complete ["x"; "y"; "z"] row = true) written /\
     fst (generate_staad_file path st) = ([Generated path (length survivors)], true) /\
     fs (snd (generate_staad_file path st))
     = <[path := unlines (header ++ map line_of written ++ [footer])]> (fs st)) /\
  (forall row,
     In row survivors -> fits_float_row row = false ->
     snd (fst (generate_staad_file path st)) = false).
Proof.
  intros Hc Hp Ho Hi _ survivors. split.
  - intros Hf.
    destruct (generate_writes_survivors path st Hc Hp Ho Hi Hf)
      as (written & Hperm & Hg).
    exists written. split; [exact Hperm|]. split; [|now rewrite Hg].
    apply List.Forall_forall. intros row Hrow.
    eapply Permutation_in in Hrow; [|exact Hperm].
    apply List.in_map_iff in Hrow as (r & <- & Hr).
    apply List.filter_In in Hr as [_ Hr]. now rewrite complete_coerce_row.
  - intros row Hrow Hbig.
    destruct (snd (fst (generate_staad_file path st))) eqn:E; [|reflexivity].
    destruct (generate_true path st E) as (_ & _ & df_sorted & Hs & Hr & _).
    destruct (render_none_all _ _ Hr) as [_ Hall].
    rewrite List.Forall_forall in Hall.
    destruct (columns_of_required _ Hc) as [Hn _].
    rewrite (sort_values_kept _ Hn Ho Hi) in Hs.
    assert (E' : rows df_sorted = sort_rows "node_id" (kept (frame st)))
      by (injection Hs as <-; reflexivity).
    rewrite E' in Hall.
    assert (Hin : In (coerce_row row) (sort_rows "node_id" (kept (frame st)))).
    { eapply Permutation_in; [symmetry; apply sort_rows_perm|].
      rewrite kept_numeric. now apply in_map. }
    apply Hall, row_line_too_large in Hin. congruence.
Qed.

Lemma no_space_format_6f (x : spec_float) : no_space (chars (format_6f x)) = true.
Proof.
  destruct (is_finite x) eqn:E.
  - now apply fixed_point_6_no_space, format_6f_fixed_point.
  - destruct x as [s|[]| |s m e]; try discriminate; reflexivity.
Qed.

(** The four fields of a joint line. *)
Lemma joint_line_fields (node_id : Z) (x y z : spec_float) :
  split_at " " (chars (joint_line node_id x y z))
  = [chars (str_of_int node_id); chars (format_6f x); chars (format_6f y);
     chars (format_6f z)].
Proof.
  unfold joint_line.
  rewrite !list_ascii_of_string_app. cbn [list_ascii_of_string app].
  now rewrite !split_at_app, split_at_no_space
    by auto using plain_integer_no_space, str_of_int_plain, no_space_format_6f.
Qed.

(** A coordinate that is a number is written as a number. *)
Lemma coord_numeric (row : gmap string cell) (c : string) :
  c = "x" \/ c = "y" \/ c = "z" ->
  numeric (get row c) = true -> fits_float (get row c) = true ->
  coord (coerce_row row) c <> S754_nan.
Proof.
  intros Hc Hn Hf. unfold coord.
  assert (E : get (coerce_row row) c = to_numeric (get row c)).
  { destruct Hc as [->|[->| ->]];
      [apply get_coerce_row_x | apply get_coerce_row_y | apply get_coerce_row_z]. }
  rewrite E. unfold numeric in Hn.
  destruct (get row c) as [|n|f|s]; cbn in *; try discriminate.
  - rewrite Hf. destruct (round64 n 0); cbn in Hf; congruence.
  - destruct f; cbn in Hn; congruence.
  - destruct (text_numeric s) as [f|]; cbn in *; [|discriminate].
    destruct f; cbn in Hn; congruence.
Qed.

Lemma numeric_row_xyz (row : gmap string cell) (c : string) :
  c = "x" \/ c = "y" \/ c = "z" ->
  numeric_row row = true -> numeric (get row c) = true.
Proof.
  unfold numeric_row. intros Hc H.
  apply andb_prop in H as [H Hz]. apply andb_prop in H as [Hx Hy].
  now destruct Hc as [->|[->| ->]].
Qed.

Lemma fits_float_row_at (row : gmap string cell) (c : string) :
  c = "x" \/ c = "y" \/ c = "z" ->
  fits_float_row row = true -> fits_float (get row c) = true.
Proof.
  intros Hc H. apply fits_float_row_xyz in H as (Hx & Hy & Hz).
  now destruct Hc as [->|[->| ->]].
Qed.

(** C1 (amended). For a table with the four columns, node ids that sort
    and convert to integers (an [int] id within 2^53 in magnitude), and
    x, y, z values that all coerce to numbers a float holds, written to
    a destination that opens: the file is the fixed header block, then
    one line per row of the table, then END JOINT COORDINATES, and
    nothing else. Every joint line has four fields separated by single
    spaces: the node id as a plain integer, and x, y, z, each in
    fixed-point notation with exactly six decimals when it is finite and
    as [inf] or [-inf] when it is infinite. With finite coordinates
    only, every line is [<node_id> <x> <y> <z>] in that notation. *)
Theorem joint_lines_fixed_point (path : string) (st : state) :
  forallb (has_column (frame st)) required_columns = true ->
  path ∉ locked st ->
  orderable (column (frame st) "node_id") = true ->
  forallb convertible_id (rows (frame st)) = true ->
  forallb exact_id (rows (frame st)) = true ->
  forallb numeric_row (rows (frame st)) = true ->
  forallb fits_float_row (rows (frame st)) = true ->
  exists written,
    Permutation written (map coerce_row (rows (frame st))) /\
    fst (generate_staad_file path st)
    = ([Generated path (length (rows (frame st)))], true) /\
    fs (snd (generate_staad_file path st))
    = <[path := unlines (header ++ map line_of written ++ [footer])]> (fs st) /\
    length (map line_of written) = length (rows (frame st)) /\
    Forall (fun row =>
              split_at " " (chars (line_of row))
              = [chars (str_of_int (node_id_of row));
                 chars (format_6f (coord row "x"));
                 chars (format_6f (coord row "y"));
                 chars (format_6f (coord row "z"))] /\
              plain_integer (chars (str_of_int (node_id_of row))) = true /\
              forall c, c = "x" \/ c = "y" \/ c = "z" ->
                match coord row c with
                | S754_infinity s =>
                    format_6f (coord row c) = if s then "-inf" else "inf"
                | S754_nan => False
                | _ => fixed_point_6 (chars (format_6f (coord row c))) = true
                end) written /\
    (forallb finite_row (rows (frame st)) = true ->
     Forall (fun line => is_joint_line line = true) (map line_of written)).
Proof.
  intros Hc Hp Ho Hi _ Hn Hf.
  destruct (generate_writes_survivors path st Hc Hp Ho Hi Hf) as (written & Hperm & Hg).
  rewrite (filter_all _ _ Hn) in Hperm, Hg.
  exists written. split; [exact Hperm|]. split; [now rewrite Hg|].
  split; [now rewrite Hg|]. split; [|split].
  - now rewrite length_map, (Permutation_length Hperm), length_map.
  - apply List.Forall_forall. intros row Hrow.
    eapply Permutation_in in Hrow; [|exact Hperm].
    apply List.in_map_iff in Hrow as (r & <- & Hr).
    rewrite forallb_forall in Hn, Hf. specialize (Hn r Hr). specialize (Hf r Hr).
    split; [apply joint_line_fields|]. split; [apply str_of_int_plain|].
    intros c Hcx.
    pose proof (coord_numeric r c Hcx (numeric_row_xyz r c Hcx Hn)
                  (fits_float_row_at r c Hcx Hf)) as Hnan.
    destruct (coord (coerce_row r) c) as [s|s| |s m e] eqn:E;
      [| reflexivity | congruence |]; now apply format_6f_fixed_point.
  - intros Hfin. apply List.Forall_forall. intros line Hline.
    apply List.in_map_iff in Hline as (row & <- & Hrow).
    eapply Permutation_in in Hrow; [|exact Hperm].
    apply List.in_map_iff in Hrow as (r & <- & Hr).
    apply line_of_finite_row.
    rewrite forallb_forall in Hfin. now apply Hfin.
Qed.

(** ** Integer node ids *)

Lemma int_id_convertible (row : gmap string cell) :
  int_id row -> convertible_id row = true.
Proof. intros [n H]. unfold convertible_id. now rewrite H. Qed.

Lemma int_id_coerce_row (row : gmap string cell) :
  int_id row -> int_id (coerce_row row).
Proof. intros [n H]. exists n. now rewrite node_id_coerce_row. Qed.

Lemma node_id_of_coerce_row (row : gmap string cell) :
  node_id_of (coerce_row row) = node_id_of row.
Proof. unfold node_id_of. now rewrite node_id_coerce_row. Qed.

Lemma int_ids_convertible (l : list (gmap string cell)) :
  Forall int_id l -> forallb convertible_id l = true.
Proof.
  intros H. apply forallb_forall. intros row Hrow.
  rewrite List.Forall_forall in H. now apply int_id_convertible, H.
Qed.

Lemma int_ids_orderable (df : DataFrame) :
  Forall int_id (rows df) -> orderable (column df "node_id") = true.
Proof.
  intros H. unfold orderable, column. apply orb_true_iff. left.
  rewrite forallb_on_map. apply forallb_forall. intros row Hrow.
  rewrite List.Forall_forall in H. destruct (H row Hrow) as [n ->]. reflexivity.
Qed.

Lemma kept_int_ids (df : DataFrame) :
  Forall int_id (rows df) -> Forall int_id (kept df).
Proof.
  intros H. rewrite kept_numeric. apply List.Forall_forall. intros row Hrow.
  apply List.in_map_iff in Hrow as (r & <- & Hr). apply List.filter_In in Hr as [Hr _].
  rewrite List.Forall_forall in H. now apply int_id_coerce_row, H.
Qed.

Lemma filter_perm {A : Type} (p : A -> bool) (l l' : list A) :
  Permutation l l' -> Permutation (List.filter p l) (List.filter p l').
Proof.
  induction 1 as [|a l l' _ IH|a b l|l l' l'' _ IH1 _ IH2]; cbn [List.filter].
  - constructor.
  - destruct (p a); [now constructor | exact IH].
  - destruct (p a), (p b); try reflexivity. apply perm_swap.
  - now transitivity (List.filter p l').
Qed.

Lemma kept_perm (cols cols' : list string) (rs rs' : list (gmap string cell)) :
  Permutation rs rs' ->
  Permutation (kept {| columns := cols; rows := rs |})
              (kept {| columns := cols'; rows := rs' |}).
Proof.
  intros H. rewrite !kept_numeric; cbn [rows].
  now apply Permutation_map, filter_perm.
Qed.

Lemma kept_ids (df : DataFrame) :
  map node_id_of (kept df) =
  map node_id_of (List.filter numeric_row (rows df)).
Proof.
  rewrite kept_numeric, map_map. apply map_ext, node_id_of_coerce_row.
Qed.

Lemma NoDup_map_filter {A B : Type} (g : A -> B) (p : A -> bool) (l : list A) :
  NoDup (map g l) -> NoDup (map g (List.filter p l)).
Proof.
  induction l as [|a l IH]; intros H; [constructor|].
  cbn [map] in H. apply NoDup_cons in H as [Ha Hl].
  cbn [List.filter]. destruct (p a); [|now apply IH].
  cbn [map]. apply NoDup_cons. split; [|now apply IH].
  intros Hin. apply Ha.
  apply list_elem_of_In, List.in_map_iff in Hin as (x & <- & Hx).
  apply List.filter_In in Hx as [Hx _].
  now apply list_elem_of_In, in_map.
Qed.

(** Rows in strictly ascending id order: one arrangement only. *)
Lemma ascending_unique (l1 : list (gmap string cell)) :
  forall l2,
    Permutation l1 l2 ->
    StronglySorted Z.lt (map node_id_of l1) ->
    StronglySorted Z.lt (map node_id_of l2) ->
    l1 = l2.
Proof.
  induction l1 as [|a l1 IH]; intros l2 Hp H1 H2.
  - now apply Permutation_nil in Hp.
  - destruct l2 as [|b l2]; [now apply Permutation_sym, Permutation_nil in Hp|].
    cbn [map] in H1, H2.
    apply StronglySorted_inv in H1 as [H1 Ha].
    apply StronglySorted_inv in H2 as [H2 Hb].
    rewrite List.Forall_forall in Ha, Hb.
    assert (E : a = b).
    { assert (Hab : In a (b :: l2)) by (eapply Permutation_in; [exact Hp | now left]).
      assert (Hba : In b (a :: l1))
        by (eapply Permutation_in; [apply Permutation_sym, Hp | now left]).
      destruct Hab as [Hab|Hab]; [now symmetry|].
      destruct Hba as [Hba|Hba]; [assumption|].
      specialize (Ha _ (in_map node_id_of _ _ Hba)).
      specialize (Hb _ (in_map node_id_of _ _ Hab)). lia. }
    subst b. f_equal. apply IH; [|assumption|assumption].
    now apply Permutation_cons_inv in Hp.
Qed.

Lemma sort_rows_distinct (l : list (gmap string cell)) :
  Forall int_id l -> NoDup (map node_id_of l) ->
  StronglySorted Z.lt (map node_id_of (sort_rows "node_id" l)).
Proof.
  intros Hi Hn. apply sorted_le_nodup; [now apply sort_rows_int|].
  now rewrite (Permutation_map node_id_of (sort_rows_perm "node_id" l)).
Qed.

(** ** Text node ids *)

Lemma leb_text (a b : string) :
  leb (CStr a) (CStr b) = match (a ?= b)%string with Gt => false | _ => true end.
Proof. reflexivity. Qed.

Lemma text_le_trans (a b c : string) : text_le a b -> text_le b c -> text_le a c.
Proof.
  unfold text_le. intros Hab Hbc.
  destruct (a ?= b)%string eqn:E1; [| |congruence].
  - apply String.compare_eq_iff in E1. now subst b.
  - destruct (b ?= c)%string eqn:E2; [| |congruence].
    + apply String.compare_eq_iff in E2. subst c. now rewrite E1.
    + pose proof (@StrictOrder_Transitive _ _ OrdersEx.String_as_OT.lt_strorder
                    a b c E1 E2) as E3.
      change ((a ?= c)%string = Lt) in E3. now rewrite E3.
Qed.

Lemma text_le_total (a b : string) : ~ text_le a b -> text_le b a.
Proof.
  unfold text_le. intros H. rewrite String.compare_antisym.
  destruct (a ?= b)%string; cbn; try discriminate; exfalso; apply H; discriminate.
Qed.

Lemma text_id_id_text (row : gmap string cell) :
  text_id row -> get row "node_id" = CStr (id_text row).
Proof. intros [s H]. unfold id_text. now rewrite H. Qed.

Lemma insert_sorted_text (r : gmap string cell) (l : list (gmap string cell)) :
  text_id r -> Forall text_id l ->
  StronglySorted text_le (map id_text l) ->
  StronglySorted text_le (map id_text (insert_sorted "node_id" r l)).
Proof.
  intros Hr Hl Hs. induction l as [|h t IH]; cbn [insert_sorted map].
  - repeat constructor.
  - apply List.Forall_cons_iff in Hl as [Hh Ht].
    cbn [map] in Hs. apply StronglySorted_inv in Hs as [Hs Hle].
    rewrite (text_id_id_text _ Hr), (text_id_id_text _ Hh), leb_text.
    destruct (id_text r ?= id_text h)%string eqn:E; cbn [map].
    1,2: assert (Hrh : text_le (id_text r) (id_text h))
           by (unfold text_le; congruence).
    1,2: constructor; [constructor; assumption|];
         constructor; [assumption|];
         eapply List.Forall_impl; [|exact Hle]; intros a Ha;
         now apply (text_le_trans _ (id_text h)).
    assert (Hhr : text_le (id_text h) (id_text r))
      by (apply text_le_total; unfold text_le; congruence).
    constructor; [now apply IH|].
    apply List.Forall_forall. intros a Ha.
    apply List.in_map_iff in Ha as (x & <- & Hx).
    apply (Permutation_in _ (insert_sorted_perm _ _ _)) in Hx as [<-|Hx];
      [exact Hhr|].
    rewrite List.Forall_forall in Hle. now apply Hle, in_map.
Qed.

Lemma sort_rows_text (l : list (gmap string cell)) :
  Forall text_id l ->
  StronglySorted text_le (map id_text (sort_rows "node_id" l)).
Proof.
  induction 1 as [|r l Hr Hl IH]; cbn [sort_rows fold_right]; [constructor|].
  fold (sort_rows "node_id" l). apply insert_sorted_text; [exact Hr| |exact IH].
  apply List.Forall_forall. intros a Ha.
  apply (Permutation_in _ (sort_rows_perm _ _)) in Ha.
  rewrite List.Forall_forall in Hl. now apply Hl.
Qed.

Lemma text_ids_orderable (df : DataFrame) :
  Forall text_id (rows df) -> orderable (column df "node_id") = true.
Proof.
  intros H. unfold orderable, column. apply orb_true_iff. right.
  rewrite forallb_on_map. apply forallb_forall. intros row Hrow.
  rewrite List.Forall_forall in H. destruct (H row Hrow) as [n ->]. reflexivity.
Qed.

Lemma kept_text_ids (df : DataFrame) :
  Forall text_id (rows df) -> Forall text_id (kept df).
Proof.
  intros H. rewrite kept_numeric. apply List.Forall_forall. intros row Hrow.
  apply List.in_map_iff in Hrow as (r & <- & Hr). apply List.filter_In in Hr as [Hr _].
  rewrite List.Forall_forall in H. destruct (H r Hr) as [s Hs].
  exists s. now rewrite node_id_coerce_row.
Qed.

Lemma forallb_perm {A : Type} (p : A -> bool) (l l' : list A) :
  Permutation l l' -> forallb p l' = true -> forallb p l = true.
Proof.
  intros Hp H. apply forallb_forall. intros a Ha.
  rewrite forallb_forall in H. apply H. eapply Permutation_in; eassumption.
Qed.

(** C2 (amended). For a table with the four columns, coordinates that
    fit a float and a destination that opens, the rows are sorted on
    node_id as the table holds it. When the node ids are all integers
    (within 2^53 in magnitude) the joint lines are in ascending numeric
    node id order, whatever the order of the rows in the table, rows
    with the same id next to each other; the order is strict when the
    ids are distinct, and then every arrangement of the same rows gives
    the same file. When the node ids are all text that converts, the
    joint lines are in the order of that text, character by character,
    which is not the order of the numbers. *)
Theorem integer_ids_ascending (path : string) (st : state) :
  forallb (has_column (frame st)) required_columns = true ->
  path ∉ locked st ->
  forallb fits_float_row (rows (frame st)) = true ->
  (Forall int_id (rows (frame st)) ->
   forallb exact_id (rows (frame st)) = true ->
   exists written,
     Permutation written (kept (frame st)) /\
     fst (generate_staad_file path st) = ([Generated path (length written)], true) /\
     fs (snd (generate_staad_file path st))
     = <[path := unlines (header ++ map line_of written ++ [footer])]> (fs st) /\
     StronglySorted Z.le (map node_id_of written) /\
     (NoDup (map node_id_of (rows (frame st))) ->
        StronglySorted Z.lt (map node_id_of written) /\
        forall rows',
          Permutation rows' (rows (frame st)) ->
          fs (snd (generate_staad_file path
                     {| frame := {| columns := columns (frame st); rows := rows' |};
                        fs := fs st; locked := locked st |}))
          = <[path := unlines (header ++ map line_of written ++ [footer])]> (fs st))) /\
  (Forall text_id (rows (frame st)) ->
   forallb convertible_id (rows (frame st)) = true ->
   exists written,
     Permutation written (kept (frame st)) /\
     fst (generate_staad_file path st) = ([Generated path (length written)], true) /\
     fs (snd (generate_staad_file path st))
     = <[path := unlines (header ++ map line_of written ++ [footer])]> (fs st) /\
     StronglySorted text_le (map id_text written)).
Proof.
  intros Hc Hp Hf. split.
  - intros Hi _.
    exists (sort_rows "node_id" (kept (frame st))).
    split; [apply sort_rows_perm|].
    pose proof (generate_ok path st Hc Hp (int_ids_orderable _ Hi)
                  (int_ids_convertible _ Hi) (fits_float_kept _ Hf)) as Hg.
    cbv zeta in Hg. split; [now rewrite Hg|]. split; [now rewrite Hg|].
    split; [now apply sort_rows_int, kept_int_ids|].
    intros Hn.
    assert (Hs : StronglySorted Z.lt
                   (map node_id_of (sort_rows "node_id" (kept (frame st))))).
    { apply sort_rows_distinct; [now apply kept_int_ids|].
      rewrite kept_ids. now apply NoDup_map_filter. }
    split; [exact Hs|].
    intros rows' Hperm.
    set (df' := {| columns := columns (frame st); rows := rows' |}).
    assert (Hi' : Forall int_id (rows df')).
    { apply List.Forall_forall. intros row Hrow. rewrite List.Forall_forall in Hi.
      apply Hi. eapply Permutation_in; [exact Hperm | exact Hrow]. }
    assert (Hf' : forallb fits_float_row (rows df') = true)
      by (apply (forallb_perm _ _ _ Hperm), Hf).
    rewrite (generate_ok path {| frame := df'; fs := fs st; locked := locked st |}
               Hc Hp (int_ids_orderable df' Hi') (int_ids_convertible _ Hi')
               (fits_float_kept _ Hf')).
    cbv zeta. cbn [snd fs frame].
    assert (Hk : Permutation (kept df') (kept (frame st))).
    { destruct (frame st) as [cols rs]. now apply kept_perm. }
    assert (E : sort_rows "node_id" (kept df') = sort_rows "node_id" (kept (frame st))).
    { apply ascending_unique.
      - now rewrite !sort_rows_perm.
      - apply sort_rows_distinct; [now apply kept_int_ids|].
        rewrite (Permutation_map node_id_of Hk), kept_ids. now apply NoDup_map_filter.
      - exact Hs. }
    now rewrite E.
  - intros Ht Hi.
    exists (sort_rows "node_id" (kept (frame st))).
    split; [apply sort_rows_perm|].
    pose proof (generate_ok path st Hc Hp (text_ids_orderable _ Ht) Hi
                  (fits_float_kept _ Hf)) as Hg.
    cbv zeta in Hg. split; [now rewrite Hg|]. split; [now rewrite Hg|].
    now apply sort_rows_text, kept_text_ids.
Qed.

(** ** Calling twice *)

Lemma filter_nil_forallb {A : Type} (p : A -> bool) (l : list A) :
  List.filter (fun a => negb (p a)) l = [] -> forallb p l = true.
Proof.
  induction l as [|a l IH]; [reflexivity|]. cbn [List.filter forallb].
  destruct (p a); cbn [negb]; [exact IH | discriminate].
Qed.

Lemma validated_has_columns (df : DataFrame) :
  snd (validate_node_data df) = true ->
  forallb (has_column df) required_columns = true.
Proof.
  unfold validate_node_data. intros H. apply filter_nil_forallb.
  destruct (List.filter (fun col => negb (has_column df col)) required_columns);
    [reflexivity | discriminate].
Qed.

Lemma columns_xyz (df : DataFrame) :
  forallb (has_column df) required_columns = true ->
  has_column df "x" = true /\ has_column df "y" = true /\ has_column df "z" = true.
Proof.
  cbn [forallb required_columns]. intros H.
  apply andb_prop in H as [_ H]. apply andb_prop in H as [Hx H].
  apply andb_prop in H as [Hy H]. apply andb_prop in H as [Hz _]. auto.
Qed.

(** Two calls in a row, the second on the table as the first left it:
    the same outcome twice, and the same bytes when they succeed. *)
Lemma generate_twice (p1 p2 : string) (st : state) :
  forallb (has_column (frame st)) required_columns = true ->
  p1 ∉ locked st ->
  p2 ∉ locked st ->
  let r1 := generate_staad_file p1 st in
  let r2 := generate_staad_file p2 (snd r1) in
  snd (fst r2) = snd (fst r1) /\
  frame (snd r2) = frame (snd r1) /\
  (snd (fst r1) = true ->
   exists content n,
     fst r1 = ([Generated p1 n], true) /\
     fst r2 = ([Generated p2 n], true) /\
     fs (snd r1) !! p1 = Some content /\
     fs (snd r2) !! p2 = Some content /\
     fs (snd r2) !! p1 = Some content).
Proof.
  intros Hv H1 H2 r1 r2.
  apply columns_xyz in Hv as (Hx & Hy & Hz).
  subst r2 r1.
  rewrite (generate_run p1 st Hx Hy Hz). cbv zeta.
  destruct (sort_values "node_id" (dropna ["x"; "y"; "z"] (coerced (frame st))))
    as [df_sorted|e] eqn:Es.
  - rewrite (bool_decide_eq_false_2 _ H1).
    destruct (render (rows df_sorted)) as [ls [e|]] eqn:Er; cbn [fst snd].
    + rewrite generate_run by exact Hx || exact Hy || exact Hz.
      cbv zeta. cbn [frame fs locked]. rewrite coerced_idem, Es.
      rewrite (bool_decide_eq_false_2 _ H2), Er. cbn [fst snd frame].
      repeat split. discriminate.
    + rewrite generate_run by exact Hx || exact Hy || exact Hz.
      cbv zeta. cbn [frame fs locked]. rewrite coerced_idem, Es.
      rewrite (bool_decide_eq_false_2 _ H2), Er. cbn [fst snd frame fs].
      repeat split. intros _. do 2 eexists.
      split; [reflexivity|]. split; [reflexivity|].
      split; [apply lookup_insert_eq|]. split; [apply lookup_insert_eq|].
      destruct (decide (p2 = p1)) as [->|Hne];
        [apply lookup_insert_eq | rewrite lookup_insert_ne by exact Hne;
                                   apply lookup_insert_eq].
  - cbn [fst snd].
    rewrite generate_run by exact Hx || exact Hy || exact Hz.
    cbv zeta. cbn [frame fs locked]. rewrite coerced_idem, Es. cbn [fst snd frame].
    repeat split. discriminate.
Qed.

(** ** A call that fails *)

Lemma filter_partition_perm {A : Type} (p : A -> bool) (l : list A) :
  Permutation (List.filter (fun a => negb (p a)) l ++ List.filter p l) l.
Proof.
  induction l as [|a l IH]; [reflexivity|]. cbn [List.filter].
  destruct (p a); cbn [negb app].
  - rewrite <- Permutation_middle. now constructor.
  - now constructor.
Qed.

Lemma sort_values_perm (by_ : string) (df d : DataFrame) :
  sort_values by_ df = Ok d -> Permutation (rows d) (rows df).
Proof.
  unfold sort_values. destruct (has_column df by_); [|discriminate].
  destruct (orderable _); [|discriminate].
  intros H. injection H as <-. cbn [rows].
  rewrite sort_rows_perm.
  apply (filter_partition_perm (fun r => isna (get r by_))).
Qed.

(** The first row the loop cannot convert. *)
Lemma first_unconvertible (l : list (gmap string cell)) :
  (exists row, In row l /\ convertible_id row = false) ->
  exists pre row post,
    l = pre ++ row :: post /\
    forallb convertible_id pre = true /\ convertible_id row = false.
Proof.
  induction l as [|a l IH]; intros (row & Hin & Hrow); [destruct Hin|].
  destruct (convertible_id a) eqn:Ea.
  - destruct Hin as [->|Hin]; [congruence|].
    destruct IH as (pre & r & post & -> & Hpre & Hr); [eauto|].
    exists (a :: pre), r, post. cbn [forallb app]. now rewrite Ea, Hpre.
  - exists [], a, l. auto.
Qed.

Lemma coerced_rows_perm (l l' : list (gmap string cell)) :
  Permutation l l' -> coerced_rows l' -> coerced_rows l.
Proof.
  unfold coerced_rows. intros Hp H. rewrite List.Forall_forall in H |- *.
  intros row Hrow. apply H. eapply Permutation_in; [exact Hp | exact Hrow].
Qed.

Lemma coerced_rows_app_l (l l' : list (gmap string cell)) :
  coerced_rows (l ++ l') -> coerced_rows l.
Proof. unfold coerced_rows. rewrite Forall_app. tauto. Qed.

Lemma forallb_false_in {A : Type} (p : A -> bool) (l : list A) (a : A) :
  In a l -> p a = false -> forallb p l = false.
Proof.
  intros Hin Ha. destruct (forallb p l) eqn:E; [|reflexivity].
  rewrite forallb_forall in E. rewrite (E a Hin) in Ha. discriminate.
Qed.

(** Numbers and text among the keys of the rows that are sorted. *)
Lemma mixed_ids_not_orderable (df : DataFrame) (r1 r2 : gmap string cell) (s : string) :
  forallb numeric_row (rows df) = true ->
  In r1 (rows df) -> In r2 (rows df) ->
  get r1 "node_id" = CStr s -> is_number (get r2 "node_id") = true ->
  sort_values "node_id" (dropna ["x"; "y"; "z"] (coerced df)) = Raise TypeError \/
  has_column df "node_id" = false.
Proof.
  intros Hn H1 H2 Hs Hnum.
  destruct (has_column df "node_id") eqn:Hc; [left|now right].
  unfold sort_values.
  change (has_column (dropna ["x"; "y"; "z"] (coerced df)) "node_id")
    with (has_column df "node_id").
  rewrite Hc, rows_dropna_coerced, kept_numeric, (filter_all _ _ Hn).
  set (keyed := List.filter _ _).
  assert (K1 : In (coerce_row r1) keyed).
  { apply List.filter_In. split; [now apply in_map|].
    now rewrite node_id_coerce_row, Hs. }
  assert (K2 : In (coerce_row r2) keyed).
  { apply List.filter_In. split; [now apply in_map|].
    rewrite node_id_coerce_row. unfold is_number in Hnum.
    destruct (get r2 "node_id") as [|n|[]|t]; cbn in *; congruence. }
  unfold orderable. rewrite !forallb_on_map.
  rewrite (forallb_false_in _ _ _ K1), (forallb_false_in _ _ _ K2); [reflexivity| |].
  - rewrite node_id_coerce_row. unfold is_number in Hnum.
    destruct (get r2 "node_id") as [|n|f|t]; cbn in *; congruence.
  - now rewrite node_id_coerce_row, Hs.
Qed.

(** C10 (amended). For a table with the four columns whose x, y, z all
    coerce to numbers a float holds, written to a destination that
    opens. When the rows can be sorted by node_id (the node ids are all
    numbers or all text) and some node id does not convert to an
    integer, that row is not just left out: the conversion raises inside
    the write loop, the call reports an exception (the one [int] raised,
    unless the id is missing) and returns False, and the destination
    holds the header and the joint lines of the rows sorted before the
    first such row, with neither the rows after it nor the END JOINT
    COORDINATES line. When one node id is text and another a number,
    sorting raises TypeError before the file is opened: the call returns
    False and no file is written. *)
Theorem unconvertible_id_stops_the_loop (path : string) (st : state) :
  forallb (has_column (frame st)) required_columns = true ->
  path ∉ locked st ->
  forallb numeric_row (rows (frame st)) = true ->
  forallb fits_float_row (rows (frame st)) = true ->
  forallb exact_id (rows (frame st)) = true ->
  (forall df_sorted,
     sort_values "node_id" (dropna ["x"; "y"; "z"] (coerced (frame st))) = Ok df_sorted ->
     (exists row, In row (rows (frame st)) /\ convertible_id row = false) ->
     exists pre row post e,
       rows df_sorted = pre ++ row :: post /\
       forallb convertible_id pre = true /\
       int (get row "node_id") = Raise e /\
       snd (fst (generate_staad_file path st)) = false /\
       (exists e', fst (fst (generate_staad_file path st)) = [GenerateFailed e'] /\
                   (isna (get row "node_id") = false -> e' = e)) /\
       fs (snd (generate_staad_file path st))
       = <[path := unlines (header ++ map line_of pre)]> (fs st)) /\
  (forall r1 r2 s,
     In r1 (rows (frame st)) -> In r2 (rows (frame st)) ->
     get r1 "node_id" = CStr s -> is_number (get r2 "node_id") = true ->
     fst (generate_staad_file path st) = ([GenerateFailed TypeError], false) /\
     fs (snd (generate_staad_file path st)) = fs st).
Proof.
  intros Hc Hp Hn Hf _. split.
  - intros df_sorted Hs (bad & Hin & Hbad).
    pose proof (sort_values_perm _ _ _ Hs) as Hperm.
    rewrite rows_dropna_coerced in Hperm.
    assert (Hk : kept (frame st) = map coerce_row (rows (frame st))).
    { rewrite kept_numeric. now rewrite (filter_all _ _ Hn). }
    destruct (first_unconvertible (rows df_sorted))
      as (pre & row & post & E & Hpre & Hrow).
    { exists (coerce_row bad). split.
      - eapply Permutation_in; [apply Permutation_sym, Hperm|].
        rewrite Hk. now apply in_map.
      - now rewrite convertible_coerce_row. }
    assert (Hco : coerced_rows pre).
    { apply (coerced_rows_app_l pre (row :: post)). rewrite <- E.
      eapply coerced_rows_perm; [exact Hperm | apply kept_coerced]. }
    assert (Hfp : forallb fits_float_row pre = true).
    { apply forallb_forall. intros r Hr.
      pose proof (fits_float_kept _ Hf) as Hfk. rewrite forallb_forall in Hfk.
      apply Hfk. eapply Permutation_in; [exact Hperm|].
      rewrite E. apply in_or_app. now left. }
    destruct (render_stops pre post row Hco Hpre Hfp Hrow) as (e & He & Hr).
    exists pre, row, post, e.
    apply columns_xyz in Hc as (Hx & Hy & Hz).
    rewrite (generate_run path st Hx Hy Hz). cbv zeta.
    rewrite Hs, (bool_decide_eq_false_2 _ Hp), E, Hr. cbn [fst snd fs].
    repeat split; try assumption. exists e. auto.
  - intros r1 r2 s H1 H2 Hs Hnum.
    destruct (columns_of_required _ Hc) as (Hid & Hx & Hy & Hz).
    destruct (mixed_ids_not_orderable (frame st) r1 r2 s Hn H1 H2 Hs Hnum)
      as [E|E]; [|congruence].
    rewrite (generate_run path st Hx Hy Hz). cbv zeta. rewrite E. auto.
Qed.





(** ** The loader *)


(* ===================================================================== *)
(** * More on the validator *)
(* ===================================================================== *)

Lemma select_map_filter {A : Type} (p : A -> bool) (l : list A) :
  select (map p l) l = List.filter p l.
Proof.
  induction l as [|a l IH]; [reflexivity|]. cbn [map select List.filter].
  destruct (p a); now rewrite IH.
Qed.

Lemma forallb_filter_nil {A : Type} (p : A -> bool) (l : list A) :
  List.filter p l = [] <-> forallb (fun a => negb (p a)) l = true.
Proof.
  induction l as [|a l IH]; [easy|]. cbn [List.filter forallb].
  destruct (p a); cbn [negb andb]; [easy | exact IH].
Qed.

(** When [duplicated] marks a row, a row at another position has its
    key. *)
Lemma duplicated_mask_marks (subset : list string) (l : list (gmap string cell)) :
  forall before : list (gmap string cell),
    select (duplicated_mask subset before l) l <> [] ->
    exists i r,
      l !! i = Some r /\
      (existsb (same_key subset r) before = true \/
       exists j r', j <> i /\ l !! j = Some r' /\ same_key subset r r' = true).
Proof.
  induction l as [|h t IH]; intros before H; [now cbn in H|].
  cbn [duplicated_mask select] in H.
  destruct (existsb (same_key subset h) before
            || existsb (same_key subset h) t) eqn:E.
  - exists 0%nat, h. split; [reflexivity|].
    apply orb_true_iff in E as [E|E]; [now left|right].
    apply existsb_exists in E as (r' & Hin & Hk).
    apply list_elem_of_In, list_elem_of_lookup_1 in Hin as [j Hj].
    exists (S j), r'. repeat split; [lia | exact Hj | exact Hk].
  - destruct (IH (h :: before) H) as (i & r & Hi & Hd).
    exists (S i), r. split; [exact Hi|].
    destruct Hd as [Hd|(j & r' & Hj & Hl & Hk)].
    + cbn [existsb] in Hd. apply orb_true_iff in Hd as [Hd|Hd]; [|now left].
      right. exists 0%nat, h. repeat split; [lia | exact Hd].
    + right. exists (S j), r'. repeat split; [lia | exact Hl | exact Hk].
Qed.

Lemma duplicated_none_iff (subset : list string) (df : DataFrame) :
  select (duplicated subset df) (rows df) = [] <-> distinct_keys subset (rows df).
Proof.
  unfold duplicated, distinct_keys. split.
  - intros H i j r1 r2 Hi Hj Hij.
    destruct (same_key subset r1 r2) eqn:E; [|reflexivity].
    assert (Hin : In r1 (select (duplicated_mask subset [] (rows df)) (rows df))).
    { apply (duplicated_mask_selects _ _ [] i r1 Hi). right. eauto. }
    rewrite H in Hin. destruct Hin.
  - intros H.
    destruct (select (duplicated_mask subset [] (rows df)) (rows df)) eqn:E;
      [reflexivity|].
    destruct (duplicated_mask_marks subset (rows df) []) as (i & r & Hi & Hd);
      [rewrite E; discriminate|].
    destruct Hd as [Hd|(j & r' & Hj & Hl & Hk)]; [discriminate|].
    rewrite (H i j r r' Hi Hl) in Hk by congruence. discriminate.
Qed.

Lemma check_duplicate_ids_ok (df : DataFrame) :
  snd (check_duplicate_ids df) = true <-> distinct_keys ["node_id"] (rows df).
Proof.
  rewrite <- duplicated_none_iff. unfold check_duplicate_ids, loc, len; cbn [rows].
  destruct (select (duplicated ["node_id"] df) (rows df)); cbn; easy.
Qed.

Lemma check_duplicate_coords_ok (df : DataFrame) :
  snd (check_duplicate_coords df) = true <-> distinct_keys ["x"; "y"; "z"] (rows df).
Proof.
  rewrite <- duplicated_none_iff. unfold check_duplicate_coords, loc, len; cbn [rows].
  destruct (select (duplicated ["x"; "y"; "z"] df) (rows df)); cbn; easy.
Qed.

Lemma non_numeric_in_nil (df : DataFrame) (col : string) :
  non_numeric_in df col = [] <->
  forallb (fun row => numeric (get row col)) (rows df) = true.
Proof.
  unfold non_numeric_in, loc, len, column, numeric; cbn [rows].
  rewrite map_map, (select_map_filter (fun row => isna (to_numeric (get row col)))).
  rewrite <- (forallb_filter_nil (fun row => isna (to_numeric (get row col)))).
  destruct (List.filter _ (rows df)); cbn; easy.
Qed.

Lemma forallb_and3 {A : Type} (p q r : A -> bool) (l : list A) :
  forallb (fun a => p a && q a && r a) l = true <->
  forallb p l = true /\ forallb q l = true /\ forallb r l = true.
Proof.
  rewrite !forallb_forall. split.
  - intros H. repeat split; intros a Ha; specialize (H a Ha);
      apply andb_prop in H as [H Hr]; apply andb_prop in H as [Hp Hq]; assumption.
  - intros (Hp & Hq & Hr) a Ha. now rewrite Hp, Hq, Hr.
Qed.

Lemma check_numeric_ok (df : DataFrame) :
  snd (check_numeric df) = true <-> forallb numeric_row (rows df) = true.
Proof.
  unfold numeric_row. rewrite forallb_and3, <- !non_numeric_in_nil.
  unfold check_numeric. cbn [flat_map]. rewrite app_nil_r.
  destruct (non_numeric_in df "x"), (non_numeric_in df "y"), (non_numeric_in df "z");
    cbn; intuition congruence.
Qed.

Lemma no_null_dropna (df : DataFrame) :
  forallb (fun row => negb (has_null row)) (rows df) = true ->
  dropna required_columns df = df.
Proof.
  intros H. destruct df as [cols rs]. unfold dropna; cbn [rows columns] in *.
  f_equal. apply filter_all. revert H. apply forallb_weaken.
  intros row Hrow. now rewrite complete_has_null.
Qed.

Lemma has_null_count (l : list (gmap string cell)) :
  (0 <? length (List.filter has_null l))%nat = false <->
  forallb (fun row => negb (has_null row)) l = true.
Proof.
  rewrite <- forallb_filter_nil. destruct (List.filter has_null l); cbn; easy.
Qed.

(** What the verdict True amounts to. *)
Lemma validated_iff (df : DataFrame) :
  snd (validate_node_data df) = true <->
  forallb (has_column df) required_columns = true /\
  forallb (fun row => negb (has_null row)) (rows df) = true /\
  distinct_keys ["node_id"] (rows df) /\
  distinct_keys ["x"; "y"; "z"] (rows df) /\
  forallb numeric_row (rows df) = true.
Proof.
  split.
  - intros H. pose proof (validated_has_columns df H) as Hc.
    split; [exact Hc|].
    rewrite (validate_with_columns df Hc) in H. cbv zeta in H. cbn [snd] in H.
    apply andb_prop in H as [H H5]. apply andb_prop in H as [H H4].
    apply andb_prop in H as [H2 H3].
    assert (Hn : forallb (fun row => negb (has_null row)) (rows df) = true).
    { apply has_null_count.
      destruct (0 <? length (List.filter has_null (rows df)))%nat;
        [discriminate | reflexivity]. }
    rewrite (no_null_dropna df Hn) in H3, H4, H5.
    split; [exact Hn|].
    now rewrite <- check_duplicate_ids_ok, <- check_duplicate_coords_ok,
      <- check_numeric_ok.
  - intros (Hc & Hn & H3 & H4 & H5).
    rewrite (validate_with_columns df Hc). cbv zeta. cbn [snd].
    rewrite (no_null_dropna df Hn).
    apply check_duplicate_ids_ok in H3. apply check_duplicate_coords_ok in H4.
    apply check_numeric_ok in H5. rewrite H3, H4, H5.
    apply has_null_count in Hn. now rewrite Hn.
Qed.

(** X1. On a table whose integer coordinates fit a float, the verdict is
    True exactly when the table has the four columns, no row has a
    missing value in them, no two rows have the same node id, no two
    rows have the same three coordinates, and every coordinate is a
    number once coerced. *)
Theorem verdict_true_iff (df : DataFrame) :
  forallb fits_float_row (rows df) = true ->
  snd (validate_node_data df) = true <->
  forallb (has_column df) required_columns = true /\
  forallb (fun row => negb (has_null row)) (rows df) = true /\
  distinct_keys ["node_id"] (rows df) /\
  distinct_keys ["x"; "y"; "z"] (rows df) /\
  forallb numeric_row (rows df) = true.
Proof.
  intros _. apply validated_iff.
Qed.

(** ** The duplicate id report, for integer ids *)

Lemma eqb_int (a b : Z) : eqb (CInt a) (CInt b) = (a =? b).
Proof.
  unfold eqb, compare, ext_of, ext_compare.
  rewrite Z.min_id, Z.sub_diag, Z.pow_0_r, !Z.mul_1_r.
  destruct (Z.compare_spec a b) as [->|H|H].
  - now rewrite Z.eqb_refl.
  - symmetry. apply Z.eqb_neq. lia.
  - symmetry. apply Z.eqb_neq. lia.
Qed.

Lemma same_key_int (r r' : gmap string cell) :
  int_id r -> int_id r' ->
  same_key ["node_id"] r r' = (node_id_of r =? node_id_of r').
Proof.
  intros Hr Hr'. unfold same_key, same_value. cbn [forallb].
  rewrite (int_id_node_id_of _ Hr), (int_id_node_id_of _ Hr'), eqb_int.
  cbn [isna andb orb]. apply andb_true_r.
Qed.










(** X3. With the four columns present and integer coordinates that fit a
    float, a clean row whose x, y or z is not a number once coerced
    makes check 5 report that column, with the node ids of all the clean
    rows it is not a number in, in the order of the table, and their
    count; the verdict is False. *)
Theorem non_numeric_flagged (df : DataFrame) (row : gmap string cell) (c : string) :
  forallb (has_column df) required_columns = true ->
  forallb fits_float_row (rows df) = true ->
  In row (rows (dropna required_columns df)) ->
  c = "x" \/ c = "y" \/ c = "z" ->
  numeric (get row c) = false ->
  let offenders :=
    List.filter (fun r => negb (numeric (get r c)))
                (rows (dropna required_columns df)) in
  exists non_numeric_errors,
    nth_error (fst (validate_node_data df)) 5 = Some (NonNumeric non_numeric_errors) /\
    In (c, length offenders, map (fun r => get r "node_id") offenders)
       non_numeric_errors /\
    In (get row "node_id") (map (fun r => get r "node_id") offenders) /\
    snd (validate_node_data df) = false.
Proof.
  intros Hc _ Hrow Hcol Hnum offenders.
  set (clean := dropna required_columns df) in *.
  assert (Hoff : In row offenders).
  { apply List.filter_In. split; [exact Hrow | now rewrite Hnum]. }
  assert (Hone : non_numeric_in clean c
                 = [(c, length offenders, map (fun r => get r "node_id") offenders)]).
  { unfold non_numeric_in, loc, len, column; cbn [rows].
    rewrite map_map, (select_map_filter (fun r => isna (to_numeric (get r c)))).
    assert (E : List.filter (fun r => isna (to_numeric (get r c))) (rows clean)
                = offenders).
    { apply List.filter_ext. intros r. unfold numeric. now rewrite negb_involutive. }
    rewrite E. destruct offenders; [destruct Hoff | reflexivity]. }
  assert (Hin : In (c, length offenders, map (fun r => get r "node_id") offenders)
                   (flat_map (non_numeric_in clean) ["x"; "y"; "z"])).
  { apply in_flat_map. exists c. split; [|rewrite Hone; now left].
    cbn. intuition congruence. }
  rewrite (validate_with_columns df Hc). cbv zeta. cbn [fst snd nth_error].
  fold clean. unfold check_numeric.
  destruct (flat_map (non_numeric_in clean) ["x"; "y"; "z"]) as [|e es] eqn:E;
    [destruct Hin|].
  cbn [fst snd]. eexists. split; [reflexivity|]. split; [exact Hin|].
  split; [|now rewrite !andb_false_r].
  now apply (in_map (fun r => get r "node_id")).
Qed.

(* ===================================================================== *)
(** * More on the generator *)
(* ===================================================================== *)

(** A call that stops at a column the table lacks. *)
Lemma generate_key_error (path : string) (st : state) (c : string) :
  first_missing (frame st) = Some c ->
  exists df',
    generate_staad_file path st
    = ([GenerateFailed (KeyError c)], false,
       {| frame := df'; fs := fs st; locked := locked st |}) /\
    (c = "x" -> df' = frame st) /\
    (c = "y" -> df' = map_column "x" to_numeric (frame st)) /\
    (c = "z" -> df' = map_column "y" to_numeric
                        (map_column "x" to_numeric (frame st))) /\
    (c = "node_id" -> df' = coerced (frame st)).
Proof.
  unfold first_missing. cbn [List.find].
  destruct (has_column (frame st) "x") eqn:Hx; cbn [negb].
  2:{ intros [= <-]. exists (frame st). split.
      - unfold generate_staad_file, generate_body, bind.
        unfold coerce_column at 1. rewrite Hx. now destruct st.
      - repeat split; intros; try discriminate; reflexivity. }
  destruct (has_column (frame st) "y") eqn:Hy; cbn [negb].
  2:{ intros [= <-]. eexists. split.
      - unfold generate_staad_file, generate_body, bind.
        unfold coerce_column at 1. rewrite Hx. cbn [frame fs locked].
        unfold coerce_column at 1. cbn [frame fs locked].
        rewrite has_column_map_column, Hy. reflexivity.
      - repeat split; intros; try discriminate; reflexivity. }
  destruct (has_column (frame st) "z") eqn:Hz; cbn [negb].
  2:{ intros [= <-]. eexists. split.
      - unfold generate_staad_file, generate_body, bind.
        unfold coerce_column at 1. rewrite Hx. cbn [frame fs locked].
        unfold coerce_column at 1. cbn [frame fs locked].
        rewrite has_column_map_column, Hy.
        unfold coerce_column at 1. cbn [frame fs locked].
        rewrite !has_column_map_column, Hz. reflexivity.
      - repeat split; intros; try discriminate; reflexivity. }
  destruct (has_column (frame st) "node_id") eqn:Hn; cbn [negb]; [discriminate|].
  intros [= <-]. eexists. split.
  - rewrite (generate_run path st Hx Hy Hz). cbv zeta.
    unfold sort_values.
    change (has_column (dropna ["x"; "y"; "z"] (coerced (frame st))) "node_id")
      with (has_column (frame st) "node_id").
    rewrite Hn. reflexivity.
  - repeat split; intros; try discriminate; reflexivity.
Qed.

Lemma first_missing_none (df : DataFrame) :
  first_missing df = None <-> forallb (has_column df) required_columns = true.
Proof.
  unfold first_missing. cbn [List.find forallb required_columns].
  destruct (has_column df "x"), (has_column df "y"), (has_column df "z"),
    (has_column df "node_id"); cbn; intuition congruence.
Qed.

(** X4. When the table lacks one of the columns the generator reads
    (and its integer coordinates fit a float), the call returns False
    reporting a KeyError for the first one it lacks, in the order x, y,
    z, node_id; no file is created or changed, whatever the destination
    is. *)
Theorem missing_column_is_key_error (path : string) (st : state) (c : string) :
  first_missing (frame st) = Some c ->
  forallb fits_float_row (rows (frame st)) = true ->
  fst (generate_staad_file path st) = ([GenerateFailed (KeyError c)], false) /\
  fs (snd (generate_staad_file path st)) = fs st.
Proof.
  intros H _. destruct (generate_key_error path st c H) as (df' & -> & _).
  cbn [fst snd frame fs]. auto.
Qed.

(** What a successful loop tells about the rows it went through. *)
Lemma render_none_inv (l : list (gmap string cell)) :
  coerced_rows l ->
  forall ls, render l = (ls, None) ->
  ls = map line_of l /\ forallb convertible_id l = true.
Proof.
  intros _ ls H. destruct (render_none_all _ _ H) as [-> Hall].
  split; [reflexivity|]. apply forallb_forall. intros row Hrow.
  rewrite List.Forall_forall in Hall. now apply (row_line_ok row _ (Hall row Hrow)).
Qed.

(** The outcome of a call that returns True. *)
Lemma generate_true_inv (path : string) (st : state) :
  snd (fst (generate_staad_file path st)) = true ->
  forallb (has_column (frame st)) required_columns = true /\
  (path ∉ locked st) /\
  exists written,
    Permutation written (kept (frame st)) /\
    forallb convertible_id written = true /\
    generate_staad_file path st =
      ([Generated path (length (kept (frame st)))], true,
       {| frame := coerced (frame st);
          fs := <[path := unlines (header ++ map line_of written ++ [footer])]> (fs st);
          locked := locked st |}).
Proof.
  intros Hok.
  destruct (first_missing (frame st)) as [c|] eqn:Hm.
  { destruct (generate_key_error path st c Hm) as (df' & E & _).
    rewrite E in Hok. discriminate. }
  apply first_missing_none in Hm. split; [exact Hm|].
  destruct (columns_xyz _ Hm) as (Hx & Hy & Hz).
  rewrite (generate_run path st Hx Hy Hz) in Hok |- *. cbv zeta in Hok |- *.
  destruct (sort_values "node_id" (dropna ["x"; "y"; "z"] (coerced (frame st))))
    as [df_sorted|e] eqn:Es; [|discriminate].
  destruct (bool_decide (path ∈ locked st)) eqn:Hl; [discriminate|].
  apply bool_decide_eq_false in Hl. split; [exact Hl|].
  pose proof (sort_values_perm _ _ _ Es) as Hperm.
  rewrite rows_dropna_coerced in Hperm.
  destruct (render (rows df_sorted)) as [ls [e|]] eqn:Er; [discriminate|].
  destruct (render_none_inv (rows df_sorted)) with (ls := ls) as [-> Hconv];
    [eapply coerced_rows_perm; [exact Hperm | apply kept_coerced] | exact Er |].
  exists (rows df_sorted). split; [exact Hperm|]. split; [exact Hconv|].
  unfold len. now rewrite (Permutation_length Hperm).
Qed.

(** X5. A call that returns True (on a table whose integer node ids
    are within 2^53 in magnitude and whose integer coordinates fit a
    float) has left a whole file: the table has the four columns, the
    destination could be opened, and the file is the header, one joint
    line for each row whose three coordinates are numbers (every one of
    them with a node id that converts), and the END JOINT COORDINATES
    line; the count reported is the number of those rows. *)
Theorem true_means_whole_file (path : string) (st : state) :
  snd (fst (generate_staad_file path st)) = true ->
  forallb exact_id (rows (frame st)) = true ->
  forallb fits_float_row (rows (frame st)) = true ->
  forallb (has_column (frame st)) required_columns = true /\
  (path ∉ locked st) /\
  exists written,
    Permutation written
      (map coerce_row (List.filter numeric_row (rows (frame st)))) /\
    forallb convertible_id written = true /\
    fst (fst (generate_staad_file path st))
    = [Generated path (length (List.filter numeric_row (rows (frame st))))] /\
    fs (snd (generate_staad_file path st))
    = <[path := unlines (header ++ map line_of written ++ [footer])]> (fs st).
Proof.
  intros Hok _ _.
  destruct (generate_true_inv path st Hok) as (Hc & Hp & written & Hperm & Hconv & E).
  split; [exact Hc|]. split; [exact Hp|].
  exists written. rewrite E. cbn [fst snd fs].
  rewrite kept_numeric in Hperm |- *. now rewrite length_map.
Qed.

(** The state a call leaves, apart from the text of the destination. *)
Lemma generate_leaves (path : string) (st : state) :
  locked (snd (generate_staad_file path st)) = locked st /\
  (fs (snd (generate_staad_file path st)) = fs st \/
   exists text, fs (snd (generate_staad_file path st)) = <[path := text]> (fs st)) /\
  (frame (snd (generate_staad_file path st)) = frame st \/
   frame (snd (generate_staad_file path st)) = map_column "x" to_numeric (frame st) \/
   frame (snd (generate_staad_file path st))
   = map_column "y" to_numeric (map_column "x" to_numeric (frame st)) \/
   frame (snd (generate_staad_file path st)) = coerced (frame st)).
Proof.
  destruct (first_missing (frame st)) as [c|] eqn:Hm.
  - destruct (generate_key_error path st c Hm) as (df' & -> & Hx & Hy & Hz & Hn).
    cbn [fst snd frame fs locked]. split; [reflexivity|]. split; [now left|].
    unfold first_missing in Hm. apply find_some in Hm as [Hin _].
    cbn [In] in Hin. intuition (subst; auto).
  - apply first_missing_none, columns_xyz in Hm as (Hx & Hy & Hz).
    rewrite (generate_run path st Hx Hy Hz). cbv zeta.
    destruct (sort_values "node_id" _) as [df_sorted|e]; cbn [snd frame fs locked];
      [|auto 6].
    destruct (bool_decide (path ∈ locked st)); cbn [snd frame fs locked]; [auto 6|].
    destruct (render (rows df_sorted)) as [ls [e|]]; cbn [snd frame fs locked];
      eauto 8.
Qed.

(** X6. A call changes no file other than its destination, whatever its
    outcome, and it never changes which paths can be opened. *)
Theorem other_files_untouched (path other : string) (st : state) :
  other <> path ->
  fs (snd (generate_staad_file path st)) !! other = fs st !! other /\
  locked (snd (generate_staad_file path st)) = locked st.
Proof.
  intros Hne. destruct (generate_leaves path st) as (Hl & [Hf|[text Hf]] & _);
    rewrite Hf; split; try exact Hl; [reflexivity|].
  now apply lookup_insert_ne.
Qed.

Lemma get_set_numeric (c c' : string) (row : gmap string cell) :
  same_or_coerced_cell (get row c') (get (set_numeric c row) c').
Proof.
  destruct (decide (c = c')) as [->|Hne].
  - right. now rewrite get_set_numeric_eq.
  - left. now apply get_set_numeric_ne.
Qed.

Lemma same_or_coerced_refl (row : gmap string cell) : same_or_coerced row row.
Proof. unfold same_or_coerced, same_or_coerced_cell. auto. Qed.

Lemma same_or_coerced_x (row : gmap string cell) :
  same_or_coerced row (set_numeric "x" row).
Proof.
  unfold same_or_coerced. repeat split.
  - now apply get_set_numeric_ne.
  - intros c Hx _ _. apply get_set_numeric_ne. congruence.
  - intros c. apply get_set_numeric.
Qed.

Lemma same_or_coerced_xy (row : gmap string cell) :
  same_or_coerced row (set_numeric "y" (set_numeric "x" row)).
Proof.
  unfold same_or_coerced. repeat split.
  - now rewrite !get_set_numeric_ne.
  - intros c Hx Hy _. rewrite !get_set_numeric_ne; congruence.
  - intros c. destruct (decide (c = "y")) as [->|Hy].
    + right. now rewrite get_set_numeric_eq, get_set_numeric_ne.
    + rewrite get_set_numeric_ne by congruence. apply get_set_numeric.
Qed.

Lemma same_or_coerced_xyz (row : gmap string cell) :
  same_or_coerced row (coerce_row row).
Proof.
  unfold same_or_coerced, same_or_coerced_cell. repeat split.
  - apply node_id_coerce_row.
  - intros c Hx Hy Hz. now apply get_coerce_row_other.
  - intros c.
    destruct (decide (c = "x")) as [->|Hx]; [right; now rewrite get_coerce_row_x|].
    destruct (decide (c = "y")) as [->|Hy]; [right; now rewrite get_coerce_row_y|].
    destruct (decide (c = "z")) as [->|Hz]; [right; now rewrite get_coerce_row_z|].
    left. now apply get_coerce_row_other.
Qed.

Lemma Forall2_map_r {A B : Type} (R : A -> B -> Prop) (f : A -> B) (l : list A) :
  (forall a, R a (f a)) -> Forall2 R l (map f l).
Proof. intros H. induction l; cbn; constructor; auto. Qed.

(** X7. Whatever its outcome, a call leaves the caller's table with the
    same columns and the same rows in the same order; in each row the
    node id and every cell outside x, y, z are as they were, and an x, y
    or z cell is as it was or holds the number its coercion gives (as
    [float] reads it). With the three coordinate columns present and
    integer coordinates that fit a float, every x, y and z is left
    holding that number, also when the call fails. *)
Theorem caller_table_coerced_in_place (path : string) (st : state) :
  columns (frame (snd (generate_staad_file path st))) = columns (frame st) /\
  Forall2 same_or_coerced (rows (frame st))
    (rows (frame (snd (generate_staad_file path st)))) /\
  (forallb (has_column (frame st)) ["x"; "y"; "z"] = true ->
   forallb fits_float_row (rows (frame st)) = true ->
   Forall2 (fun row row' =>
              forall c, c = "x" \/ c = "y" \/ c = "z" ->
                float (get row' c) = float (to_numeric (get row c)))
           (rows (frame st))
           (rows (frame (snd (generate_staad_file path st))))).
Proof.
  split; [|split].
  - destruct (generate_leaves path st) as (_ & _ & [H|[H|[H|H]]]); now rewrite H.
  - destruct (generate_leaves path st) as (_ & _ & [H|[H|[H|H]]]); rewrite H.
    + rewrite <- (map_id (rows (frame st))) at 2.
      apply Forall2_map_r, same_or_coerced_refl.
    + cbn [rows map_column]. apply Forall2_map_r, same_or_coerced_x.
    + cbn [rows map_column]. rewrite map_map.
      apply (Forall2_map_r same_or_coerced
               (fun row => set_numeric "y" (set_numeric "x" row))),
        same_or_coerced_xy.
    + rewrite rows_coerced. apply Forall2_map_r, same_or_coerced_xyz.
  - intros Hc _. cbn [forallb] in Hc.
    apply andb_prop in Hc as [Hx Hc]. apply andb_prop in Hc as [Hy Hc].
    apply andb_prop in Hc as [Hz _].
    assert (E : frame (snd (generate_staad_file path st)) = coerced (frame st)).
    { now rewrite (generate_run path st Hx Hy Hz); cbv zeta;
        destruct (sort_values "node_id" _) as [d|e]; [|reflexivity];
        destruct (bool_decide (path ∈ locked st)); [reflexivity|];
        destruct (render (rows d)) as [ls [e|]]. }
    rewrite E, rows_coerced. apply Forall2_map_r. intros row c Hcx.
    now destruct Hcx as [->|[->| ->]];
      rewrite ?get_coerce_row_x, ?get_coerce_row_y, ?get_coerce_row_z.
Qed.


(** ** Validation, then generation *)

Lemma validated_all_numeric (df : DataFrame) :
  snd (validate_node_data df) = true -> kept df = map coerce_row (rows df).
Proof.
  intros H. apply validated_iff in H as (_ & _ & _ & _ & H).
  now rewrite kept_numeric, (filter_all _ _ H).
Qed.

Lemma distinct_int_ids (l : list (gmap string cell)) :
  Forall int_id l -> distinct_keys ["node_id"] l -> NoDup (map node_id_of l).
Proof.
  intros Hi Hd. apply NoDup_alt. intros i j n Hn1 Hn2.
  change (map node_id_of l) with (node_id_of <$> l) in Hn1, Hn2.
  rewrite list_lookup_fmap in Hn1, Hn2.
  destruct (l !! i) as [r1|] eqn:E1; [|discriminate].
  destruct (l !! j) as [r2|] eqn:E2; [|discriminate].
  cbn in Hn1, Hn2. injection Hn1 as Hn1. injection Hn2 as Hn2.
  destruct (decide (i = j)) as [|Hne]; [assumption|].
  pose proof (Hd i j r1 r2 E1 E2 Hne) as Hk.
  rewrite List.Forall_forall in Hi.
  rewrite same_key_int in Hk.
  - rewrite Hn1, Hn2, Z.eqb_refl in Hk. discriminate.
  - apply Hi. eapply list_elem_of_In, list_elem_of_lookup_2, E1.
  - apply Hi. eapply list_elem_of_In, list_elem_of_lookup_2, E2.
Qed.

(** X9. For a table that passed validation (integer node ids within
    2^53 in magnitude, integer coordinates that fit a float), a call
    that returns True has dropped no row: the count it reports is the
    number of rows of the table, and the file has one joint line per
    row. *)
Theorem validated_nothing_dropped (path : string) (st : state) :
  snd (validate_node_data (frame st)) = true ->
  forallb exact_id (rows (frame st)) = true ->
  forallb fits_float_row (rows (frame st)) = true ->
  snd (fst (generate_staad_file path st)) = true ->
  exists written,
    Permutation written (map coerce_row (rows (frame st))) /\
    fst (fst (generate_staad_file path st)) = [Generated path (len (frame st))] /\
    fs (snd (generate_staad_file path st))
    = <[path := unlines (header ++ map line_of written ++ [footer])]> (fs st).
Proof.
  intros Hv _ _ Hok.
  destruct (generate_true_inv path st Hok) as (_ & _ & written & Hperm & _ & E).
  rewrite (validated_all_numeric _ Hv) in Hperm, E.
  exists written. rewrite E. cbn [fst snd fs]. split; [exact Hperm|].
  now rewrite length_map.
Qed.

(** Validation passed and integer ids: the call succeeds, in strict order. *)
Lemma validated_integer_ids_generate (path : string) (st : state) :
  snd (validate_node_data (frame st)) = true ->
  Forall int_id (rows (frame st)) ->
  forallb fits_float_row (rows (frame st)) = true ->
  path ∉ locked st ->
  exists written,
    Permutation written (map coerce_row (rows (frame st))) /\
    StronglySorted Z.lt (map node_id_of written) /\
    generate_staad_file path st =
      ([Generated path (len (frame st))], true,
       {| frame := coerced (frame st);
          fs := <[path := unlines (header ++ map line_of written ++ [footer])]> (fs st);
          locked := locked st |}).
Proof.
  intros Hv Hi Hf Hp.
  pose proof (validated_all_numeric _ Hv) as Hk.
  pose proof (proj1 (validated_iff _) Hv) as (Hc & _ & Hd & _ & _).
  exists (sort_rows "node_id" (kept (frame st))).
  split; [rewrite sort_rows_perm, Hk; reflexivity|]. split.
  - apply sort_rows_distinct; [now apply kept_int_ids|].
    rewrite Hk, map_map.
    rewrite (map_ext _ node_id_of node_id_of_coerce_row).
    now apply distinct_int_ids.
  - rewrite (generate_ok path st Hc Hp (int_ids_orderable _ Hi)
               (int_ids_convertible _ Hi) (fits_float_kept _ Hf)).
    cbv zeta. unfold len.
    now rewrite (Permutation_length (sort_rows_perm _ _)), Hk, length_map.
Qed.

(** X10. For a table that passed validation, whose node ids are all
    integers within 2^53 in magnitude and whose integer coordinates fit
    a float, written to a destination that opens, the call returns True
    and the file has one joint line per row of the table, in strictly
    ascending node id order. *)
Theorem validated_integer_ids_written (path : string) (st : state) :
  snd (validate_node_data (frame st)) = true ->
  Forall int_id (rows (frame st)) ->
  forallb exact_id (rows (frame st)) = true ->
  forallb fits_float_row (rows (frame st)) = true ->
  path ∉ locked st ->
  exists written,
    Permutation written (map coerce_row (rows (frame st))) /\
    StronglySorted Z.lt (map node_id_of written) /\
    fst (generate_staad_file path st) = ([Generated path (len (frame st))], true) /\
    fs (snd (generate_staad_file path st))
    = <[path := unlines (header ++ map line_of written ++ [footer])]> (fs st).
Proof.
  intros Hv Hi _ Hf Hp.
  destruct (validated_integer_ids_generate path st Hv Hi Hf Hp)
    as (written & Hperm & Hs & Hg).
  exists written. rewrite Hg. auto.
Qed.

(** C9. Running the generator twice on one validated table, to two
    destinations that open, returns True twice and leaves two files
    that hold the same bytes: the header, one joint line per row of the
    table, and the END JOINT COORDINATES line. (The node ids sort and
    convert, an [int] id is within 2^53 in magnitude and the integer
    coordinates fit a float.) The second call is given the table as the
    first call left it, coerced in place, and the first file is still
    there after the second call. *)
Theorem generate_twice_same_bytes (p1 p2 : string) (st : state) :
  snd (validate_node_data (frame st)) = true ->
  orderable (column (frame st) "node_id") = true ->
  forallb convertible_id (rows (frame st)) = true ->
  forallb exact_id (rows (frame st)) = true ->
  forallb fits_float_row (rows (frame st)) = true ->
  p1 ∉ locked st ->
  p2 ∉ locked st ->
  let r1 := generate_staad_file p1 st in
  let r2 := generate_staad_file p2 (snd r1) in
  exists written,
    Permutation written (map coerce_row (rows (frame st))) /\
    fst r1 = ([Generated p1 (len (frame st))], true) /\
    fst r2 = ([Generated p2 (len (frame st))], true) /\
    fs (snd r1) !! p1 = Some (unlines (header ++ map line_of written ++ [footer])) /\
    fs (snd r2) !! p2 = Some (unlines (header ++ map line_of written ++ [footer])) /\
    fs (snd r2) !! p1 = Some (unlines (header ++ map line_of written ++ [footer])).
Proof.
  intros Hv Ho Hi _ Hf H1 H2 r1 r2.
  pose proof (validated_has_columns _ Hv) as Hc.
  pose proof (proj1 (validated_iff _) Hv) as (_ & _ & _ & _ & Hn).
  destruct (generate_writes_survivors p1 st Hc H1 Ho Hi Hf) as (written & Hperm & Hg).
  cbv zeta in Hg. rewrite (filter_all _ _ Hn) in Hperm, Hg.
  destruct (generate_twice p1 p2 st Hc H1 H2) as (_ & _ & Hsame).
  fold r1 r2 in Hsame. fold r1 in Hg.
  destruct Hsame as (content & n & E1 & E2 & F1 & F2 & F3); [now rewrite Hg|].
  exists written. split; [exact Hperm|].
  assert (En : n = len (frame st)).
  { rewrite Hg in E1. cbn [fst] in E1. now injection E1 as <-. }
  assert (Ec : content = unlines (header ++ map line_of written ++ [footer])).
  { rewrite Hg in F1. cbn [snd fs] in F1. rewrite lookup_insert_eq in F1.
    now injection F1 as <-. }
  subst n content. auto 6.
Qed.

(* ===================================================================== *)
(** * The command line *)
(* ===================================================================== *)

(** X11. A run of the command line changes no file other than model.std,
    and it changes the disk at all only when the input file was read
    into a table and that table passed validation. *)
Theorem cli_writes_only_validated
    (read_excel read_csv : string -> result DataFrame)
    (argv : list string) (typed : string)
    (disk : gmap string string) (unopenable : gset string) :
  (forall p, p <> "model.std" ->
     snd (Cli.main read_excel read_csv argv typed disk unopenable) !! p = disk !! p) /\
  (snd (Cli.main read_excel read_csv argv typed disk unopenable) <> disk ->
   exists df,
     snd (read_node_data read_excel read_csv disk (Cli.input_file argv typed))
     = Some df /\
     snd (validate_node_data df) = true).
Proof.
  unfold Cli.main.
  destruct (read_node_data read_excel read_csv disk (Cli.input_file argv typed))
    as [said1 [df|]]; cbn [snd]; [|split; [reflexivity | congruence]].
  destruct (validate_node_data df) as [said2 passed] eqn:Ev.
  destruct passed; cbn [negb snd]; [|split; [reflexivity | congruence]].
  pose proof (generate_leaves "model.std"
                {| frame := df; fs := disk; locked := unopenable |}) as (_ & Hf & _).
  destruct (generate_staad_file "model.std"
              {| frame := df; fs := disk; locked := unopenable |})
    as [[said3 success] st']. cbn [snd fs] in Hf |- *.
  split.
  - intros p Hp. destruct Hf as [->|[text ->]]; [reflexivity|].
    now apply lookup_insert_ne.
  - intros _. exists df. rewrite Ev. auto.
Qed.

(** X12. When the input file is read into a table that passes validation
    and has integer node ids (within 2^53 in magnitude, beside integer
    coordinates that fit a float), and model.std can be opened, a run of the
    command line ends on its success message and leaves in model.std the
    header, one joint line per row of the table in strictly ascending
    node id order, and the END JOINT COORDINATES line; every other file
    is as it was. *)
Theorem cli_end_to_end
    (read_excel read_csv : string -> result DataFrame)
    (argv : list string) (typed : string)
    (disk : gmap string string) (unopenable : gset string) (df : DataFrame) :
  snd (read_node_data read_excel read_csv disk (Cli.input_file argv typed)) = Some df ->
  snd (validate_node_data df) = true ->
  Forall int_id (rows df) ->
  forallb exact_id (rows df) = true ->
  forallb fits_float_row (rows df) = true ->
  "model.std" ∉ unopenable ->
  exists written,
    Permutation written (map coerce_row (rows df)) /\
    StronglySorted Z.lt (map node_id_of written) /\
    Cli.main read_excel read_csv argv typed disk unopenable =
      (Cli.Banner
         :: map Cli.Said
              (fst (read_node_data read_excel read_csv disk
                      (Cli.input_file argv typed))
               ++ fst (validate_node_data df)
               ++ [Generated "model.std" (len df)])
         ++ [Cli.Succeeded "model.std"],
       <["model.std" := unlines (header ++ map line_of written ++ [footer])]> disk).
Proof.
  intros Hr Hv Hi _ Hf Hp.
  destruct (validated_integer_ids_generate "model.std"
              {| frame := df; fs := disk; locked := unopenable |} Hv Hi Hf Hp)
    as (written & Hperm & Hs & Hg).
  exists written. split; [exact Hperm|]. split; [exact Hs|].
  unfold Cli.main.
  destruct (read_node_data read_excel read_csv disk (Cli.input_file argv typed))
    as [said1 loaded]. cbn [fst snd] in Hr |- *. subst loaded.
  destruct (validate_node_data df) as [said2 passed]. cbn [fst snd] in Hv |- *.
  subst passed. cbn [negb]. rewrite Hg. reflexivity.
Qed.

(* ===================================================================== *)
(** * The web page *)
(* ===================================================================== *)

(** A prefix put before a name does not change what the name ends with,
    as long as no tail of the suffix starts the prefix read backwards. *)
Lemma is_prefix_app (t : list ascii) (l : list ascii) :
  forall p,
    (forall k, (k < length p)%nat -> is_prefix (skipn k p) t = false) ->
    is_prefix p (l ++ t) = is_prefix p l.
Proof.
  induction l as [|b l IH]; intros p H.
  - cbn [app]. destruct p as [|a p]; [now destruct t|].
    assert (H0 : is_prefix (a :: p) t = false) by (apply (H 0%nat); cbn; lia).
    rewrite H0. reflexivity.
  - destruct p as [|a p]; [reflexivity|]. cbn [app is_prefix].
    destruct (Ascii.eqb a b); [|reflexivity].
    apply IH. intros k Hk. apply (H (S k)). cbn. lia.
Qed.

Lemma endswith_temp (name suffix : string) :
  suffix = ".xlsx" \/ suffix = ".xls" \/ suffix = ".csv" ->
  endswith ("temp_" +:+ name) suffix = endswith name suffix.
Proof.
  intros H. unfold endswith.
  rewrite list_ascii_of_string_app, rev_app_distr.
  apply is_prefix_app. intros k Hk.
  destruct H as [->|[->| ->]]; cbn in Hk;
    repeat (destruct k as [|k]; [reflexivity|]); lia.
Qed.

Lemma temp_is_not_model (name : string) : "temp_" +:+ name <> "model.std".
Proof. discriminate. Qed.

(** What the first part of a run does. *)
Lemma read_upload_run
    (read_excel read_csv : string -> result DataFrame)
    (file : App.upload) (st : state) :
  App.read_upload read_excel read_csv file st =
    if bool_decide ("temp_" +:+ App.name file ∈ locked st) then (Raise OSError, st)
    else
      (Ok (snd (read_node_data read_excel read_csv
                  (<["temp_" +:+ App.name file := App.getbuffer file]> (fs st))
                  ("temp_" +:+ App.name file))),
       {| frame := frame st;
          fs := delete ("temp_" +:+ App.name file) (fs st);
          locked := locked st |}).
Proof.
  unfold App.read_upload, App.save_uploaded_file, bind, open_w.
  destruct (bool_decide ("temp_" +:+ App.name file ∈ locked st)); [reflexivity|].
  unfold write, ret, App.remove_if_exists. cbn [frame fs locked].
  rewrite lookup_insert_eq. cbn [default from_option].
  rewrite insert_insert_eq, delete_insert_eq. reflexivity.
Qed.

Lemma read_under_temp_name
    (read_excel read_csv : string -> result DataFrame)
    (disk : gmap string string) (name content : string) :
  snd (read_node_data read_excel read_csv
         (<["temp_" +:+ name := content]> disk) ("temp_" +:+ name))
  = snd (read_node_data read_excel read_csv {[name := content]} name).
Proof.
  unfold read_node_data. rewrite lookup_insert_eq, lookup_singleton_eq.
  rewrite !endswith_temp by auto.
  destruct (endswith name ".xlsx" || endswith name ".xls").
  - now destruct (read_excel content).
  - destruct (endswith name ".csv"); [|reflexivity].
    now destruct (read_csv content).
Qed.

(** X13. Reading an upload: when the temporary file can be written, the
    table obtained is the one the loader returns for the uploaded bytes
    under the uploaded name (the temp_ prefix does not change the
    extension, and the file is always found), and afterwards the
    temporary path holds no file, every other file is as it was, and the
    disk is exactly as before when no file had that name. A file that
    already stood under the temporary name is lost. When the temporary
    file cannot be written, the exception is not caught and the disk is
    unchanged. *)
Theorem upload_read_and_cleaned
    (read_excel read_csv : string -> result DataFrame)
    (file : App.upload) (st : state) :
  ("temp_" +:+ App.name file ∉ locked st ->
   fst (App.read_upload read_excel read_csv file st)
   = Ok (snd (read_node_data read_excel read_csv
                {[App.name file := App.getbuffer file]} (App.name file))) /\
   fs (snd (App.read_upload read_excel read_csv file st))
     !! ("temp_" +:+ App.name file) = None /\
   (forall p, p <> "temp_" +:+ App.name file ->
      fs (snd (App.read_upload read_excel read_csv file st)) !! p = fs st !! p) /\
   (fs st !! ("temp_" +:+ App.name file) = None ->
      fs (snd (App.read_upload read_excel read_csv file st)) = fs st)) /\
  ("temp_" +:+ App.name file ∈ locked st ->
   App.read_upload read_excel read_csv file st = (Raise OSError, st)).
Proof.
  rewrite read_upload_run. split; intros H.
  - rewrite (bool_decide_eq_false_2 _ H). cbn [fst snd fs].
    split; [now rewrite read_under_temp_name|].
    split; [apply lookup_delete_eq|].
    split; [intros p Hp; now apply lookup_delete_ne|].
    apply delete_id.
  - now rewrite (bool_decide_eq_true_2 _ H).
Qed.

Lemma validation_step_flag (df : DataFrame) (validate_clicked : bool)
    (s : App.session) :
  App.validation_passed (snd (App.validation_step df validate_clicked s))
  = if validate_clicked then snd (validate_node_data df)
    else App.validation_passed s.
Proof.
  unfold App.validation_step, App.capture_validation_output.
  destruct validate_clicked; [|reflexivity].
  now destruct (validate_node_data df).
Qed.

Lemma generation_step_effect (df : DataFrame) (generate_clicked : bool)
    (s : App.session) (disk : gmap string string) (unopenable : gset string) :
  App.validation_passed
    (snd (fst (App.generation_step df generate_clicked s disk unopenable)))
  = App.validation_passed s /\
  (snd (App.generation_step df generate_clicked s disk unopenable) = disk \/
   exists text,
     snd (App.generation_step df generate_clicked s disk unopenable)
     = <["model.std" := text]> disk) /\
  (snd (App.generation_step df generate_clicked s disk unopenable) <> disk ->
   generate_clicked = true /\ App.validation_passed s = true).
Proof.
  unfold App.generation_step.
  destruct (App.validation_passed s) eqn:Hv;
    [|cbn; rewrite Hv; intuition congruence].
  destruct generate_clicked; [|cbn; rewrite Hv; intuition congruence].
  pose proof (generate_leaves "model.std"
                {| frame := df; fs := disk; locked := unopenable |}) as (_ & Hf & _).
  destruct (generate_staad_file "model.std"
              {| frame := df; fs := disk; locked := unopenable |})
    as [[said success] st'].
  cbn [fst snd fs App.validation_passed] in Hf |- *. auto.
Qed.

Lemma download_step_effect (s : App.session) (disk : gmap string string) :
  App.validation_passed (snd (App.download_step s disk)) = App.validation_passed s /\
  (App.staad_generated (snd (App.download_step s disk)) = true ->
   is_Some (disk !! "model.std")).
Proof.
  unfold App.download_step.
  destruct (App.staad_generated s) eqn:Hg; [|cbn; rewrite Hg; auto; split; [reflexivity | discriminate]].
  destruct (disk !! "model.std") eqn:E; cbn; [eauto|].
  split; [reflexivity | discriminate].
Qed.

(** What the buttons and the download do to the session and the disk. *)
Lemma steps_effect (df : DataFrame) (validate_clicked generate_clicked : bool)
    (s : App.session) (disk : gmap string string) (unopenable : gset string) :
  (snd (App.steps df validate_clicked generate_clicked s disk unopenable) = disk \/
   exists text,
     snd (App.steps df validate_clicked generate_clicked s disk unopenable)
     = <["model.std" := text]> disk) /\
  (App.staad_generated
     (snd (fst (App.steps df validate_clicked generate_clicked s disk unopenable)))
   = true ->
   is_Some (snd (App.steps df validate_clicked generate_clicked s disk unopenable)
              !! "model.std")) /\
  (snd (App.steps df validate_clicked generate_clicked s disk unopenable) <> disk ->
   generate_clicked = true /\
   App.validation_passed
     (snd (fst (App.steps df validate_clicked generate_clicked s disk unopenable)))
   = true /\
   (validate_clicked = false -> App.validation_passed s = true) /\
   (validate_clicked = true -> snd (validate_node_data df) = true)).
Proof.
  unfold App.steps.
  pose proof (validation_step_flag df validate_clicked s) as H2.
  destruct (App.validation_step df validate_clicked s) as [shown2 s2].
  cbn [snd] in H2.
  pose proof (generation_step_effect df generate_clicked s2 disk unopenable)
    as (H3v & H3d & H3n).
  destruct (App.generation_step df generate_clicked s2 disk unopenable)
    as [[shown3 s3] disk3].
  cbn [fst snd] in H3v, H3d, H3n.
  pose proof (download_step_effect s3 disk3) as (H4v & H4g).
  destruct (App.download_step s3 disk3) as [shown4 s4].
  cbn [fst snd] in H4v, H4g |- *.
  split; [exact H3d|]. split; [exact H4g|].
  intros Hne. destruct (H3n Hne) as (Hg & Hv).
  split; [exact Hg|]. split; [congruence|].
  rewrite Hv in H2. split; intros ->; congruence.
Qed.

(** X14. The session says the STAAD file was generated only while
    model.std is on disk: if that holds before a run of the page it
    holds after it, whatever was uploaded and pressed. *)
Theorem generated_flag_means_file
    (read_excel read_csv : string -> result DataFrame)
    (uploaded_file : option App.upload) (validate_clicked generate_clicked : bool)
    (s : App.session) (disk : gmap string string) (unopenable : gset string) :
  (App.staad_generated s = true -> is_Some (disk !! "model.std")) ->
  App.staad_generated
    (snd (fst (App.main read_excel read_csv uploaded_file
                 validate_clicked generate_clicked s disk unopenable))) = true ->
  is_Some
    (snd (App.main read_excel read_csv uploaded_file
            validate_clicked generate_clicked s disk unopenable) !! "model.std").
Proof.
  intros Hinv. unfold App.main.
  destruct uploaded_file as [file|]; [|exact Hinv].
  rewrite read_upload_run. cbn [locked fs frame].
  destruct (bool_decide ("temp_" +:+ App.name file ∈ unopenable));
    [exact Hinv|].
  assert (Hm : delete ("temp_" +:+ App.name file) disk !! "model.std"
               = disk !! "model.std")
    by (apply lookup_delete_ne, temp_is_not_model).
  destruct (snd (read_node_data read_excel read_csv _ _)) as [df|];
    cbn [fst snd fs App.staad_generated]; [|now rewrite Hm].
  destruct (List.filter (fun col => negb (has_column df col))
                        ["node_id"; "x"; "y"; "z"]);
    cbn [fst snd fs App.staad_generated]; [|now rewrite Hm].
  pose proof (steps_effect df validate_clicked generate_clicked
    {| App.validation_passed := App.validation_passed s;
       App.df_loaded := Some df;
       App.staad_generated := App.staad_generated s |}
    (delete ("temp_" +:+ App.name file) disk) unopenable) as (_ & H & _).
  destruct (App.steps df validate_clicked generate_clicked _ _ unopenable)
    as [[shown s'] disk']. exact H.
Qed.

(** X15. A run of the page changes model.std only when the generate
    button was pressed over an uploaded file that was read, with the
    session's validation flag set at that moment: set by this run's own
    validation of the table just read when the validate button was
    pressed, and otherwise carried over from the session as it was. *)
Theorem page_writes_behind_the_flag
    (read_excel read_csv : string -> result DataFrame)
    (uploaded_file : option App.upload) (validate_clicked generate_clicked : bool)
    (s : App.session) (disk : gmap string string) (unopenable : gset string) :
  snd (App.main read_excel read_csv uploaded_file
         validate_clicked generate_clicked s disk unopenable) !! "model.std"
  <> disk !! "model.std" ->
  generate_clicked = true /\
  App.validation_passed
    (snd (fst (App.main read_excel read_csv uploaded_file
                 validate_clicked generate_clicked s disk unopenable))) = true /\
  (validate_clicked = false -> App.validation_passed s = true) /\
  exists file df,
    uploaded_file = Some file /\
    fst (App.read_upload read_excel read_csv file
           {| frame := {| columns := []; rows := [] |};
              fs := disk; locked := unopenable |}) = Ok (Some df) /\
    (validate_clicked = true -> snd (validate_node_data df) = true).
Proof.
  unfold App.main.
  destruct uploaded_file as [file|]; [|cbn; congruence].
  pose proof (read_upload_run read_excel read_csv file
                {| frame := {| columns := []; rows := [] |};
                   fs := disk; locked := unopenable |}) as Hrun.
  cbn [locked fs frame] in Hrun.
  destruct (bool_decide ("temp_" +:+ App.name file ∈ unopenable));
    [rewrite Hrun; cbn; congruence|].
  assert (Hm : delete ("temp_" +:+ App.name file) disk !! "model.std"
               = disk !! "model.std")
    by (apply lookup_delete_ne, temp_is_not_model).
  destruct (snd (read_node_data read_excel read_csv
                   (<["temp_" +:+ App.name file := App.getbuffer file]> disk)
                   ("temp_" +:+ App.name file))) as [df|];
    rewrite Hrun; cbn [fst snd fs]; [|rewrite Hm; congruence].
  destruct (List.filter (fun col => negb (has_column df col))
                        ["node_id"; "x"; "y"; "z"]);
    cbn [fst snd fs]; [|rewrite Hm; congruence].
  pose proof (steps_effect df validate_clicked generate_clicked
    {| App.validation_passed := App.validation_passed s;
       App.df_loaded := Some df;
       App.staad_generated := App.staad_generated s |}
    (delete ("temp_" +:+ App.name file) disk) unopenable) as (_ & _ & H).
  destruct (App.steps df validate_clicked generate_clicked _ _ unopenable)
    as [[shown s'] disk']. cbn [fst snd] in H |- *.
  intros Hne.
  destruct H as (Hg & Hv & Hs & Hd); [congruence|].
  cbn [App.validation_passed] in Hs.
  split; [exact Hg|]. split; [exact Hv|]. split; [exact Hs|].
  exists file, df. split; [reflexivity|]. split; [now rewrite Hrun | exact Hd].
Qed.

(* ===================================================================== *)
(** * The report of a table that passes, and the lines of a file *)
(* ===================================================================== *)

Lemma check_duplicate_ids_passed (df : DataFrame) :
  snd (check_duplicate_ids df) = true ->
  check_duplicate_ids df = (NoDuplicateIds, true).
Proof.
  unfold check_duplicate_ids.
  destruct (0 <? len (loc df (duplicated ["node_id"] df)))%nat; [discriminate|].
  reflexivity.
Qed.

Lemma check_duplicate_coords_passed (df : DataFrame) :
  snd (check_duplicate_coords df) = true ->
  check_duplicate_coords df = (NoDuplicateCoords, true).
Proof.
  unfold check_duplicate_coords.
  destruct (0 <? len (loc df (duplicated ["x"; "y"; "z"] df)))%nat; [discriminate|].
  reflexivity.
Qed.

Lemma check_numeric_passed (df : DataFrame) :
  snd (check_numeric df) = true -> check_numeric df = (AllNumeric, true).
Proof.
  unfold check_numeric.
  destruct (flat_map (non_numeric_in df) ["x"; "y"; "z"]); [reflexivity|discriminate].
Qed.

(** X16. When the verdict is True the report is the one without a single
    finding: columns found, no missing values, no duplicate ids, no
    duplicate coordinates, all coordinates numeric, and the number of
    valid nodes is the number of rows of the table. *)
Theorem passing_report (df : DataFrame) :
  snd (validate_node_data df) = true ->
  fst (validate_node_data df) =
    [ReportHeader; ColumnsFound; NoMissingValues; NoDuplicateIds;
     NoDuplicateCoords; AllNumeric; ValidationPassed (len df)].
Proof.
  intros H. pose proof (validated_has_columns df H) as Hc.
  rewrite (validate_with_columns df Hc) in H |- *. cbv zeta in H |- *.
  cbn [fst snd] in H |- *.
  apply andb_prop in H as [H H5]. apply andb_prop in H as [H H4].
  apply andb_prop in H as [H2 H3].
  rewrite (check_duplicate_ids_passed _ H3), (check_duplicate_coords_passed _ H4),
    (check_numeric_passed _ H5).
  assert (Hn : forallb (fun row => negb (has_null row)) (rows df) = true).
  { apply has_null_count.
    destruct (0 <? length (List.filter has_null (rows df)))%nat;
      [discriminate | reflexivity]. }
  rewrite (no_null_dropna df Hn).
  apply has_null_count in Hn. rewrite Hn. reflexivity.
Qed.

(** ** Lines *)

Lemma newlines_app (a b : string) :
  newlines (a +:+ b) = (newlines a + newlines b)%nat.
Proof.
  unfold newlines.
  now rewrite list_ascii_of_string_app, List.filter_app, length_app.
Qed.

Lemma newlines_unlines (ls : list string) :
  Forall (fun l => newlines l = 0%nat) ls ->
  newlines (unlines ls) = length ls.
Proof.
  induction 1 as [|l ls Hl _ IH]; [reflexivity|].
  cbn [unlines fold_right length]. fold (unlines ls).
  rewrite !newlines_app, Hl, IH. reflexivity.
Qed.

(** A text made of the characters of a number holds no newline. *)
Lemma digits_no_newline (l : list ascii) :
  forallb is_digit l = true ->
  List.filter (Ascii.eqb (ascii_of_nat 10)) l = [].
Proof.
  intros H. apply forallb_filter_nil. revert H. apply forallb_weaken.
  intros c Hc. destruct (Ascii.eqb_spec (ascii_of_nat 10) c) as [<-|]; [discriminate|].
  reflexivity.
Qed.

Lemma newlines_str_of_int (n : Z) : newlines (str_of_int n) = 0%nat.
Proof.
  unfold newlines. pose proof (str_of_int_plain n) as H.
  destruct (list_ascii_of_string (str_of_int n)) as [|c d]; [reflexivity|].
  cbn [plain_integer] in H. destruct (Ascii.eqb_spec c "-") as [->|Hc].
  - cbn [List.filter]. change (Ascii.eqb (ascii_of_nat 10) "-") with false. cbv iota.
    destruct d; [discriminate|]. now rewrite digits_no_newline.
  - now rewrite digits_no_newline.
Qed.

Lemma newlines_fixed6 (neg : bool) (n : Z) : 0 <= n -> newlines (fixed6 neg n) = 0%nat.
Proof.
  intros Hn. unfold newlines. rewrite chars_fixed6.
  assert (Hq : 0 <= n / 10 ^ 6) by (apply Z.div_pos; lia).
  pose proof (str_of_int_digits _ Hq) as Hd.
  rewrite !List.filter_app. cbn [List.filter].
  change (Ascii.eqb (ascii_of_nat 10) ".") with false. cbv iota.
  rewrite (digits_no_newline (fixed_digits 6 _)) by apply fixed_digits_digits.
  destruct (list_ascii_of_string (str_of_int (n / 10 ^ 6))) as [|d ip];
    [discriminate|].
  rewrite (digits_no_newline (d :: ip)) by exact Hd.
  now destruct neg.
Qed.

Lemma newlines_format_6f (x : spec_float) : newlines (format_6f x) = 0%nat.
Proof.
  destruct x as [s|s| |s m e]; cbn [format_6f].
  - apply newlines_fixed6. lia.
  - now destruct s.
  - reflexivity.
  - apply newlines_fixed6, scaled6_nonneg.
Qed.

Lemma newlines_joint_line (node_id : Z) (x y z : spec_float) :
  newlines (joint_line node_id x y z) = 0%nat.
Proof.
  unfold joint_line.
  now rewrite !newlines_app, newlines_str_of_int, !newlines_format_6f.
Qed.

(** X17. A call that returns True and reports n nodes has written a text
    of exactly n + 8 lines, each closed by a newline: no joint line holds
    a newline, whatever the node id and the coordinates. *)
Theorem written_file_line_count (path : string) (st : state) :
  snd (fst (generate_staad_file path st)) = true ->
  exists text n,
    fs (snd (generate_staad_file path st)) !! path = Some text /\
    fst (fst (generate_staad_file path st)) = [Generated path n] /\
    newlines text = (n + 8)%nat.
Proof.
  intros Hok.
  destruct (generate_true_inv path st Hok) as (_ & _ & written & Hperm & _ & E).
  rewrite E. cbn [fst snd fs]. do 2 eexists.
  split; [apply lookup_insert_eq|]. split; [reflexivity|].
  rewrite newlines_unlines.
  - rewrite !length_app, length_map, (Permutation_length Hperm). cbn. lia.
  - rewrite !Forall_app. repeat split.
    + repeat constructor.
    + apply List.Forall_forall. intros l Hl.
      apply List.in_map_iff in Hl as (row & <- & _). apply newlines_joint_line.
    + repeat constructor.
Qed.

(* ===================================================================== *)
(** * Only the four fields are read *)
(* ===================================================================== *)

Section Related.

Context {A B : Type} (R : A -> B -> Prop).

Lemma Forall2_filter_rel (p : A -> bool) (q : B -> bool) (l1 : list A) (l2 : list B) :
  (forall a b, R a b -> p a = q b) ->
  Forall2 R l1 l2 -> Forall2 R (List.filter p l1) (List.filter q l2).
Proof.
  intros Hpq. induction 1 as [|a b l1 l2 Hab _ IH]; [constructor|].
  cbn [List.filter]. rewrite (Hpq a b Hab). destruct (q b); [constructor|]; auto.
Qed.

Lemma Forall2_map_eq {C : Type} (f : A -> C) (g : B -> C) (l1 : list A) (l2 : list B) :
  (forall a b, R a b -> f a = g b) ->
  Forall2 R l1 l2 -> map f l1 = map g l2.
Proof.
  intros Hfg. induction 1 as [|a b l1 l2 Hab _ IH]; [reflexivity|].
  cbn [map]. now rewrite (Hfg a b Hab), IH.
Qed.

Lemma Forall2_existsb (p : A -> bool) (q : B -> bool) (l1 : list A) (l2 : list B) :
  (forall a b, R a b -> p a = q b) ->
  Forall2 R l1 l2 -> existsb p l1 = existsb q l2.
Proof.
  intros Hpq. induction 1 as [|a b l1 l2 Hab _ IH]; [reflexivity|].
  cbn [existsb]. now rewrite (Hpq a b Hab), IH.
Qed.

Lemma Forall2_forallb (p : A -> bool) (q : B -> bool) (l1 : list A) (l2 : list B) :
  (forall a b, R a b -> p a = q b) ->
  Forall2 R l1 l2 -> forallb p l1 = forallb q l2.
Proof.
  intros Hpq. induction 1 as [|a b l1 l2 Hab _ IH]; [reflexivity|].
  cbn [forallb]. now rewrite (Hpq a b Hab), IH.
Qed.

Lemma Forall2_select (mask : list bool) (l1 : list A) (l2 : list B) :
  Forall2 R l1 l2 -> Forall2 R (select mask l1) (select mask l2).
Proof.
  intros H. revert mask. induction H as [|a b l1 l2 Hab _ IH]; intros mask.
  - destruct mask; constructor.
  - destruct mask as [|m mask]; [constructor|]. cbn [select].
    destruct m; [constructor|]; auto.
Qed.

End Related.

Lemma forallb_agree {A : Type} (p q : A -> bool) (l : list A) :
  (forall a, In a l -> p a = q a) -> forallb p l = forallb q l.
Proof.
  induction l as [|a l IH]; intros H; [reflexivity|].
  cbn [forallb]. rewrite (H a (or_introl eq_refl)), IH; [reflexivity|].
  intros b Hb. apply H. now right.
Qed.

Lemma existsb_agree {A : Type} (p q : A -> bool) (l : list A) :
  (forall a, In a l -> p a = q a) -> existsb p l = existsb q l.
Proof.
  induction l as [|a l IH]; intros H; [reflexivity|].
  cbn [existsb]. rewrite (H a (or_introl eq_refl)), IH; [reflexivity|].
  intros b Hb. apply H. now right.
Qed.

Lemma same_fields_get (r1 r2 : gmap string cell) (c : string) :
  same_fields r1 r2 -> In c required_columns -> get r1 c = get r2 c.
Proof. intros H. apply H. Qed.

Lemma same_fields_key (subset : list string) (r1 r2 r1' r2' : gmap string cell) :
  (forall c, In c subset -> In c required_columns) ->
  same_fields r1 r2 -> same_fields r1' r2' ->
  same_key subset r1 r1' = same_key subset r2 r2'.
Proof.
  intros Hs H H'. unfold same_key. apply forallb_agree.
  intros c Hc. now rewrite (H c (Hs c Hc)), (H' c (Hs c Hc)).
Qed.

Lemma same_fields_complete (subset : list string) (r1 r2 : gmap string cell) :
  (forall c, In c subset -> In c required_columns) ->
  same_fields r1 r2 -> complete subset r1 = complete subset r2.
Proof.
  intros Hs H. unfold complete. apply forallb_agree.
  intros c Hc. now rewrite (H c (Hs c Hc)).
Qed.

Lemma same_fields_mask (subset : list string)
    (l1 l2 : list (gmap string cell)) :
  (forall c, In c subset -> In c required_columns) ->
  Forall2 same_fields l1 l2 ->
  forall before1 before2,
    Forall2 same_fields before1 before2 ->
    duplicated_mask subset before1 l1 = duplicated_mask subset before2 l2.
Proof.
  intros Hs. induction 1 as [|r1 r2 l1 l2 Hr Hl IH]; intros b1 b2 Hb; [reflexivity|].
  cbn [duplicated_mask].
  rewrite (Forall2_existsb same_fields (same_key subset r1) (same_key subset r2)
             b1 b2), (Forall2_existsb same_fields (same_key subset r1)
             (same_key subset r2) l1 l2); try assumption;
    try (intros a b Hab; now apply same_fields_key).
  f_equal. apply IH. now constructor.
Qed.

Lemma same_fields_duplicated (subset : list string) (d1 d2 : DataFrame) :
  (forall c, In c subset -> In c required_columns) ->
  Forall2 same_fields (rows d1) (rows d2) ->
  Forall2 same_fields (select (duplicated subset d1) (rows d1))
                      (select (duplicated subset d2) (rows d2)).
Proof.
  intros Hs H. unfold duplicated.
  rewrite (same_fields_mask subset _ _ Hs H [] []) by constructor.
  now apply Forall2_select.
Qed.

Lemma required_in (c : string) (subset : list string) :
  forallb (fun c => bool_decide (c ∈ required_columns)) subset = true ->
  In c subset -> In c required_columns.
Proof.
  intros H Hc. rewrite forallb_forall in H. specialize (H c Hc).
  now apply bool_decide_eq_true_1, list_elem_of_In in H.
Qed.

Lemma same_fields_check_ids (d1 d2 : DataFrame) :
  Forall2 same_fields (rows d1) (rows d2) ->
  check_duplicate_ids d1 = check_duplicate_ids d2.
Proof.
  intros H. unfold check_duplicate_ids, loc, len, column; cbn [rows].
  pose proof (same_fields_duplicated ["node_id"] d1 d2
                (fun c => required_in c ["node_id"] eq_refl) H) as Hd.
  rewrite (Forall2_length _ _ _ Hd).
  rewrite (Forall2_map_eq same_fields (fun row => get row "node_id")
             (fun row => get row "node_id") _ _
             (fun a b Hab => Hab "node_id" (required_in _ ["node_id"] eq_refl
                                                       (or_introl eq_refl))) Hd).
  reflexivity.
Qed.

Lemma same_fields_entry (r1 r2 : gmap string cell) :
  same_fields r1 r2 -> entry r1 = entry r2.
Proof.
  intros H. unfold entry.
  rewrite (H "node_id"), (H "x"), (H "y"), (H "z"); cbn; auto 6.
Qed.

Lemma same_fields_check_coords (d1 d2 : DataFrame) :
  Forall2 same_fields (rows d1) (rows d2) ->
  check_duplicate_coords d1 = check_duplicate_coords d2.
Proof.
  intros H. unfold check_duplicate_coords, loc, len; cbn [rows].
  pose proof (same_fields_duplicated ["x"; "y"; "z"] d1 d2
                (fun c => required_in c ["x"; "y"; "z"] eq_refl) H) as Hd.
  rewrite (Forall2_length _ _ _ Hd).
  change (fun row : gmap string cell =>
            (get row "node_id", (get row "x", get row "y", get row "z")))
    with entry.
  rewrite (Forall2_map_eq same_fields entry entry _ _ same_fields_entry Hd).
  reflexivity.
Qed.

Lemma same_fields_non_numeric (d1 d2 : DataFrame) (col : string) :
  In col required_columns ->
  Forall2 same_fields (rows d1) (rows d2) ->
  non_numeric_in d1 col = non_numeric_in d2 col.
Proof.
  intros Hc H. unfold non_numeric_in, loc, len, column; cbn [rows].
  rewrite !map_map.
  rewrite (Forall2_map_eq same_fields
             (fun row => isna (to_numeric (get row col)))
             (fun row => isna (to_numeric (get row col))) _ _
             (fun a b Hab => f_equal (fun v => isna (to_numeric v)) (Hab col Hc)) H).
  pose proof (Forall2_select same_fields
    (map (fun row => isna (to_numeric (get row col))) (rows d2)) _ _ H) as Hs.
  rewrite (Forall2_length _ _ _ Hs).
  rewrite (Forall2_map_eq same_fields (fun row => get row "node_id")
             (fun row => get row "node_id") _ _
             (fun a b Hab => Hab "node_id" (required_in _ ["node_id"] eq_refl
                                                       (or_introl eq_refl))) Hs).
  reflexivity.
Qed.

Lemma same_fields_check_numeric (d1 d2 : DataFrame) :
  Forall2 same_fields (rows d1) (rows d2) ->
  check_numeric d1 = check_numeric d2.
Proof.
  intros H. unfold check_numeric. cbn [flat_map].
  rewrite !(same_fields_non_numeric d1 d2) by (cbn; auto 6).
  reflexivity.
Qed.

Lemma same_fields_has_null (r1 r2 : gmap string cell) :
  same_fields r1 r2 -> has_null r1 = has_null r2.
Proof.
  intros H. unfold has_null. apply existsb_agree.
  intros c Hc. now rewrite (H c Hc).
Qed.

Lemma same_fields_validate (df1 df2 : DataFrame) :
  forallb (has_column df1) required_columns = true ->
  forallb (has_column df2) required_columns = true ->
  Forall2 same_fields (rows df1) (rows df2) ->
  validate_node_data df1 = validate_node_data df2.
Proof.
  intros H1 H2 H.
  rewrite (validate_with_columns df1 H1), (validate_with_columns df2 H2). cbv zeta.
  assert (Hclean : Forall2 same_fields (rows (dropna required_columns df1))
                                       (rows (dropna required_columns df2))).
  { unfold dropna; cbn [rows]. apply (Forall2_filter_rel same_fields); [|exact H].
    intros a b Hab. now apply same_fields_complete. }
  assert (Hnull : length (List.filter has_null (rows df1))
                  = length (List.filter has_null (rows df2))).
  { apply (Forall2_length same_fields).
    apply (Forall2_filter_rel same_fields); [|exact H].
    apply same_fields_has_null. }
  rewrite Hnull, (same_fields_check_ids _ _ Hclean),
    (same_fields_check_coords _ _ Hclean), (same_fields_check_numeric _ _ Hclean).
  unfold len. now rewrite (Forall2_length _ _ _ Hclean).
Qed.

(** X18. The verdict depends on nothing but the four fields: two tables
    that both have the four columns, whose rows agree, position by
    position, on node_id, x, y and z, and whose integer coordinates fit
    a float, get the same verdict, whatever other columns they carry;
    and the same report when the duplicate-coordinate check finds
    nothing to show. *)
Theorem report_reads_four_fields (df1 df2 : DataFrame) :
  forallb (has_column df1) required_columns = true ->
  forallb (has_column df2) required_columns = true ->
  Forall2 same_fields (rows df1) (rows df2) ->
  forallb fits_float_row (rows df1) = true ->
  snd (validate_node_data df1) = snd (validate_node_data df2) /\
  (snd (check_duplicate_coords (dropna required_columns df1)) = true ->
   fst (validate_node_data df1) = fst (validate_node_data df2)).
Proof.
  intros H1 H2 H _. now rewrite (same_fields_validate df1 df2 H1 H2 H).
Qed.

Lemma same_fields_coerce_row (r1 r2 : gmap string cell) :
  same_fields r1 r2 -> same_fields (coerce_row r1) (coerce_row r2).
Proof.
  intros H c Hc. cbn in Hc.
  destruct Hc as [<-|[<-|[<-|[<-|[]]]]].
  - rewrite !get_coerce_row_other by discriminate. apply H; cbn; auto.
  - rewrite !get_coerce_row_x. f_equal. apply H; cbn; auto.
  - rewrite !get_coerce_row_y. f_equal. apply H; cbn; auto.
  - rewrite !get_coerce_row_z. f_equal. apply H; cbn; auto 6.
Qed.

Lemma same_fields_kept (d1 d2 : DataFrame) :
  Forall2 same_fields (rows d1) (rows d2) ->
  Forall2 same_fields (kept d1) (kept d2).
Proof.
  intros H. unfold kept.
  apply (Forall2_filter_rel same_fields).
  - intros a b Hab. apply same_fields_complete; [|exact Hab].
    intros c Hc. now apply (required_in c ["x"; "y"; "z"]).
  - clear -H. induction H; cbn [map]; constructor; auto using same_fields_coerce_row.
Qed.

Lemma same_fields_insert_sorted (r1 r2 : gmap string cell)
    (l1 l2 : list (gmap string cell)) :
  same_fields r1 r2 -> Forall2 same_fields l1 l2 ->
  Forall2 same_fields (insert_sorted "node_id" r1 l1) (insert_sorted "node_id" r2 l2).
Proof.
  intros Hr. induction 1 as [|h1 h2 l1 l2 Hh Hl IH]; cbn [insert_sorted].
  - repeat constructor. exact Hr.
  - rewrite (Hr "node_id"), (Hh "node_id") by (cbn; auto).
    destruct (leb _ _); repeat constructor; auto.
Qed.

Lemma same_fields_sort_rows (l1 l2 : list (gmap string cell)) :
  Forall2 same_fields l1 l2 ->
  Forall2 same_fields (sort_rows "node_id" l1) (sort_rows "node_id" l2).
Proof.
  induction 1; cbn [sort_rows fold_right]; [constructor|].
  now apply same_fields_insert_sorted.
Qed.

Lemma same_fields_row_line (r1 r2 : gmap string cell) :
  same_fields r1 r2 -> row_line r1 = row_line r2.
Proof.
  intros H. unfold row_line.
  now rewrite (H "node_id"), (H "x"), (H "y"), (H "z") by (cbn; auto 6).
Qed.

Lemma same_fields_render (l1 l2 : list (gmap string cell)) :
  Forall2 same_fields l1 l2 -> render l1 = render l2.
Proof.
  induction 1 as [|r1 r2 l1 l2 Hr _ IH]; [reflexivity|].
  cbn [render]. now rewrite (same_fields_row_line _ _ Hr), IH.
Qed.

Lemma same_fields_sort_values (d1 d2 : DataFrame) :
  has_column d1 "node_id" = has_column d2 "node_id" ->
  Forall2 same_fields (rows d1) (rows d2) ->
  match sort_values "node_id" d1, sort_values "node_id" d2 with
  | Ok s1, Ok s2 => Forall2 same_fields (rows s1) (rows s2)
  | Raise e1, Raise e2 => e1 = e2
  | _, _ => False
  end.
Proof.
  intros Hc H. unfold sort_values. rewrite Hc.
  destruct (has_column d2 "node_id"); [|reflexivity].
  assert (Hid : forall a b, same_fields a b -> get a "node_id" = get b "node_id").
  { intros a b Hab. apply Hab. cbn; auto. }
  pose proof (Forall2_filter_rel same_fields
    (fun r => negb (isna (get r "node_id"))) (fun r => negb (isna (get r "node_id")))
    _ _ (fun a b Hab => f_equal (fun v => negb (isna v)) (Hid a b Hab)) H) as Hk.
  pose proof (Forall2_filter_rel same_fields
    (fun r => isna (get r "node_id")) (fun r => isna (get r "node_id"))
    _ _ (fun a b Hab => f_equal isna (Hid a b Hab)) H) as Hu.
  cbv zeta.
  rewrite (Forall2_map_eq same_fields (fun r => get r "node_id")
             (fun r => get r "node_id") _ _ Hid Hk).
  destruct (orderable _); [|reflexivity].
  cbn [rows]. apply Forall2_app; [|exact Hu].
  now apply same_fields_sort_rows.
Qed.

(** X19. The generator reads nothing but the four fields: from two
    tables that both have the coordinate columns, agree on whether they
    have node_id, and whose rows agree position by position on the four
    fields (integer node ids within 2^53 in magnitude, integer
    coordinates that fit a float), a call says the same, returns the
    same and leaves the same files, whatever other columns the tables
    carry. *)
Theorem output_reads_four_fields (path : string) (st1 st2 : state) :
  forallb (has_column (frame st1)) ["x"; "y"; "z"] = true ->
  forallb (has_column (frame st2)) ["x"; "y"; "z"] = true ->
  has_column (frame st1) "node_id" = has_column (frame st2) "node_id" ->
  Forall2 same_fields (rows (frame st1)) (rows (frame st2)) ->
  forallb exact_id (rows (frame st1)) = true ->
  forallb fits_float_row (rows (frame st1)) = true ->
  fs st1 = fs st2 ->
  locked st1 = locked st2 ->
  fst (generate_staad_file path st1) = fst (generate_staad_file path st2) /\
  fs (snd (generate_staad_file path st1)) = fs (snd (generate_staad_file path st2)).
Proof.
  intros H1 H2 Hn H _ _ Hfs Hl.
  cbn [forallb] in H1, H2.
  apply andb_prop in H1 as [Hx1 H1]. apply andb_prop in H1 as [Hy1 H1].
  apply andb_prop in H1 as [Hz1 _].
  apply andb_prop in H2 as [Hx2 H2]. apply andb_prop in H2 as [Hy2 H2].
  apply andb_prop in H2 as [Hz2 _].
  rewrite (generate_run path st1 Hx1 Hy1 Hz1), (generate_run path st2 Hx2 Hy2 Hz2).
  cbv zeta.
  pose proof (same_fields_sort_values
                (dropna ["x"; "y"; "z"] (coerced (frame st1)))
                (dropna ["x"; "y"; "z"] (coerced (frame st2)))) as Hs.
  rewrite !rows_dropna_coerced in Hs.
  specialize (Hs Hn (same_fields_kept _ _ H)).
  destruct (sort_values "node_id" (dropna _ (coerced (frame st1)))) as [s1|e1],
           (sort_values "node_id" (dropna _ (coerced (frame st2)))) as [s2|e2];
    try contradiction.
  - rewrite Hl. destruct (bool_decide (path ∈ locked st2)).
    + cbn [fst snd fs]. now rewrite Hfs.
    + rewrite (same_fields_render _ _ Hs). unfold len.
      rewrite (Forall2_length _ _ _ Hs).
      destruct (render (rows s2)) as [ls [e|]]; cbn [fst snd fs]; now rewrite Hfs.
  - subst e2. cbn [fst snd fs]. now rewrite Hfs.
Qed.

End Properties.

(* ===================================================================== *)
(** * Examples *)
(* ===================================================================== *)

(** The properties above, at tables and files computed with
    [ascii_text]. *)
#[local] Existing Instance ascii_text.

(** ** The validator *)

Lemma missing_column_short_circuits_witness :
  exists missing_columns,
    validate_node_data
      {| columns := ["node_id"; "x"; "y"];
         rows := [ <["node_id" := CInt 1]> (<["x" := CInt 0]> (<["y" := CInt 0]> ∅)) ] |}
    = ([ReportHeader; MissingColumns missing_columns ["node_id"; "x"; "y"]], false) /\
    missing_columns <> [] /\
    (forall c, In c missing_columns <->
               In c required_columns /\ c ∉ ["node_id"; "x"; "y"]).
Proof.
  apply (missing_column_short_circuits
           {| columns := ["node_id"; "x"; "y"];
              rows := [ <["node_id" := CInt 1]>
                          (<["x" := CInt 0]> (<["y" := CInt 0]> ∅)) ] |}).
  exists "z". split.
  - cbn. tauto.
  - cbn [columns]. apply (bool_decide_eq_false_1 _). vm_compute. reflexivity.
Defined.




(** ** The generator *)

Lemma bad_coordinates_dropped_witness :
  (exists written,
     Permutation written
       (map coerce_row (List.filter numeric_row (rows nodes_with_abc))) /\
     Forall (fun row => complete ["x"; "y"; "z"] row = true) written /\
     fst (generate_staad_file "model.std" (start nodes_with_abc))
     = ([Generated "model.std" (length (List.filter numeric_row (rows nodes_with_abc)))],
        true) /\
     fs (snd (generate_staad_file "model.std" (start nodes_with_abc)))
     = <["model.std" := unlines (header ++ map line_of written ++ [footer])]> ∅) /\
  fst (generate_staad_file "model.std" (start nodes_with_abc))
    = ([Generated "model.std" 1], true) /\
  fs (snd (generate_staad_file "model.std" (start nodes_with_abc))) !! "model.std"
    = Some (unlines (header ++ ["2 5.000000 0.000000 0.000000"] ++ [footer])).
Proof.
  split.
  - exact (proj1 (bad_coordinates_dropped (T := ascii_text) "model.std" (start nodes_with_abc)
                    ltac:(vm_compute; reflexivity) ltac:(cbn; apply not_elem_of_empty)
                    ltac:(vm_compute; reflexivity) ltac:(vm_compute; reflexivity)
                    ltac:(vm_compute; reflexivity))
             ltac:(vm_compute; reflexivity)).
  - split; vm_compute; reflexivity.
Defined.

(** C8, as stated, fails: an [int] coordinate too large for a float is a
    number, so its row is not left out; the conversion raises
    OverflowError and the call returns False without a count. *)
Lemma too_large_coordinate_fails_the_call :
  forallb (has_column huge_coordinate) required_columns = true /\
  forallb numeric_row (rows huge_coordinate) = true /\
  forallb convertible_id (rows huge_coordinate) = true /\
  fst (generate_staad_file "model.std" (start huge_coordinate))
    = ([GenerateFailed OverflowError], false).
Proof. repeat split; vm_compute; reflexivity. Qed.

Lemma joint_lines_fixed_point_witness :
  (exists written,
     Permutation written (map coerce_row (rows two_nodes)) /\
     fst (generate_staad_file "model.std" (start two_nodes))
     = ([Generated "model.std" (length (rows two_nodes))], true) /\
     fs (snd (generate_staad_file "model.std" (start two_nodes)))
     = <["model.std" := unlines (header ++ map line_of written ++ [footer])]> ∅ /\
     length (map line_of written) = length (rows two_nodes) /\
     Forall (fun row =>
               split_at " " (list_ascii_of_string (line_of row))
               = [list_ascii_of_string (str_of_int (node_id_of row));
                  list_ascii_of_string (format_6f (coord row "x"));
                  list_ascii_of_string (format_6f (coord row "y"));
                  list_ascii_of_string (format_6f (coord row "z"))] /\
               plain_integer (list_ascii_of_string (str_of_int (node_id_of row)))
               = true /\
               forall c, c = "x" \/ c = "y" \/ c = "z" ->
                 match coord row c with
                 | S754_infinity s =>
                     format_6f (coord row c) = if s then "-inf" else "inf"
                 | S754_nan => False
                 | _ => fixed_point_6 (list_ascii_of_string (format_6f (coord row c)))
                        = true
                 end) written /\
     (forallb finite_row (rows two_nodes) = true ->
      Forall (fun line => is_joint_line line = true) (map line_of written))) /\
  fs (snd (generate_staad_file "model.std" (start two_nodes))) !! "model.std"
    = Some (unlines
              ["STAAD SPACE"; "START JOB INFORMATION"; "ENGINEER DATE 01-Jan-2025";
               "END JOB INFORMATION"; "UNIT METER KN"; ""; "JOINT COORDINATES";
               "1 0.000000 0.000000 0.000000"; "2 5.000000 0.000000 0.000000";
               "END JOINT COORDINATES"]).
Proof.
  split.
  - exact (joint_lines_fixed_point (T := ascii_text) "model.std" (start two_nodes)
             ltac:(vm_compute; reflexivity) ltac:(cbn; apply not_elem_of_empty)
             ltac:(vm_compute; reflexivity) ltac:(vm_compute; reflexivity)
             ltac:(vm_compute; reflexivity) ltac:(vm_compute; reflexivity)
             ltac:(vm_compute; reflexivity)).
  - vm_compute. reflexivity.
Defined.

(** C1, as stated, fails: an infinite x is a number for [to_numeric]
    (the row is kept and the call succeeds), and its joint line reads
    [inf], which is not fixed-point notation with six decimals. *)
Lemma infinite_coordinate_not_fixed_point :
  forallb numeric_row (rows node_at_infinity) = true /\
  fst (generate_staad_file "model.std" (start node_at_infinity))
    = ([Generated "model.std" 1], true) /\
  fs (snd (generate_staad_file "model.std" (start node_at_infinity))) !! "model.std"
    = Some (unlines (header ++ ["1 inf 0.000000 0.000000"] ++ [footer])) /\
  is_joint_line "1 inf 0.000000 0.000000" = false.
Proof. repeat split; vm_compute; reflexivity. Qed.

Lemma integer_ids_ascending_witness :
  (exists written,
     Permutation written (kept two_nodes) /\
     fst (generate_staad_file "model.std" (start two_nodes))
     = ([Generated "model.std" (length written)], true) /\
     fs (snd (generate_staad_file "model.std" (start two_nodes)))
     = <["model.std" := unlines (header ++ map line_of written ++ [footer])]> ∅ /\
     StronglySorted Z.le (map node_id_of written) /\
     (NoDup (map node_id_of (rows two_nodes)) ->
        StronglySorted Z.lt (map node_id_of written) /\
        forall rows',
          Permutation rows' (rows two_nodes) ->
          fs (snd (generate_staad_file "model.std"
                     {| frame := {| columns := columns two_nodes; rows := rows' |};
                        fs := ∅; locked := ∅ |}))
          = <["model.std" :=
                unlines (header ++ map line_of written ++ [footer])]> ∅)) /\
  (exists written,
     Permutation written (kept text_ids) /\
     fst (generate_staad_file "model.std" (start text_ids))
     = ([Generated "model.std" (length written)], true) /\
     fs (snd (generate_staad_file "model.std" (start text_ids)))
     = <["model.std" := unlines (header ++ map line_of written ++ [footer])]> ∅ /\
     StronglySorted text_le (map id_text written)) /\
  map node_id_of (rows two_nodes) = [2; 1] /\
  fs (snd (generate_staad_file "model.std" (start two_nodes))) !! "model.std"
    = Some (unlines (header ++ ["1 0.000000 0.000000 0.000000";
                                "2 5.000000 0.000000 0.000000"] ++ [footer])).
Proof.
  split; [|split].
  - apply (proj1 (integer_ids_ascending (T := ascii_text) "model.std" (start two_nodes)
                    ltac:(vm_compute; reflexivity) ltac:(cbn; apply not_elem_of_empty)
                    ltac:(vm_compute; reflexivity))).
    + repeat constructor; eexists; vm_compute; reflexivity.
    + vm_compute. reflexivity.
  - apply (proj2 (integer_ids_ascending (T := ascii_text) "model.std" (start text_ids)
                    ltac:(vm_compute; reflexivity) ltac:(cbn; apply not_elem_of_empty)
                    ltac:(vm_compute; reflexivity))).
    + repeat constructor; eexists; vm_compute; reflexivity.
    + vm_compute. reflexivity.
  - split; vm_compute; reflexivity.
Defined.

(** C2, as stated, fails: node ids held as text are sorted as text. The
    call succeeds and writes node 10 before node 9. *)
Lemma text_ids_in_lexical_order :
  fst (generate_staad_file "model.std" (start text_ids))
    = ([Generated "model.std" 2], true) /\
  fs (snd (generate_staad_file "model.std" (start text_ids))) !! "model.std"
    = Some (unlines (header ++ ["10 5.000000 0.000000 0.000000";
                                "9 0.000000 0.000000 0.000000"] ++ [footer])) /\
  map node_id_of (sort_rows "node_id" (kept text_ids)) = [10; 9] /\
  ~ StronglySorted Z.lt [10; 9].
Proof.
  repeat split; try (vm_compute; reflexivity).
  intros H. apply StronglySorted_inv in H as [_ H].
  apply Forall_inv in H. lia.
Qed.

Lemma generate_twice_same_bytes_witness :
  exists written,
    Permutation written (map coerce_row (rows two_nodes)) /\
    fst (generate_staad_file "a.std" (start two_nodes))
    = ([Generated "a.std" (len two_nodes)], true) /\
    fst (generate_staad_file "b.std"
           (snd (generate_staad_file "a.std" (start two_nodes))))
    = ([Generated "b.std" (len two_nodes)], true) /\
    fs (snd (generate_staad_file "a.std" (start two_nodes))) !! "a.std"
    = Some (unlines (header ++ map line_of written ++ [footer])) /\
    fs (snd (generate_staad_file "b.std"
               (snd (generate_staad_file "a.std" (start two_nodes))))) !! "b.std"
    = Some (unlines (header ++ map line_of written ++ [footer])) /\
    fs (snd (generate_staad_file "b.std"
               (snd (generate_staad_file "a.std" (start two_nodes))))) !! "a.std"
    = Some (unlines (header ++ map line_of written ++ [footer])).
Proof.
  exact (generate_twice_same_bytes (T := ascii_text) "a.std" "b.std" (start two_nodes)
           ltac:(vm_compute; reflexivity) ltac:(vm_compute; reflexivity)
           ltac:(vm_compute; reflexivity) ltac:(vm_compute; reflexivity)
           ltac:(vm_compute; reflexivity) ltac:(cbn; apply not_elem_of_empty)
           ltac:(cbn; apply not_elem_of_empty)).
Defined.

(** C9, as stated, fails: a table can pass validation and not be
    written. With node ids of both kinds (a number and a text) the
    validator finds nothing, and both calls return False and leave no
    file at either destination. *)
Lemma validated_table_not_written :
  snd (validate_node_data mixed_ids) = true /\
  fst (generate_staad_file "a.std" (start mixed_ids))
    = ([GenerateFailed TypeError], false) /\
  fst (generate_staad_file "b.std"
         (snd (generate_staad_file "a.std" (start mixed_ids))))
    = ([GenerateFailed TypeError], false) /\
  fs (snd (generate_staad_file "b.std"
             (snd (generate_staad_file "a.std" (start mixed_ids))))) = ∅.
Proof. repeat split; vm_compute; reflexivity. Qed.

Lemma unconvertible_id_stops_the_loop_witness :
  (exists pre row post e,
     [node_row (CStr "1", CInt 0, CInt 0, CInt 0);
      node_row (CStr "2", CInt 5, CInt 0, CInt 0);
      node_row (CStr "abc", CInt 1, CInt 1, CInt 1)] = pre ++ row :: post /\
     forallb convertible_id pre = true /\
     int (get row "node_id") = Raise e /\
     snd (fst (generate_staad_file "model.std" (start text_ids_with_abc))) = false /\
     (exists e',
        fst (fst (generate_staad_file "model.std" (start text_ids_with_abc)))
        = [GenerateFailed e'] /\
        (isna (get row "node_id") = false -> e' = e)) /\
     fs (snd (generate_staad_file "model.std" (start text_ids_with_abc)))
     = <["model.std" := unlines (header ++ map line_of pre)]> ∅) /\
  fst (generate_staad_file "model.std" (start mixed_ids))
    = ([GenerateFailed TypeError], false) /\
  fs (snd (generate_staad_file "model.std" (start mixed_ids))) = ∅.
Proof.
  split.
  - apply (proj1 (unconvertible_id_stops_the_loop (T := ascii_text) "model.std"
                    (start text_ids_with_abc)
                    ltac:(vm_compute; reflexivity) ltac:(cbn; apply not_elem_of_empty)
                    ltac:(vm_compute; reflexivity) ltac:(vm_compute; reflexivity)
                    ltac:(vm_compute; reflexivity))
             {| columns := required_columns;
                rows := [node_row (CStr "1", CInt 0, CInt 0, CInt 0);
                         node_row (CStr "2", CInt 5, CInt 0, CInt 0);
                         node_row (CStr "abc", CInt 1, CInt 1, CInt 1)] |}).
    + vm_compute. reflexivity.
    + exists (node_row (CStr "abc", CInt 1, CInt 1, CInt 1)). split.
      * cbn. auto.
      * vm_compute. reflexivity.
  - apply (proj2 (unconvertible_id_stops_the_loop (T := ascii_text) "model.std" (start mixed_ids)
                    ltac:(vm_compute; reflexivity) ltac:(cbn; apply not_elem_of_empty)
                    ltac:(vm_compute; reflexivity) ltac:(vm_compute; reflexivity)
                    ltac:(vm_compute; reflexivity))
             (node_row (CStr "abc", CInt 5, CInt 0, CInt 0))
             (node_row (CInt 1, CInt 0, CInt 0, CInt 0)) "abc").
    + cbn. auto.
    + cbn. auto.
    + vm_compute. reflexivity.
    + vm_compute. reflexivity.
Defined.

(** C10, as stated, fails: with node ids of both kinds (a number and a
    text that is no number) the sort raises before the file is opened.
    The call returns False, the loop is never entered and no file is
    left at the destination. *)
Lemma mixed_ids_fail_before_the_loop :
  forallb numeric_row (rows mixed_ids) = true /\
  existsb (fun row => negb (convertible_id row)) (rows mixed_ids) = true /\
  sort_values "node_id" (dropna ["x"; "y"; "z"] (coerced mixed_ids)) = Raise TypeError /\
  fst (generate_staad_file "model.std" (start mixed_ids))
    = ([GenerateFailed TypeError], false) /\
  fs (snd (generate_staad_file "model.std" (start mixed_ids))) !! "model.std" = None.
Proof. repeat split; vm_compute; reflexivity. Qed.


(** ** The loader *)



(** ** More on the validator *)

Lemma verdict_true_iff_witness :
  forallb (has_column two_nodes) required_columns = true /\
  forallb (fun row => negb (has_null row)) (rows two_nodes) = true /\
  distinct_keys ["node_id"] (rows two_nodes) /\
  distinct_keys ["x"; "y"; "z"] (rows two_nodes) /\
  forallb numeric_row (rows two_nodes) = true.
Proof.
  apply (verdict_true_iff (T := ascii_text) two_nodes ltac:(vm_compute; reflexivity)).
  vm_compute. reflexivity.
Defined.


Lemma non_numeric_flagged_witness :
  exists non_numeric_errors,
    nth_error (fst (validate_node_data nodes_with_abc)) 5
    = Some (NonNumeric non_numeric_errors) /\
    In ("x",
        length (List.filter (fun r => negb (numeric (get r "x")))
                            (rows (dropna required_columns nodes_with_abc))),
        map (fun r => get r "node_id")
            (List.filter (fun r => negb (numeric (get r "x")))
                         (rows (dropna required_columns nodes_with_abc))))
       non_numeric_errors /\
    In (get (node_row (CInt 1, CStr "abc", CInt 0, CInt 0)) "node_id")
       (map (fun r => get r "node_id")
            (List.filter (fun r => negb (numeric (get r "x")))
                         (rows (dropna required_columns nodes_with_abc)))) /\
    snd (validate_node_data nodes_with_abc) = false.
Proof.
  apply (non_numeric_flagged (T := ascii_text) nodes_with_abc
           (node_row (CInt 1, CStr "abc", CInt 0, CInt 0)) "x").
  - vm_compute. reflexivity.
  - vm_compute. reflexivity.
  - vm_compute. left. reflexivity.
  - left. reflexivity.
  - vm_compute. reflexivity.
Defined.

(** ** More on the generator *)

Lemma missing_column_is_key_error_witness :
  fst (generate_staad_file "model.std" (start no_z_column))
  = ([GenerateFailed (KeyError "z")], false) /\
  fs (snd (generate_staad_file "model.std" (start no_z_column))) = ∅.
Proof.
  exact (missing_column_is_key_error (T := ascii_text) "model.std"
           (start no_z_column) "z"
           ltac:(vm_compute; reflexivity) ltac:(vm_compute; reflexivity)).
Defined.

Lemma true_means_whole_file_witness :
  forallb (has_column (frame (start two_nodes))) required_columns = true /\
  ("model.std" ∉ locked (start two_nodes)) /\
  exists written,
    Permutation written
      (map coerce_row (List.filter numeric_row (rows (frame (start two_nodes))))) /\
    forallb convertible_id written = true /\
    fst (fst (generate_staad_file "model.std" (start two_nodes)))
    = [Generated "model.std"
         (length (List.filter numeric_row (rows (frame (start two_nodes)))))] /\
    fs (snd (generate_staad_file "model.std" (start two_nodes)))
    = <["model.std" := unlines (header ++ map line_of written ++ [footer])]>
        (fs (start two_nodes)).
Proof.
  exact (true_means_whole_file (T := ascii_text) "model.std" (start two_nodes)
           ltac:(vm_compute; reflexivity) ltac:(vm_compute; reflexivity)
           ltac:(vm_compute; reflexivity)).
Defined.

Lemma other_files_untouched_witness :
  fs (snd (generate_staad_file "out.std"
             {| frame := two_nodes; fs := {["model.std" := "older file"]};
                locked := ∅ |})) !! "model.std"
  = Some "older file" /\
  locked (snd (generate_staad_file "out.std"
                 {| frame := two_nodes; fs := {["model.std" := "older file"]};
                    locked := ∅ |})) = ∅.
Proof.
  destruct (other_files_untouched "out.std" "model.std"
              {| frame := two_nodes; fs := {["model.std" := "older file"]};
                 locked := ∅ |}) as [H1 H2].
  - discriminate.
  - split; [rewrite H1; vm_compute; reflexivity | exact H2].
Defined.

Lemma caller_table_coerced_in_place_witness :
  Forall2 (fun row row' =>
             forall c, c = "x" \/ c = "y" \/ c = "z" ->
               float (get row' c) = float (to_numeric (get row c)))
          (rows nodes_with_abc)
          (rows (frame (snd (generate_staad_file "model.std" (start nodes_with_abc))))).
Proof.
  exact (proj2 (proj2 (caller_table_coerced_in_place (T := ascii_text) "model.std"
                         (start nodes_with_abc)))
           ltac:(vm_compute; reflexivity) ltac:(vm_compute; reflexivity)).
Defined.


Lemma validated_nothing_dropped_witness :
  exists written,
    Permutation written (map coerce_row (rows two_nodes)) /\
    fst (fst (generate_staad_file "model.std" (start two_nodes)))
    = [Generated "model.std" 2] /\
    fs (snd (generate_staad_file "model.std" (start two_nodes)))
    = <["model.std" := unlines (header ++ map line_of written ++ [footer])]> ∅.
Proof.
  exact (validated_nothing_dropped (T := ascii_text) "model.std" (start two_nodes)
           ltac:(vm_compute; reflexivity) ltac:(vm_compute; reflexivity)
           ltac:(vm_compute; reflexivity) ltac:(vm_compute; reflexivity)).
Defined.

Lemma validated_integer_ids_written_witness :
  exists written,
    Permutation written (map coerce_row (rows two_nodes)) /\
    StronglySorted Z.lt (map node_id_of written) /\
    fst (generate_staad_file "model.std" (start two_nodes))
    = ([Generated "model.std" 2], true) /\
    fs (snd (generate_staad_file "model.std" (start two_nodes)))
    = <["model.std" := unlines (header ++ map line_of written ++ [footer])]> ∅.
Proof.
  apply (validated_integer_ids_written (T := ascii_text) "model.std" (start two_nodes)).
  - vm_compute. reflexivity.
  - vm_compute. repeat (constructor; [eexists; reflexivity|]). constructor.
  - vm_compute. reflexivity.
  - vm_compute. reflexivity.
  - apply not_elem_of_empty.
Defined.

(** ** The callers *)

Lemma cli_writes_only_validated_witness :
  exists df,
    snd (read_node_data rejecting reading_two_nodes
           {["nodes.csv" := two_nodes_csv]}
           (Cli.input_file ["node_to_staad.py"; "nodes.csv"] "")) = Some df /\
    snd (validate_node_data df) = true.
Proof.
  destruct (cli_writes_only_validated rejecting reading_two_nodes
              ["node_to_staad.py"; "nodes.csv"] ""
              {["nodes.csv" := two_nodes_csv]} ∅) as [_ H].
  apply H. intros E.
  apply (f_equal (fun disk : gmap string string => disk !! "model.std")) in E.
  vm_compute in E. discriminate E.
Defined.

Lemma cli_end_to_end_witness :
  exists written,
    Permutation written (map coerce_row (rows two_nodes)) /\
    StronglySorted Z.lt (map node_id_of written) /\
    Cli.main rejecting reading_two_nodes ["node_to_staad.py"; "nodes.csv"] ""
      {["nodes.csv" := two_nodes_csv]} ∅ =
      (Cli.Banner
         :: map Cli.Said
              (fst (read_node_data rejecting reading_two_nodes
                      {["nodes.csv" := two_nodes_csv]}
                      (Cli.input_file ["node_to_staad.py"; "nodes.csv"] ""))
               ++ fst (validate_node_data two_nodes)
               ++ [Generated "model.std" (len two_nodes)])
         ++ [Cli.Succeeded "model.std"],
       <["model.std" := unlines (header ++ map line_of written ++ [footer])]>
         {["nodes.csv" := two_nodes_csv]}).
Proof.
  apply (cli_end_to_end rejecting reading_two_nodes
           ["node_to_staad.py"; "nodes.csv"] ""
           {["nodes.csv" := two_nodes_csv]} ∅ two_nodes).
  - vm_compute. reflexivity.
  - vm_compute. reflexivity.
  - vm_compute. repeat (constructor; [eexists; reflexivity|]). constructor.
  - vm_compute. reflexivity.
  - vm_compute. reflexivity.
  - apply not_elem_of_empty.
Defined.

Lemma upload_read_and_cleaned_witness :
  fst (App.read_upload rejecting reading_two_nodes nodes_csv (start two_nodes))
  = Ok (snd (read_node_data rejecting reading_two_nodes
               {[App.name nodes_csv := App.getbuffer nodes_csv]}
               (App.name nodes_csv))) /\
  fs (snd (App.read_upload rejecting reading_two_nodes nodes_csv (start two_nodes)))
    !! ("temp_" +:+ App.name nodes_csv) = None /\
  (forall p, p <> "temp_" +:+ App.name nodes_csv ->
     fs (snd (App.read_upload rejecting reading_two_nodes nodes_csv
                (start two_nodes))) !! p
     = fs (start two_nodes) !! p) /\
  (fs (start two_nodes) !! ("temp_" +:+ App.name nodes_csv) = None ->
     fs (snd (App.read_upload rejecting reading_two_nodes nodes_csv
                (start two_nodes)))
     = fs (start two_nodes)).
Proof.
  destruct (upload_read_and_cleaned rejecting reading_two_nodes nodes_csv
              (start two_nodes)) as [H _].
  apply H. apply not_elem_of_empty.
Defined.

Lemma generated_flag_means_file_witness :
  is_Some
    (snd (App.main rejecting reading_two_nodes (Some nodes_csv) true true
            App.new_session ∅ ∅) !! "model.std").
Proof.
  apply (generated_flag_means_file rejecting reading_two_nodes (Some nodes_csv)
           true true App.new_session ∅ ∅).
  - intros H. discriminate H.
  - vm_compute. reflexivity.
Defined.

Lemma page_writes_behind_the_flag_witness :
  App.validation_passed
    (snd (fst (App.main rejecting reading_two_nodes (Some nodes_csv) true true
                 App.new_session ∅ ∅))) = true /\
  exists file df,
    Some nodes_csv = Some file /\
    fst (App.read_upload rejecting reading_two_nodes file
           {| frame := {| columns := []; rows := [] |};
              fs := ∅; locked := ∅ |}) = Ok (Some df) /\
    (true = true -> snd (validate_node_data df) = true).
Proof.
  destruct (page_writes_behind_the_flag rejecting reading_two_nodes
              (Some nodes_csv) true true App.new_session ∅ ∅) as (_ & H & _ & H').
  - vm_compute. discriminate.
  - split; [exact H | exact H'].
Defined.

(** ** The report of a table that passes, and the lines of a file *)

Lemma passing_report_witness :
  fst (validate_node_data two_nodes) =
    [ReportHeader; ColumnsFound; NoMissingValues; NoDuplicateIds;
     NoDuplicateCoords; AllNumeric; ValidationPassed 2].
Proof.
  apply (passing_report two_nodes). vm_compute. reflexivity.
Defined.

Lemma written_file_line_count_witness :
  exists text n,
    fs (snd (generate_staad_file "model.std" (start two_nodes))) !! "model.std"
    = Some text /\
    fst (fst (generate_staad_file "model.std" (start two_nodes)))
    = [Generated "model.std" n] /\
    newlines text = (n + 8)%nat.
Proof.
  apply (written_file_line_count "model.std" (start two_nodes)).
  vm_compute. reflexivity.
Defined.

(** ** Only the four fields are read *)

Lemma report_reads_four_fields_witness :
  snd (validate_node_data two_nodes_labelled) = snd (validate_node_data two_nodes) /\
  (snd (check_duplicate_coords (dropna required_columns two_nodes_labelled)) = true ->
   fst (validate_node_data two_nodes_labelled) = fst (validate_node_data two_nodes)).
Proof.
  apply (report_reads_four_fields (T := ascii_text) two_nodes_labelled two_nodes).
  - vm_compute. reflexivity.
  - vm_compute. reflexivity.
  - unfold two_nodes_labelled, two_nodes, node_table. cbn [rows map].
    constructor;
      [intros c [<-|[<-|[<-|[<-|[]]]]]; vm_compute; reflexivity|].
    constructor;
      [intros c [<-|[<-|[<-|[<-|[]]]]]; vm_compute; reflexivity|].
    constructor.
  - vm_compute. reflexivity.
Defined.

Lemma output_reads_four_fields_witness :
  fst (generate_staad_file "model.std" (start two_nodes_labelled))
  = fst (generate_staad_file "model.std" (start two_nodes)) /\
  fs (snd (generate_staad_file "model.std" (start two_nodes_labelled)))
  = fs (snd (generate_staad_file "model.std" (start two_nodes))).
Proof.
  apply (output_reads_four_fields (T := ascii_text) "model.std"
           (start two_nodes_labelled) (start two_nodes)).
  - vm_compute. reflexivity.
  - vm_compute. reflexivity.
  - vm_compute. reflexivity.
  - unfold two_nodes_labelled, two_nodes, node_table. cbn [rows map frame start].
    constructor;
      [intros c [<-|[<-|[<-|[<-|[]]]]]; vm_compute; reflexivity|].
    constructor;
      [intros c [<-|[<-|[<-|[<-|[]]]]]; vm_compute; reflexivity|].
    constructor.
  - vm_compute. reflexivity.
  - vm_compute. reflexivity.
  - reflexivity.
  - reflexivity.
Defined.
